(** * AI real-estate call bot: knowledge engine and per-call dialogue controller

    A shallow embedding of [properties_rag.py] (class [RealEstateRAG]),
    [twilio_webhookx.py] (class [CallAssistant], routes [/voice] and
    [/process]) and of [handle_intents] of [voice2.py].

    Conventions.
    - Python [str] is a [string]; non-ASCII text is carried as its UTF-8
      bytes.  [lower] and [strip] act on ASCII letters and on the ASCII
      characters Python counts as white space; other bytes pass unchanged.
    - The external collaborators (FAISS, the document loaders, the text
      splitter, Gemini, the clock, the thread pool's timing) are fields of
      an environment record.  Each one receives the history of the external
      calls made so far, so its answer may change from one call to the next.
    - [print] and [logging] calls are not part of the model. *)

From Stdlib Require Import String Ascii List ZArith Bool Lia.
From stdpp Require Import base option gmap strings list fin_maps pretty.

Import ListNotations.
Local Open Scope string_scope.

(** ** Text primitives of the Python runtime *)

Module Text.

(** The double quote character, as a one-character string. *)
Definition dquote : string := String (ascii_of_nat 34) EmptyString.

(** One line feed, the [\n] of the source. *)
Definition nl : string := String (ascii_of_nat 10) EmptyString.

Definition is_upper (c : ascii) : bool :=
  let n := nat_of_ascii c in (65 <=? n)%nat && (n <=? 90)%nat.

Definition lower_char (c : ascii) : ascii :=
  if is_upper c then ascii_of_nat (nat_of_ascii c + 32) else c.

(** [s.lower()] *)
Fixpoint lower (s : string) : string :=
  match s with
  | EmptyString => EmptyString
  | String c t => String (lower_char c) (lower t)
  end.

(** [s.startswith(p)] *)
Fixpoint startswith (p s : string) : bool :=
  match p, s with
  | EmptyString, _ => true
  | String _ _, EmptyString => false
  | String a p', String b s' => if ascii_dec a b then startswith p' s' else false
  end.

(** [needle in hay] on strings *)
Fixpoint str_in (needle hay : string) : bool :=
  startswith needle hay ||
  match hay with
  | EmptyString => false
  | String _ t => str_in needle t
  end.

(** Characters removed by [str.strip()] with no argument. *)
Definition is_space (c : ascii) : bool :=
  let n := nat_of_ascii c in
  ((9 <=? n)%nat && (n <=? 13)%nat) || ((28 <=? n)%nat && (n <=? 32)%nat).

(** [s.lstrip()] *)
Fixpoint lstrip (s : string) : string :=
  match s with
  | EmptyString => EmptyString
  | String c t => if is_space c then lstrip t else s
  end.

(** [s.rstrip()] *)
Fixpoint rstrip (s : string) : string :=
  match s with
  | EmptyString => EmptyString
  | String c t =>
      match rstrip t with
      | EmptyString => if is_space c then EmptyString else String c EmptyString
      | r => String c r
      end
  end.

(** [s.strip()] *)
Definition strip (s : string) : string := rstrip (lstrip s).

(** [sep.join(parts)] *)
Fixpoint join (sep : string) (parts : list string) : string :=
  match parts with
  | [] => EmptyString
  | [p] => p
  | p :: rest => p +:+ sep +:+ join sep rest
  end.

(** Truth value of a string: [bool(s)], so [not s] is [negb (truthy s)]. *)
Definition truthy (s : string) : bool :=
  match s with EmptyString => false | String _ _ => true end.

(** [any(p(x) for x in xs)] *)
Definition any {A} (p : A -> bool) (xs : list A) : bool := existsb p xs.

(** Every character is white space (the empty string included). *)
Fixpoint all_space (s : string) : bool :=
  match s with
  | EmptyString => true
  | String c t => is_space c && all_space t
  end.

(** [needle] is a substring of [hay]. *)
Definition occurs_in (needle hay : string) : Prop :=
  exists before after, hay = before +:+ needle +:+ after.

(** Some phrase of a phrase table is a substring of the text. *)
Definition contains_phrase (phrases : list string) (text : string) : Prop :=
  exists phrase, In phrase phrases /\ occurs_in phrase text.

End Text.

Import Text.

(** ** Intent detection *)

Inductive intent := confirm | reject | unknown.

(** [CallAssistant.handle_intents] of [twilio_webhookx.py]. *)
Module CallAssistantIntents.

Definition confirm_triggers : list string :=
  ["yes"; "sure"; "go ahead"; "ok"; "interested"].
Definition reject_triggers : list string :=
  ["no"; "not now"; "not interested"; "stop"; "leave me"].

Definition handle_intents (user_input : string) : intent :=
  if any (fun word => str_in word user_input) confirm_triggers then confirm
  else if any (fun word => str_in word user_input) reject_triggers then reject
  else unknown.

End CallAssistantIntents.

(** [VoiceAssistant.handle_intents] of [voice2.py]. *)
Module VoiceAssistantIntents.

Definition confirm_triggers : list string :=
  ["yes"; "let's do it"; "go ahead"; "i'm ready"; "interested"; "please do";
   "okay"; "ok"].
Definition reject_triggers : list string :=
  ["no"; "not now"; "not interested"; "leave me"; "don't"; "not today"].

Definition handle_intents (user_input : string) : intent :=
  if any (fun word => str_in word user_input) confirm_triggers then confirm
  else if any (fun word => str_in word user_input) reject_triggers then reject
  else unknown.

End VoiceAssistantIntents.

(** ** Exceptions, external calls and the effect monad *)

(** Every exception the code meets is an [Exception]; the one raised by
    [Future.result] when the wait runs out is kept apart. *)
Inductive exn :=
| Exception (msg : string)
| TimeoutError.

Inductive result (A : Type) :=
| Ok (value : A)
| Raise (e : exn).
Arguments Ok {A} value.
Arguments Raise {A} e.

Definition is_ok {A} (r : result A) : bool :=
  match r with Ok _ => true | Raise _ => false end.

(** A LangChain [Document]. *)
Record Document := mkDocument {
  page_content : string;
  metadata : list (string * string)
}.

(** A FAISS index is opaque to this code; it is named by how it was
    obtained. *)
Inductive VectorStore :=
| LoadedFrom (index_dir : string)
| BuiltFrom (texts : list string) (metadatas : list (list (string * string))).

(** The calls that leave the process, in the order they were made. *)
Inductive event :=
| EvLoadLocal (index_dir : string)
| EvCSVLoad (path : string)
| EvTextLoad (path : string)
| EvFromTexts (texts : list string) (metadatas : list (list (string * string)))
| EvSaveLocal (store : VectorStore) (index_dir : string)
| EvSimilaritySearch (store : VectorStore) (query : string) (k : Z)
| EvGenerate (prompt : string).

Definition is_generate (ev : event) : bool :=
  match ev with EvGenerate _ => true | _ => false end.

Definition is_search (ev : event) : bool :=
  match ev with EvSimilaritySearch _ _ _ => true | _ => false end.

Definition is_build (ev : event) : bool :=
  match ev with
  | EvCSVLoad _ | EvTextLoad _ | EvFromTexts _ _ | EvSaveLocal _ _ => true
  | _ => false
  end.

(** How many times the Generation Client was called in a history. *)
Definition generation_calls (h : list event) : nat :=
  length (List.filter is_generate h).

(** How many times the index was searched in a history. *)
Definition search_calls (h : list event) : nat :=
  length (List.filter is_search h).

Inductive task_id := RagTask | AiTask.

(** The world outside the process.  Every field sees the calls made so far. *)
Record Env := mkEnv {
  (** [os.path.exists(path)] *)
  path_exists : list event -> string -> bool;
  (** [FAISS.load_local(dir, embeddings, ...)]: succeeds or raises *)
  load_local : list event -> string -> result unit;
  (** [CSVLoader(file_path=path).load()] *)
  csv_load : list event -> string -> result (list Document);
  (** [TextLoader(path, encoding="utf-8").load()] *)
  text_load : list event -> string -> result (list Document);
  (** [RecursiveCharacterTextSplitter(chunk_size, chunk_overlap).split_documents] *)
  split_documents : Z -> Z -> list Document -> list Document;
  (** [FAISS.from_texts(texts, embeddings, metadatas=...)]: succeeds or raises *)
  from_texts : list event -> list string -> list (list (string * string)) -> result unit;
  (** [vectorstore.save_local(dir)] *)
  save_local : list event -> VectorStore -> string -> result unit;
  (** [vectorstore.similarity_search(query, k=k)] *)
  similarity_search : list event -> VectorStore -> string -> Z -> result (list Document);
  (** [genai.GenerativeModel("gemini-2.5-flash").generate_content(prompt).text] *)
  generate_content : list event -> string -> result string;
  (** whether a submitted task is done when [result(timeout=t)] stops waiting *)
  finished_within : list event -> task_id -> Z -> bool;
  (** [time.time()], kept as an opaque clock reading *)
  time_time : list event -> Z
}.

(** State and exception monad: a raise keeps the state reached so far. *)
Definition M (S A : Type) : Type := S -> result A * S.

Definition ret {S A} (a : A) : M S A := fun s => (Ok a, s).

Definition raise {S A} (e : exn) : M S A := fun s => (Raise e, s).

Definition bind {S A B} (m : M S A) (f : A -> M S B) : M S B :=
  fun s =>
    match m s with
    | (Ok a, s') => f a s'
    | (Raise e, s') => (Raise e, s')
    end.

(** [try: m  except Exception as e: handler e] *)
Definition try_except {S A} (m : M S A) (handler : exn -> M S A) : M S A :=
  fun s =>
    match m s with
    | (Ok a, s') => (Ok a, s')
    | (Raise e, s') => handler e s'
    end.

Declare Scope py_scope.
Delimit Scope py_scope with py.
Notation "x <- c1 ;; c2" := (bind c1 (fun x => c2))
  (at level 100, c1 at next level, right associativity) : py_scope.
Notation "c1 ;;; c2" := (bind c1 (fun _ => c2))
  (at level 100, right associativity) : py_scope.
Local Open Scope py_scope.

(** An external call: the world answers from the history, the call is logged. *)
Definition call {A} (ev : event) (answer : list event -> result A)
  : M (list event) A :=
  fun h => (answer h, (h ++ [ev])%list).

(** An observation of the world that is not logged. *)
Definition observe {A} (answer : list event -> A) : M (list event) A :=
  fun h => (Ok (answer h), h).

(** [for x in xs: body x] *)
Fixpoint for_each {S A} (xs : list A) (body : A -> M S unit) : M S unit :=
  match xs with
  | [] => ret tt
  | x :: rest => body x ;;; for_each rest body
  end.

(** [text1 line-break text2 ...], the layout of a triple-quoted literal. *)
Definition lines (ls : list string) : string := join nl ls.

(** ** [properties_rag.py]: class [RealEstateRAG] *)

Module PropertiesRAG.

Definition DATA_FILES_csv : list string :=
  ["data/dubai_property_index.csv";
   "data/summary_transactions.csv";
   "data/valuations1_rag.csv";
   "data/valuation2_rag.csv";
   "data/rents_rag.csv";
   "data/residential_sale_index_rag.csv";
   "data/faq_questions.csv"].

Definition DATA_FILES_txt : list string :=
  ["data/about_company.txt";
   "data/dubai_real_estate_market_analysis.txt";
   "data/about_the_bot.txt"].

Definition COMPANY_PROFILE_PATH : string := "data/about_company.txt".

(** The attributes of a [RealEstateRAG] object that the methods read. *)
Record RealEstateRAG := mkRAG {
  INDEX_DIR : string;
  vectorstore : VectorStore;
  company_profile : string
}.

Definition company_keywords : list string :=
  ["company"; "realestateco"; "founder"; "ceo"; "head office"].

Definition no_profile_fallback : string :=
  "Sorry, I couldn't load the company profile. Would you like me to connect you with an advisor?".

Definition no_data_fallback : string :=
  "Sorry, I couldn't find relevant data. Would you like me to connect you with an advisor?".

Definition company_prompt (profile query : string) : string :=
  lines
    [EmptyString;
     "You are an AI assistant at RealEstateCo.";
     EmptyString;
     "Use ONLY this profile:";
     profile;
     EmptyString;
     "User question: " +:+ dquote +:+ query +:+ dquote;
     EmptyString;
     "Guidelines:";
     "- Max 3 sentences";
     "- Include founder, address, contact if relevant";
     "- End with: " +:+ dquote
       +:+ "If you'd like, I can arrange a call with our senior advisors."
       +:+ dquote;
     "- Never invent information";
     EmptyString].

Definition market_prompt (context query : string) : string :=
  lines
    [EmptyString;
     "You are an AI property advisor at RealEstateCo.";
     EmptyString;
     "Use this market context:";
     context;
     EmptyString;
     "User question: " +:+ dquote +:+ query +:+ dquote;
     EmptyString;
     "Guidelines:";
     "- Keep response short (2–3 sentences)";
     "- End with: " +:+ dquote +:+ "Shall I prepare a detailed report?" +:+ dquote;
     "- Be professional and friendly";
     EmptyString].

Section Engine.

Variable env : Env.

(** [model.generate_content(prompt).text.strip()] *)
Definition generate_stripped (prompt : string) : M (list event) string :=
  text <- call (EvGenerate prompt) (fun h => generate_content env h prompt) ;;
  ret (strip text).

Fixpoint _load_csvs_from (docs : list Document) (filepaths : list string)
  : M (list event) (list Document) :=
  match filepaths with
  | [] => ret docs
  | path :: rest =>
      found <- observe (fun h => path_exists env h path) ;;
      if (found : bool) then
        docs' <- try_except
                   (loaded <- call (EvCSVLoad path) (fun h => csv_load env h path) ;;
                    ret (docs ++ loaded)%list)
                   (fun _ => ret docs) ;;
        _load_csvs_from docs' rest
      else _load_csvs_from docs rest
  end.

Definition _load_csvs (filepaths : list string) : M (list event) (list Document) :=
  _load_csvs_from [] filepaths.

Fixpoint _load_txts_from (docs : list Document) (filepaths : list string)
  : M (list event) (list Document) :=
  match filepaths with
  | [] => ret docs
  | path :: rest =>
      found <- observe (fun h => path_exists env h path) ;;
      if (found : bool) then
        docs' <- try_except
                   (loaded <- call (EvTextLoad path) (fun h => text_load env h path) ;;
                    ret (docs ++ loaded)%list)
                   (fun _ => ret docs) ;;
        _load_txts_from docs' rest
      else _load_txts_from docs rest
  end.

Definition _load_txts (filepaths : list string) : M (list event) (list Document) :=
  _load_txts_from [] filepaths.

Definition _load_all_documents : M (list event) (list Document) :=
  csvs <- _load_csvs DATA_FILES_csv ;;
  txts <- _load_txts DATA_FILES_txt ;;
  ret (csvs ++ txts)%list.

Definition _initialize_vectorstore (index_dir : string)
  : M (list event) VectorStore :=
  found <- observe (fun h => path_exists env h index_dir) ;;
  if (found : bool) then
    call (EvLoadLocal index_dir) (fun h => load_local env h index_dir) ;;;
    ret (LoadedFrom index_dir)
  else
    docs <- _load_all_documents ;;
    let chunks := split_documents env 1000 200 docs in
    let texts := map page_content chunks in
    let metadatas := map metadata chunks in
    call (EvFromTexts texts metadatas) (fun h => from_texts env h texts metadatas) ;;;
    let vectorstore := BuiltFrom texts metadatas in
    call (EvSaveLocal vectorstore index_dir)
         (fun h => save_local env h vectorstore index_dir) ;;;
    ret vectorstore.

Definition _load_company_profile : M (list event) string :=
  found <- observe (fun h => path_exists env h COMPANY_PROFILE_PATH) ;;
  if (found : bool) then
    try_except
      (loaded <- call (EvTextLoad COMPANY_PROFILE_PATH)
                      (fun h => text_load env h COMPANY_PROFILE_PATH) ;;
       match loaded with
       | doc :: _ => ret (page_content doc)
       | [] => raise (Exception "list index out of range")
       end)
      (fun _ => ret EmptyString)
  else ret EmptyString.


Variable self : RealEstateRAG.

Definition _generate_company_response (query : string) : M (list event) string :=
  if negb (truthy (strip (company_profile self))) then ret no_profile_fallback
  else generate_stripped (company_prompt (company_profile self) query).

(** The part of [query_knowledge_base] below the company test: similarity
    search, context, empty-context test, generation. *)
Definition market_answer (query : string) (k : Z) : M (list event) string :=
  results <- call (EvSimilaritySearch (vectorstore self) query k)
                  (fun h => similarity_search env h (vectorstore self) query k) ;;
  let context := join (nl +:+ nl) (map page_content results) in
  if negb (truthy (strip context)) then ret no_data_fallback
  else generate_stripped (market_prompt context query).

Definition query_knowledge_base (query : string) (k : Z) : M (list event) string :=
  let query_lower := lower query in
  if any (fun keyword => str_in keyword query_lower) company_keywords then
    _generate_company_response query
  else market_answer query k.

End Engine.

End PropertiesRAG.

(** ** [twilio_webhookx.py]: class [CallAssistant], routes [/voice] and [/process] *)

Module Webhookx.

Import CallAssistantIntents.

(** The [client_data] dictionary; its keys are fixed. *)
Record ClientData := mkClientData {
  name : string;
  location : string;
  bedrooms : Z;
  bought_price : Z;
  current_price : Z;
  purchase_year : Z
}.

Record CallAssistant := mkCallAssistant {
  call_id : option string;
  client_data : ClientData;
  confirm_count : Z;
  reject_count : Z;
  finalized : bool
}.

(** An entry of the [sessions] dictionary: [{"bot": ..., "start": ...}]. *)
Record SessionEntry := mkSessionEntry {
  bot : CallAssistant;
  start : Z
}.

(** The module-level state: the [sessions] dictionary and the outside calls
    made so far.  [request.form.get("CallSid")] is [None] when the field is
    missing, and [None] is a dictionary key like any other. *)
Record App := mkApp {
  sessions : gmap (option string) SessionEntry;
  history : list event
}.

(** The two form fields a request is read for. *)
Record Request := mkRequest {
  CallSid : option string;
  SpeechResult : option string
}.

(** The TwiML document under construction. *)
Inductive verb :=
| Say (text : string)
| Hangup
| Gather (action : string) (say : string).

Definition VoiceResponse := list verb.

Definition with_confirm_count (b : CallAssistant) (n : Z) : CallAssistant :=
  mkCallAssistant (call_id b) (client_data b) n (reject_count b) (finalized b).

Definition with_reject_count (b : CallAssistant) (n : Z) : CallAssistant :=
  mkCallAssistant (call_id b) (client_data b) (confirm_count b) n (finalized b).

Definition with_bot (e : SessionEntry) (b : CallAssistant) : SessionEntry :=
  mkSessionEntry b (start e).

(** [CallAssistant.reset] builds these attributes; [__init__] adds the id. *)
Definition demo_client : ClientData :=
  mkClientData "Demo Client" "Sample City" 2 1200000 3300000 2020.

Definition new_CallAssistant (call_id : option string) : CallAssistant :=
  mkCallAssistant call_id demo_client 0 0 false.

Definition advisor_fallback : string :=
  "I understand. Let me connect you with an advisor who can assist further.".

Definition session_expired : string := "Session expired. Please call back.".
Definition repeat_request : string := "Could you repeat that?".
Definition confirm_closing : string :=
  "Perfect. Our senior advisor will contact you soon. Thank you for your time.".
Definition confirm_interim : string :=
  "Great! Let's explore what works best for you.".
Definition reject_closing : string :=
  "No problem. Thanks for your time. Have a wonderful day!".
Definition reject_interim : string :=
  "I understand. Let me share one strategy that might change your perspective.".

Definition response_prompt (c : ClientData) (user_input : string) : string :=
  lines
    [EmptyString;
     "You are Alexa, an AI real estate consultant at RealEstateCo.";
     EmptyString;
     "Client details:";
     "- " +:+ pretty (bedrooms c) +:+ "-bedroom in " +:+ location c;
     "- Bought in " +:+ pretty (purchase_year c) +:+ " for "
       +:+ pretty (bought_price c) +:+ " Dirhams";
     "- Current value: " +:+ pretty (current_price c) +:+ " Dirhams";
     EmptyString;
     "User said: " +:+ dquote +:+ user_input +:+ dquote;
     EmptyString;
     "Guidelines:";
     "- Speak naturally (2–3 sentences)";
     "- If they hesitate, emphasize timing and opportunities";
     "- If they confirm, suggest connecting with an advisor";
     "- If they reject twice, politely close the call";
     EmptyString].

Definition greeting (c : ClientData) : string :=
  "Hello " +:+ name c +:+ ", this is Alexa from RealEstateCo. "
  +:+ "I’d like to discuss your property in " +:+ location c +:+ ". "
  +:+ "Is now a good time?".

(** State access. *)
Definition get_sessions : M App (gmap (option string) SessionEntry) :=
  fun st => (Ok (sessions st), st).

Definition put_sessions (m : gmap (option string) SessionEntry) : M App unit :=
  fun st => (Ok tt, mkApp m (history st)).

(** Run a computation that only talks to the outside world. *)
Definition lift {A} (m : M (list event) A) : M App A :=
  fun st => let '(r, h) := m (history st) in (r, mkApp (sessions st) h).

(** [executor.submit(task)]: the task runs to its end on a worker thread and
    its outcome, a value or an exception, is kept in the future.  The model
    runs the two tasks of a turn in the order they were submitted. *)
Definition submit {A} (task : M (list event) A) : M (list event) (result A) :=
  fun h => let '(r, h') := task h in (Ok r, h').

Section Routes.

Variable env : Env.
Variable rag : PropertiesRAG.RealEstateRAG.

(** [future.result(timeout=t)] *)
Definition future_result {A} (task : task_id) (timeout : Z) (outcome : result A)
  : M (list event) A :=
  fun h => if finished_within env h task timeout then (outcome, h)
           else (Raise TimeoutError, h).

(** [CallAssistant.generate_response] *)
Definition generate_response (self : CallAssistant) (user_input : string)
  : M (list event) string :=
  let prompt := response_prompt (client_data self) user_input in
  try_except
    (response <- PropertiesRAG.generate_stripped env prompt ;;
     ret response)
    (fun _ => ret advisor_fallback).

(** The route [/voice]. *)
Definition voice (request : Request) : M App VoiceResponse :=
  let call_sid := CallSid request in
  now <- lift (observe (time_time env)) ;;
  let entry := mkSessionEntry (new_CallAssistant call_sid) now in
  sess <- get_sessions ;;
  put_sessions (<[call_sid := entry]> sess) ;;;
  let bot := bot entry in
  ret [Gather "/process" (greeting (client_data bot));
       Say "Sorry, I didn't catch that. Goodbye.";
       Hangup].

(** The tail shared by the turns that keep the call open. *)
Definition keep_alive (reply : string) : VoiceResponse :=
  [Say reply; Gather "/process" "What are your thoughts?"].

(** The [else] branch of [/process]: knowledge query and conversational
    reply submitted together, then joined. *)
Definition combined_reply (bot : CallAssistant) (user_input : string)
  : M (list event) string :=
  rag_future <- submit (PropertiesRAG.query_knowledge_base env rag user_input 2) ;;
  ai_future <- submit (generate_response bot user_input) ;;
  try_except
    (rag_context <- future_result RagTask 3 rag_future ;;
     ai_response <- future_result AiTask 4 ai_future ;;
     ret (ai_response +:+ " " +:+ rag_context))
    (fun _ => generate_response bot user_input).

(** The route [/process]. *)
Definition process (request : Request) : M App VoiceResponse :=
  let call_sid := CallSid request in
  let user_input := lower (default EmptyString (SpeechResult request)) in
  sess <- get_sessions ;;
  match sess !! call_sid with
  | None => ret [Say session_expired; Hangup]
  | Some entry =>
      let bot := bot entry in
      if negb (truthy user_input) then ret [Say repeat_request]
      else
        match handle_intents user_input with
        | confirm =>
            let bot := with_confirm_count bot (confirm_count bot + 1) in
            put_sessions (<[call_sid := with_bot entry bot]> sess) ;;;
            if (2 <=? confirm_count bot)%Z then
              sess <- get_sessions ;;
              put_sessions (delete call_sid sess) ;;;
              ret [Say confirm_closing; Hangup]
            else ret (keep_alive confirm_interim)
        | reject =>
            let bot := with_reject_count bot (reject_count bot + 1) in
            put_sessions (<[call_sid := with_bot entry bot]> sess) ;;;
            if (2 <=? reject_count bot)%Z then
              sess <- get_sessions ;;
              put_sessions (delete call_sid sess) ;;;
              ret [Say reject_closing; Hangup]
            else ret (keep_alive reject_interim)
        | unknown =>
            reply <- lift (combined_reply bot user_input) ;;
            ret (keep_alive reply)
        end
  end.

(** The route [/health] reports [len(sessions)]. *)
Definition health : M App nat :=
  sess <- get_sessions ;;
  ret (size sess).

(** A call's turns, one [/process] request after the other; a raised
    exception ends the run. *)
Fixpoint process_all (requests : list Request) : M App (list VoiceResponse) :=
  match requests with
  | [] => ret []
  | r :: rest =>
      resp <- process r ;;
      resps <- process_all rest ;;
      ret (resp :: resps)
  end.

End Routes.

End Webhookx.

(** ** Sample worlds and sample state *)

Module Sample.

Import Webhookx.

Definition rents_doc : Document :=
  mkDocument "Villa rents rose 5 percent in 2024."
             [("source", "data/rents_rag.csv"); ("row", "3")].

Definition market_text : string :=
  "Villa rents rose 5 percent. Shall I prepare a detailed report?".

Definition chat_text : string := "Happy to walk you through the options.".

(** Gemini answers market prompts with [market_text] and every other prompt
    with [chat_text]. *)
Definition gemini_up (h : list event) (prompt : string) : result string :=
  if str_in "Use this market context:" prompt
  then Ok (" " +:+ market_text +:+ nl)
  else Ok chat_text.

Definition gemini_down (h : list event) (prompt : string) : result string :=
  Raise (Exception "503 Service Unavailable").

(** A world with no persisted index, one retrievable document, and the
    given generation client, timing and index loader. *)
Definition world
    (exists_ : list event -> string -> bool)
    (load : list event -> string -> result unit)
    (generate : list event -> string -> result string)
    (finished : list event -> task_id -> Z -> bool) : Env :=
  {| path_exists := exists_;
     load_local := load;
     csv_load := fun _ _ => Ok [rents_doc];
     text_load := fun _ _ => Ok [mkDocument "RealEstateCo was founded in 2010." []];
     split_documents := fun _ _ docs => docs;
     from_texts := fun _ _ _ => Ok tt;
     save_local := fun _ _ _ => Ok tt;
     similarity_search := fun _ _ _ _ => Ok [rents_doc];
     generate_content := generate;
     finished_within := finished;
     time_time := fun _ => 1700000000%Z |}.

Definition nothing_on_disk (h : list event) (path : string) : bool := false.
Definition index_on_disk (h : list event) (path : string) : bool :=
  String.eqb path "faiss_index".
Definition load_fine (h : list event) (dir : string) : result unit := Ok tt.
Definition load_corrupt (h : list event) (dir : string) : result unit :=
  Raise (Exception "could not open faiss_index/index.faiss").
Definition always_in_time (h : list event) (t : task_id) (timeout : Z) : bool := true.
Definition never_in_time (h : list event) (t : task_id) (timeout : Z) : bool := false.
Definition ai_too_slow (h : list event) (t : task_id) (timeout : Z) : bool :=
  match t with RagTask => true | AiTask => false end.

Definition env_up : Env := world nothing_on_disk load_fine gemini_up always_in_time.
Definition env_down : Env := world nothing_on_disk load_fine gemini_down always_in_time.
Definition env_ai_slow : Env := world nothing_on_disk load_fine gemini_up ai_too_slow.
Definition env_all_slow : Env := world nothing_on_disk load_fine gemini_up never_in_time.
Definition env_corrupt_index : Env :=
  world index_on_disk load_corrupt gemini_up always_in_time.

(** The same world with another answer from the index. *)
Definition with_search (e : Env)
    (search : list event -> VectorStore -> string -> Z -> result (list Document))
  : Env :=
  {| path_exists := path_exists e;
     load_local := load_local e;
     csv_load := csv_load e;
     text_load := text_load e;
     split_documents := split_documents e;
     from_texts := from_texts e;
     save_local := save_local e;
     similarity_search := search;
     generate_content := generate_content e;
     finished_within := finished_within e;
     time_time := time_time e |}.

Definition env_blank_hits : Env :=
  with_search env_up
    (fun _ _ _ _ => Ok [mkDocument "  " []; mkDocument nl [("row", "9")]]).

Definition env_index_ok : Env :=
  world index_on_disk load_fine gemini_up always_in_time.

Definition rag : PropertiesRAG.RealEstateRAG :=
  PropertiesRAG.mkRAG "faiss_index" (LoadedFrom "faiss_index")
                      "RealEstateCo was founded in 2010.".

(** A call in progress: one confirmation already counted. *)
Definition bot_mid_call : CallAssistant :=
  mkCallAssistant (Some "CA1") demo_client 1 0 false.

Definition app_mid_call : App :=
  mkApp {[ Some "CA1" := mkSessionEntry bot_mid_call 1699999990%Z ]} [].

(** A call that has just started. *)
Definition app_fresh_call : App :=
  mkApp {[ Some "CA1" := mkSessionEntry (new_CallAssistant (Some "CA1")) 1699999990%Z ]} [].

End Sample.

(** ** The Flask application of [twilio_webhookx.py] as a whole *)

Module WebhookxServer.

Import Webhookx.

(** A request to one of the two POST routes. *)
Inductive http_request :=
| PostVoice (request : Request)
| PostProcess (request : Request).

Section Server.

Variable env : Env.
Variable rag : PropertiesRAG.RealEstateRAG.

(** Route dispatch. *)
Definition handle (q : http_request) : M App VoiceResponse :=
  match q with
  | PostVoice request => voice env request
  | PostProcess request => process env rag request
  end.

(** The requests are served one after the other; the module-level state
    lives on from one request to the next, whatever the outcome. *)
Fixpoint serve (requests : list http_request) (st : App) : App :=
  match requests with
  | [] => st
  | q :: rest => serve rest (snd (handle q st))
  end.

End Server.

(** The state at import time: [sessions = {}], nothing called yet. *)
Definition initial_app : App := mkApp ∅ [].

(** What holds of every entry of [sessions] while the server runs. *)
Definition session_ok (key : option string) (e : SessionEntry) : Prop :=
  call_id (bot e) = key /\
  client_data (bot e) = demo_client /\
  finalized (bot e) = false /\
  (0 <= confirm_count (bot e) <= 1)%Z /\
  (0 <= reject_count (bot e) <= 1)%Z.

(** The text a [/process] request is handled for: [user_input]. *)
Definition utterance (request : Request) : string :=
  lower (default EmptyString (SpeechResult request)).

(** [after] is [before] with one more confirmation or one more rejection
    counted, still below the threshold of 2, and nothing else changed. *)
Definition counted_once (before after : SessionEntry) : Prop :=
  start after = start before /\
  call_id (bot after) = call_id (bot before) /\
  client_data (bot after) = client_data (bot before) /\
  finalized (bot after) = finalized (bot before) /\
  ((confirm_count (bot after) = confirm_count (bot before) + 1 /\
    reject_count (bot after) = reject_count (bot before) /\
    confirm_count (bot after) < 2)%Z \/
   (confirm_count (bot after) = confirm_count (bot before) /\
    reject_count (bot after) = reject_count (bot before) + 1 /\
    reject_count (bot after) < 2)%Z).

(** The verbs of a response that end the call. *)
Definition hangs_up (resp : VoiceResponse) : bool :=
  existsb (fun v => match v with Hangup => true | _ => false end) resp.

End WebhookxServer.

(** ** Reading a history of outside calls *)

Module Trace.

Definition is_save (ev : event) : bool :=
  match ev with EvSaveLocal _ _ => true | _ => false end.

Definition is_file_load (ev : event) : bool :=
  match ev with EvCSVLoad _ | EvTextLoad _ => true | _ => false end.

(** How many times an index was written to disk in a history. *)
Definition save_calls (h : list event) : nat :=
  length (List.filter is_save h).

(** The documents a loader contributes for one path, given what is on disk
    and what loading each file gives: a missing file and a file whose load
    raises contribute nothing. *)
Definition contribution (on_disk : string -> bool)
    (load : string -> result (list Document)) (path : string) : list Document :=
  if on_disk path then
    match load path with
    | Ok docs => docs
    | Raise _ => []
    end
  else [].

End Trace.

(** ** A sample data folder *)

Module SampleFiles.

(** Two CSV files and the company profile are on disk; nothing else is. *)
Definition on_disk (path : string) : bool :=
  String.eqb path "data/rents_rag.csv"
  || String.eqb path "data/faq_questions.csv"
  || String.eqb path "data/about_company.txt".

Definition rents_rows : list Document :=
  [mkDocument "area: Marina, rent: 120000" [("source", "data/rents_rag.csv"); ("row", "0")];
   mkDocument "area: JVC, rent: 65000" [("source", "data/rents_rag.csv"); ("row", "1")]].

Definition profile_doc : Document :=
  mkDocument "RealEstateCo was founded in 2010." [("source", "data/about_company.txt")].

(** The FAQ file is there but does not parse. *)
Definition csv_of (path : string) : result (list Document) :=
  if String.eqb path "data/rents_rag.csv" then Ok rents_rows
  else Raise (Exception "Error loading data/faq_questions.csv").

Definition txt_of (path : string) : result (list Document) := Ok [profile_doc].

(** Embedding fails, so no index can be built. *)
Definition env : Env :=
  {| path_exists := fun _ => on_disk;
     load_local := fun _ _ => Ok tt;
     csv_load := fun _ => csv_of;
     text_load := fun _ => txt_of;
     split_documents := fun _ _ docs => docs;
     from_texts := fun _ _ _ => Raise (Exception "429 quota exceeded");
     save_local := fun _ _ _ => Ok tt;
     similarity_search := fun _ _ _ _ => Ok [];
     generate_content := fun _ _ => Ok "  Certainly.  ";
     finished_within := fun _ _ _ => true;
     time_time := fun _ => 1700000000%Z |}.

End SampleFiles.

(** ** [property_rag.py]: the query methods of the earlier [RealEstateRAG] *)

Module PropertyRAG.

Definition company_keywords : list string :=
  ["company"; "baaz"; "founder"; "ceo"; "head office"; "who are you"].

Definition no_profile_fallback : string :=
  "Sorry, I couldn't load our company profile — but I can connect you to a senior advisor.".

Definition no_data_fallback : string :=
  "Sorry, I couldn't find relevant data now. But I can connect you to a senior advisor!".

Definition company_prompt (profile query : string) : string :=
  lines
    [EmptyString;
     "You are Alexa at Baaz Landmark.";
     EmptyString;
     "Use ONLY this profile:";
     profile;
     EmptyString;
     "User question: " +:+ dquote +:+ query +:+ dquote;
     EmptyString;
     "✅ Max 3 sentences.";
     "✅ Include founder, address, contact if asked.";
     "✅ End with: " +:+ dquote +:+ "If you'd like, I can arrange a call with our senior advisors." +:+ dquote;
     "✅ Never invent info.";
     EmptyString].

Definition market_prompt (context query : string) : string :=
  lines
    [EmptyString;
     "You are Alexa, an AI advisor at Baaz Landmark.";
     EmptyString;
     "Use this market context:";
     context;
     EmptyString;
     "User question:";
     dquote +:+ query +:+ dquote;
     EmptyString;
     "✅ Keep it short (2–3 sentences).";
     "✅ Suggest next step: " +:+ dquote +:+ "Shall I prepare a detailed report?" +:+ dquote;
     "✅ Sound friendly, professional.";
     EmptyString].

Section Engine.

Variable env : Env.
Variable self : PropertiesRAG.RealEstateRAG.

Definition _generate_company_response (query : string) : M (list event) string :=
  if negb (truthy (strip (PropertiesRAG.company_profile self)))
  then ret no_profile_fallback
  else PropertiesRAG.generate_stripped env
         (company_prompt (PropertiesRAG.company_profile self) query).

Definition query_knowledge_base (query : string) (k : Z) : M (list event) string :=
  let query_lower := lower query in
  if any (fun keyword => str_in keyword query_lower) company_keywords then
    _generate_company_response query
  else
    results <- call (EvSimilaritySearch (PropertiesRAG.vectorstore self) query k)
                    (fun h => similarity_search env h
                                (PropertiesRAG.vectorstore self) query k) ;;
    let context := join (nl +:+ nl) (map page_content results) in
    if negb (truthy (strip context)) then ret no_data_fallback
    else PropertiesRAG.generate_stripped env (market_prompt context query).

End Engine.

End PropertyRAG.

(** ** [voice2.py]: class [VoiceAssistant] *)

Module Voice2.

Import VoiceAssistantIntents.

Record VoiceAssistant := mkVoiceAssistant {
  client_data : Webhookx.ClientData;
  last_intent : option string;
  reject_count : Z;
  confirm_count : Z;
  finalized : bool
}.

Definition john_smith : Webhookx.ClientData :=
  Webhookx.mkClientData "John Smith" "Downtown Dubai" 2 1200000 3300000 2020.

(** The attributes set by [__init__]. *)
Definition new_VoiceAssistant : VoiceAssistant :=
  mkVoiceAssistant john_smith None 0 0 false.

Definition with_confirm_count (b : VoiceAssistant) (n : Z) : VoiceAssistant :=
  mkVoiceAssistant (client_data b) (last_intent b) (reject_count b) n (finalized b).

Definition with_reject_count (b : VoiceAssistant) (n : Z) : VoiceAssistant :=
  mkVoiceAssistant (client_data b) (last_intent b) n (confirm_count b) (finalized b).

Definition with_finalized (b : VoiceAssistant) (f : bool) : VoiceAssistant :=
  mkVoiceAssistant (client_data b) (last_intent b) (reject_count b)
                   (confirm_count b) f.

Definition response_prompt (c : Webhookx.ClientData) (user_input : string) : string :=
  let name := Webhookx.name in
  let bedrooms := Webhookx.bedrooms in
  let location := Webhookx.location in
  let purchase_year := Webhookx.purchase_year in
  let bought_price := Webhookx.bought_price in
  let current_price := Webhookx.current_price in
  lines
    [EmptyString;
     "You are Alexa, a sharp and persuasive senior property consultant at Baaz Landmark in Dubai.";
     EmptyString;
     "Client: " +:+ name c +:+ " owns a " +:+ pretty (bedrooms c) +:+ "-bedroom property in " +:+ location c +:+ ", purchased in " +:+ pretty (purchase_year c) +:+ " for AED " +:+ pretty (bought_price c) +:+ ". It's now worth AED " +:+ pretty (current_price c) +:+ ".";
     EmptyString;
     "You're on a call with the client. Your job is to:";
     "1. Present clear SELL and RENT options — with pros and cons.";
     "2. Recommend SELLING using urgency, market timing, and ROI logic.";
     "3. If the client hesitates, explain portfolio reinvestment strategies — like selling the villa and investing in multiple apartments with 8–10% rental yield and 15–20% annual appreciation.";
     "4. Be professional but passionate — act like you're helping them gain, not just selling something.";
     "5. If they agree, say a senior advisor will contact them. If they reject twice, thank them politely and exit.";
     EmptyString;
     "You MUST evolve the conversation. Avoid repeating phrases. Keep replies under 4 lines. Make it feel like a real consultation.";
     EmptyString;
     "User said: " +:+ dquote +:+ user_input +:+ dquote;
     EmptyString;
     "Respond as Alexa, in a friendly and confident tone.";
     EmptyString].

(** [VoiceAssistant.generate_response]: no exception is caught here.  The
    state type and the Gemini call [model.generate_content(prompt).text]
    are those of the program that uses the class. *)
Definition generate_response {S : Type} (gemini : string -> M S string)
    (self : VoiceAssistant) (user_input : string) : M S string :=
  let prompt := response_prompt (client_data self) user_input in
  response <- (text <- gemini prompt ;; ret (strip text)) ;;
  ret response.

Definition confirm_closing : string :=
  "Perfect. One of our senior advisors from Baaz Landmark will contact you shortly. Thank you for your time!".
Definition confirm_interim : string :=
  "Great! Let's explore what works best for your situation.".
Definition reject_closing : string :=
  "No problem. Thanks for your time. If anything changes, feel free to contact Baaz Landmark anytime.".
Definition reject_interim : string :=
  "I understand. Let me share one strategy that might change your perspective.".
Definition apology : string := "Sorry, could you repeat that?".
Definition warm_up : string := "Just warming up. Say hi!".

Definition greeting (c : Webhookx.ClientData) : string :=
  "Good morning, " +:+ Webhookx.name c
  +:+ ". I'm Alexa from Baaz Landmark Real Estate. "
  +:+ "I've reviewed your " +:+ pretty (Webhookx.bedrooms c)
  +:+ "-bedroom property in " +:+ Webhookx.location c +:+ ". "
  +:+ "Would now be a good time to discuss it?".

(** What the desk program does to the outside, in order. *)
Inductive sound :=
| Generated (prompt : string)
| Spoken (text : string)
| MicOpened
| Listened.

(** The outside of the desk program; every field sees what happened so far. *)
Record Desk := mkDesk {
  (** [model.generate_content(prompt).text] *)
  gemini_text : list sound -> string -> result string;
  (** [speak]: synthesis, the temporary file and the playback, as one step *)
  play : list sound -> string -> result unit;
  (** [sr.Microphone()] entered and [adjust_for_ambient_noise] *)
  open_microphone : list sound -> result unit;
  (** [recognizer.listen] then [recognize_google]: the transcript *)
  recognize : list sound -> result string
}.

(** The assistant object and the record of what was done. *)
Record Studio := mkStudio {
  assistant : VoiceAssistant;
  sounds : list sound
}.

Section Program.

Variable desk : Desk.

Definition outside {A} (s : sound) (answer : list sound -> result A) : M Studio A :=
  fun st => (answer (sounds st), mkStudio (assistant st) (sounds st ++ [s])%list).

Definition get_self : M Studio VoiceAssistant :=
  fun st => (Ok (assistant st), st).

Definition put_self (b : VoiceAssistant) : M Studio unit :=
  fun st => (Ok tt, mkStudio b (sounds st)).

Definition gemini (prompt : string) : M Studio string :=
  outside (Generated prompt) (fun h => gemini_text desk h prompt).

(** [VoiceAssistant.speak] *)
Definition speak (text : string) : M Studio unit :=
  outside (Spoken text) (fun h => play desk h text).

(** [VoiceAssistant.listen] *)
Definition listen : M Studio string :=
  outside MicOpened (open_microphone desk) ;;;
  try_except
    (text <- outside Listened (recognize desk) ;;
     ret (lower text))
    (fun _ => speak apology ;;; ret EmptyString).

(** The [while not self.finalized] loop of [run].  Each pass takes one unit
    of [fuel]; the answer is [true] when the loop has ended and [false]
    when the fuel ran out with the loop still going. *)
Fixpoint run_loop (fuel : nat) : M Studio bool :=
  match fuel with
  | O => ret false
  | S fuel' =>
      self <- get_self ;;
      if finalized self then ret true
      else
        user_input <- listen ;;
        if negb (truthy user_input) then run_loop fuel'
        else
          match handle_intents user_input with
          | confirm =>
              self <- get_self ;;
              let self := with_confirm_count self (confirm_count self + 1) in
              put_self self ;;;
              if (2 <=? confirm_count self)%Z then
                speak confirm_closing ;;;
                put_self (with_finalized self true) ;;;
                ret true
              else
                speak confirm_interim ;;;
                run_loop fuel'
          | reject =>
              self <- get_self ;;
              let self := with_reject_count self (reject_count self + 1) in
              put_self self ;;;
              if (2 <=? reject_count self)%Z then
                speak reject_closing ;;;
                put_self (with_finalized self true) ;;;
                ret true
              else
                speak reject_interim ;;;
                run_loop fuel'
          | unknown =>
              self <- get_self ;;
              reply <- generate_response gemini self user_input ;;
              speak reply ;;;
              run_loop fuel'
          end
  end.

(** [VoiceAssistant.run] *)
Definition run (fuel : nat) : M Studio bool :=
  self <- get_self ;;
  generate_response gemini self warm_up ;;;
  speak (greeting (client_data self)) ;;;
  run_loop fuel.

End Program.

(** The studio when the program starts: [bot = VoiceAssistant()]. *)
Definition initial_studio : Studio := mkStudio new_VoiceAssistant [].

(** While the loop runs: not finalized, each counter 0 or 1. *)
Definition still_open (b : VoiceAssistant) : Prop :=
  finalized b = false /\
  (0 <= confirm_count b <= 1)%Z /\ (0 <= reject_count b <= 1)%Z.

(** How a finished loop leaves the assistant and what was said last: the
    second confirmation or the second rejection closed the conversation. *)
Definition closed_by_second_answer (before : VoiceAssistant) (st : Studio) : Prop :=
  finalized (assistant st) = true /\
  client_data (assistant st) = client_data before /\
  ((confirm_count (assistant st) = 2%Z /\
    (reject_count (assistant st) <= 1)%Z /\
    exists earlier, sounds st = (earlier ++ [Spoken confirm_closing])%list) \/
   (reject_count (assistant st) = 2%Z /\
    (confirm_count (assistant st) <= 1)%Z /\
    exists earlier, sounds st = (earlier ++ [Spoken reject_closing])%list)).

End Voice2.

(** ** [twilio_webhook.py]: the earlier webhook, one assistant for all calls *)

Module TwilioWebhook.

Import VoiceAssistantIntents.

(** The module-level state: the one [bot] and the outside calls so far. *)
Record App := mkApp {
  bot : Voice2.VoiceAssistant;
  history : list event
}.

Definition confirm_closing : string :=
  "Perfect. One of our senior advisors will contact you shortly. Thank you for your time!".
Definition confirm_interim : string :=
  "Great! Let's explore what works best for your situation.".
Definition reject_closing : string :=
  "No problem. Thanks for your time. If anything changes, feel free to contact Baaz Landmark anytime.".
Definition reject_interim : string :=
  "I understand. Let me share one strategy that might change your perspective.".
Definition apology : string := "Sorry, could you repeat that?".

Definition greeting (c : Webhookx.ClientData) : string :=
  "Good day, " +:+ Webhookx.name c +:+ ". "
  +:+ "I'm Alexa from Baaz Landmark Real Estate. "
  +:+ "I noticed your property in " +:+ Webhookx.location c
  +:+ " has increased in value since " +:+ pretty (Webhookx.purchase_year c) +:+ ". "
  +:+ "Would now be a good time to discuss your options?".

Definition get_bot : M App Voice2.VoiceAssistant :=
  fun st => (Ok (bot st), st).

Definition put_bot (b : Voice2.VoiceAssistant) : M App unit :=
  fun st => (Ok tt, mkApp b (history st)).

Definition lift {A} (m : M (list event) A) : M App A :=
  fun st => let '(r, h) := m (history st) in (r, mkApp (bot st) h).

Section Routes.

Variable env : Env.
Variable rag : PropertiesRAG.RealEstateRAG.

Definition gemini (prompt : string) : M App string :=
  lift (call (EvGenerate prompt) (fun h => generate_content env h prompt)).

(** The route [/voice]. *)
Definition voice (request : Webhookx.Request) : M App Webhookx.VoiceResponse :=
  b <- get_bot ;;
  ret [Webhookx.Gather "/process" (greeting (Voice2.client_data b));
       Webhookx.Say "Sorry, I didn’t catch that. Goodbye!";
       Webhookx.Hangup].

(** The route [/process]. *)
Definition process (request : Webhookx.Request) : M App Webhookx.VoiceResponse :=
  let user_input :=
    lower (default EmptyString (Webhookx.SpeechResult request)) in
  if negb (truthy (strip user_input)) then ret [Webhookx.Say apology]
  else
    match handle_intents user_input with
    | confirm =>
        b <- get_bot ;;
        let b := Voice2.with_confirm_count b (Voice2.confirm_count b + 1) in
        put_bot b ;;;
        if (2 <=? Voice2.confirm_count b)%Z then
          put_bot (Voice2.with_finalized b true) ;;;
          ret [Webhookx.Say confirm_closing; Webhookx.Hangup]
        else ret [Webhookx.Say confirm_interim]
    | reject =>
        b <- get_bot ;;
        let b := Voice2.with_reject_count b (Voice2.reject_count b + 1) in
        put_bot b ;;;
        if (2 <=? Voice2.reject_count b)%Z then
          put_bot (Voice2.with_finalized b true) ;;;
          ret [Webhookx.Say reject_closing; Webhookx.Hangup]
        else ret [Webhookx.Say reject_interim]
    | unknown =>
        rag_answer <- lift (PropertyRAG.query_knowledge_base env rag user_input 2) ;;
        b <- get_bot ;;
        chat <- Voice2.generate_response gemini b user_input ;;
        let reply := chat +:+ " By the way, " +:+ rag_answer in
        ret [Webhookx.Say reply;
             Webhookx.Gather "/process" "What do you think about this option?"]
    end.

(** The requests are served one after the other with the same [bot]. *)
Fixpoint serve (requests : list (bool * Webhookx.Request)) (st : App) : App :=
  match requests with
  | [] => st
  | (to_voice, request) :: rest =>
      serve rest (snd ((if to_voice : bool then voice request else process request) st))
  end.

End Routes.

(** The state at import time: [bot = VoiceAssistant()]. *)
Definition initial_app : App := mkApp Voice2.new_VoiceAssistant [].

(** The reply asks the caller to speak again. *)
Definition asks_for_more (resp : Webhookx.VoiceResponse) : bool :=
  existsb (fun v => match v with Webhookx.Gather _ _ => true | _ => false end)
          resp.

End TwilioWebhook.

(** ** A sample desk *)

Module SampleDesk.

(** The client says yes, is not understood once, asks a question, and says
    yes again: the transcript depends on how often the program listened. *)
Definition transcript (h : list Voice2.sound) : result string :=
  match length (List.filter
                  (fun s => match s with Voice2.Listened => true | _ => false end) h) with
  | 0 => Ok "Yes, go ahead"
  | 1 => Raise (Exception "UnknownValueError")
  | 2 => Ok "What would it rent for?"
  | _ => Ok "OK"
  end.

Definition desk : Voice2.Desk :=
  {| Voice2.gemini_text := fun _ _ => Ok " Around 150,000 a year. ";
     Voice2.play := fun _ _ => Ok tt;
     Voice2.open_microphone := fun _ => Ok tt;
     Voice2.recognize := transcript |}.

(** Gemini is unreachable. *)
Definition desk_offline : Voice2.Desk :=
  {| Voice2.gemini_text := fun _ _ => Raise (Exception "503 Service Unavailable");
     Voice2.play := fun _ _ => Ok tt;
     Voice2.open_microphone := fun _ => Ok tt;
     Voice2.recognize := transcript |}.

(** The shared assistant of [twilio_webhook.py] after one confirmation. *)
Definition app_one_confirm : TwilioWebhook.App :=
  TwilioWebhook.mkApp
    (Voice2.with_confirm_count Voice2.new_VoiceAssistant 1) [].

End SampleDesk.

(** ** [chat.py]: class [VoiceAssistant] *)

Module Chat.

(** [s.replace(old, new)] for a non-empty [old]: matches are taken from
    left to right and do not overlap.  [skip] counts the characters of the
    current match still to be dropped. *)
Fixpoint replace_from (skip : nat) (old new s : string) : string :=
  match s with
  | EmptyString => EmptyString
  | String c t =>
      match skip with
      | S k => replace_from k old new t
      | O =>
          if startswith old s
          then new +:+ replace_from (String.length old - 1) old new t
          else String c (replace_from 0 old new t)
      end
  end.

(** [s.replace("", new)]: [new] before every character and at the end. *)
Fixpoint interleave (new s : string) : string :=
  match s with
  | EmptyString => new
  | String c t => new +:+ String c (interleave new t)
  end.

(** [s.replace(old, new)] *)
Definition replace (old new s : string) : string :=
  match old with
  | EmptyString => interleave new s
  | String _ _ => replace_from 0 old new s
  end.

(** [s.split()]: the maximal runs of characters that are not white space. *)
Fixpoint split (s : string) : list string :=
  match s with
  | EmptyString => []
  | String c t =>
      if is_space c then split t
      else
        match t with
        | EmptyString => [String c EmptyString]
        | String d _ =>
            if is_space d then String c EmptyString :: split t
            else
              match split t with
              | w :: ws => String c w :: ws
              | [] => [String c EmptyString]
              end
        end
  end.

(** [VoiceAssistant.clean_text_for_tts] *)
Definition clean_text_for_tts (text : string) : string :=
  let text :=
    replace "AI" "A I"
      (replace "ROI" "return on investment"
         (replace "AED" "Dirhams" text)) in
  join " " (split text).

Definition end_signals : list string :=
  ["not interested"; "don't want"; "call later"; "busy now"; "goodbye";
   "bye"; "thank you"; "stop calling"].

(** [VoiceAssistant.check_conversation_end] *)
Definition check_conversation_end (user_input : string) : bool :=
  any (fun signal => str_in signal user_input) end_signals.

(** An entry of [conversation_history]. *)
Record Turn := mkTurn {
  user : string;
  bot : string;
  timestamp : Z
}.

Record VoiceAssistant := mkVoiceAssistant {
  call_id : string;
  client_data : Webhookx.ClientData;
  conversation_history : list Turn;
  conversation_ended : bool
}.

(** [reset_state] for an assistant with the given id. *)
Definition new_VoiceAssistant (call_id : string) : VoiceAssistant :=
  mkVoiceAssistant call_id Webhookx.demo_client [] false.

Definition with_history (b : VoiceAssistant) (h : list Turn) : VoiceAssistant :=
  mkVoiceAssistant (call_id b) (client_data b) h (conversation_ended b).

Definition with_ended (b : VoiceAssistant) (e : bool) : VoiceAssistant :=
  mkVoiceAssistant (call_id b) (client_data b) (conversation_history b) e.

Definition rephrase : string := "I apologize, let me rephrase that.".
Definition apology : string := "Sorry, could you repeat that?".
Definition farewell : string := "Thank you for your time. Have a great day!".
Definition advisor_fallback : string :=
  "I understand. Let me connect you with a senior advisor who can provide detailed information.".

Definition greeting (c : Webhookx.ClientData) : string :=
  "Good day, " +:+ Webhookx.name c +:+ ". "
  +:+ "This is your AI assistant from RealEstateCo. "
  +:+ "Can we discuss your property in " +:+ Webhookx.location c +:+ "?".

Definition response_prompt (c : Webhookx.ClientData) (user_input : string) : string :=
  let name := Webhookx.name in
  let bedrooms := Webhookx.bedrooms in
  let location := Webhookx.location in
  let purchase_year := Webhookx.purchase_year in
  let bought_price := Webhookx.bought_price in
  let current_price := Webhookx.current_price in
  lines
    [EmptyString;
     "You are an AI property consultant at RealEstateCo.";
     EmptyString;
     "Client: " +:+ name c +:+ " owns a " +:+ pretty (bedrooms c) +:+ "-bedroom property";
     "in " +:+ location c +:+ ", purchased in " +:+ pretty (purchase_year c);
     "for " +:+ pretty (bought_price c) +:+ " Dirhams. It is now worth " +:+ pretty (current_price c) +:+ " Dirhams.";
     EmptyString;
     "User just said: " +:+ dquote +:+ user_input +:+ dquote;
     EmptyString;
     "Your role:";
     "- Respond naturally, in 2-4 sentences";
     "- Be professional, friendly, and informative";
     "- If user declines or ends, respond politely";
     EmptyString].

(** The assistant object and the record of what was done. *)
Record Studio := mkStudio {
  assistant : VoiceAssistant;
  sounds : list Voice2.sound
}.

Section Program.

Variable desk : Voice2.Desk.
(** [time.time()] *)
Variable clock : list Voice2.sound -> Z.

Definition outside {A} (s : Voice2.sound)
    (answer : list Voice2.sound -> result A) : M Studio A :=
  fun st => (answer (sounds st), mkStudio (assistant st) (sounds st ++ [s])%list).

Definition get_self : M Studio VoiceAssistant :=
  fun st => (Ok (assistant st), st).

Definition put_self (b : VoiceAssistant) : M Studio unit :=
  fun st => (Ok tt, mkStudio b (sounds st)).

Definition now : M Studio Z :=
  fun st => (Ok (clock (sounds st)), st).

(** [VoiceAssistant.speak]: a failure of the synthesis, of the temporary
    file or of the playback is caught. *)
Definition speak (text : string) : M Studio unit :=
  let text :=
    if negb (truthy text) || (String.length (strip text) <? 5)%nat
    then rephrase else text in
  let clean_text := clean_text_for_tts text in
  try_except
    (outside (Voice2.Spoken clean_text)
             (fun h => Voice2.play desk h clean_text))
    (fun _ => ret tt).

(** [VoiceAssistant.listen] *)
Definition listen : M Studio string :=
  outside Voice2.MicOpened (Voice2.open_microphone desk) ;;;
  try_except
    (text <- outside Voice2.Listened (Voice2.recognize desk) ;;
     ret (lower text))
    (fun _ => ret EmptyString).

(** [VoiceAssistant.generate_response] *)
Definition generate_response (user_input : string) : M Studio string :=
  self <- get_self ;;
  let prompt := response_prompt (client_data self) user_input in
  try_except
    (text <- outside (Voice2.Generated prompt)
                     (fun h => Voice2.gemini_text desk h prompt) ;;
     let response := strip text in
     ret response)
    (fun _ => ret advisor_fallback).

(** The [while not self.conversation_ended] loop of [run]; [fuel] bounds
    the number of passes, the answer tells whether the loop has ended. *)
Fixpoint run_loop (fuel : nat) : M Studio bool :=
  match fuel with
  | O => ret false
  | S fuel' =>
      self <- get_self ;;
      if conversation_ended self then ret true
      else
        user_input <- listen ;;
        if negb (truthy user_input) then
          speak apology ;;;
          run_loop fuel'
        else if check_conversation_end user_input then
          speak farewell ;;;
          self <- get_self ;;
          put_self (with_ended self true) ;;;
          ret true
        else
          response <- generate_response user_input ;;
          speak response ;;;
          t <- now ;;
          self <- get_self ;;
          put_self (with_history self
                      (conversation_history self
                         ++ [mkTurn user_input response t])%list) ;;;
          run_loop fuel'
  end.

(** [VoiceAssistant.run] *)
Definition run (fuel : nat) : M Studio bool :=
  self <- get_self ;;
  speak (greeting (client_data self)) ;;;
  run_loop fuel.

End Program.

(** How many Gemini calls a record of sounds holds. *)
Definition generated (h : list Voice2.sound) : nat :=
  length (List.filter
            (fun s => match s with Voice2.Generated _ => true | _ => false end) h).

(** A text in the form [" ".join] gives to words: it does not start with
    white space, and every white-space character is a single blank that is
    followed by a character that is not white space. *)
Fixpoint blanks_single (s : string) : bool :=
  match s with
  | EmptyString => true
  | String c t =>
      (if is_space c
       then Ascii.eqb c " "
            && match t with
               | EmptyString => false
               | String d _ => negb (is_space d)
               end
       else true)
      && blanks_single t
  end.

Definition well_spaced (s : string) : bool :=
  match s with
  | EmptyString => true
  | String c _ => negb (is_space c) && blanks_single s
  end.

(** No character of the text is white space. *)
Fixpoint no_space (s : string) : bool :=
  match s with
  | EmptyString => true
  | String c t => negb (is_space c) && no_space t
  end.

(** A word: not empty, no white space in it. *)
Definition is_word (w : string) : bool := truthy w && no_space w.

End Chat.

(** * Properties *)

(** ** Text primitives *)

Lemma append_cons (c : ascii) (a b : string) :
  String c a +:+ b = String c (a +:+ b).
Proof. reflexivity. Qed.

Lemma append_empty_l (b : string) : EmptyString +:+ b = b.
Proof. reflexivity. Qed.

Lemma append_assoc (a b c : string) : (a +:+ b) +:+ c = a +:+ (b +:+ c).
Proof.
  induction a as [|x a IH]; [reflexivity|].
  rewrite !append_cons, IH. reflexivity.
Qed.

Lemma startswith_append (p t : string) : startswith p (p +:+ t) = true.
Proof.
  induction p as [|c p IH]; [reflexivity|].
  rewrite append_cons. simpl. destruct (ascii_dec c c); [exact IH | congruence].
Qed.

Lemma startswith_inv (p s : string) :
  startswith p s = true -> exists t, s = p +:+ t.
Proof.
  revert s. induction p as [|c p IH]; intros s H.
  - exists s. reflexivity.
  - destruct s as [|d s]; simpl in H; [discriminate|].
    destruct (ascii_dec c d) as [->|]; [|discriminate].
    destruct (IH s H) as [t ->]. exists t. reflexivity.
Qed.

Lemma startswith_append_l (p a b : string) :
  startswith p a = true -> startswith p (a +:+ b) = true.
Proof.
  intros H. destruct (startswith_inv p a H) as [t ->].
  rewrite append_assoc. apply startswith_append.
Qed.

(** [str_in] is the substring test: it holds exactly of the texts that
    split as [before +:+ needle +:+ after]. *)
Lemma str_in_intro (before needle after : string) :
  str_in needle (before +:+ needle +:+ after) = true.
Proof.
  induction before as [|c b IH].
  - rewrite append_empty_l.
    destruct (needle +:+ after) eqn:E; simpl;
      rewrite <- E, startswith_append; reflexivity.
  - rewrite append_cons. simpl. rewrite IH. apply orb_true_r.
Qed.

Lemma str_in_inv (needle hay : string) :
  str_in needle hay = true ->
  exists before after, hay = before +:+ needle +:+ after.
Proof.
  induction hay as [|c hay IH]; simpl; intros H.
  - rewrite orb_false_r in H. destruct (startswith_inv _ _ H) as [t Ht].
    exists EmptyString, t. exact Ht.
  - apply orb_true_iff in H as [H|H].
    + destruct (startswith_inv _ _ H) as [t Ht]. exists EmptyString, t. exact Ht.
    + destruct (IH H) as (b & a & ->). exists (String c b), a. reflexivity.
Qed.

Lemma str_in_append_l (needle a b : string) :
  str_in needle a = true -> str_in needle (a +:+ b) = true.
Proof.
  intros H. destruct (str_in_inv _ _ H) as (x & y & ->).
  rewrite !append_assoc. apply str_in_intro.
Qed.

Lemma lower_append (a b : string) : lower (a +:+ b) = lower a +:+ lower b.
Proof.
  induction a as [|c a IH]; [reflexivity|].
  rewrite append_cons. simpl. rewrite IH. reflexivity.
Qed.

Lemma lstrip_blank (s : string) : all_space s = true -> lstrip s = EmptyString.
Proof.
  induction s as [|c s IH]; simpl; [reflexivity|].
  intros H. apply andb_true_iff in H as [Hc Hs]. rewrite Hc. auto.
Qed.

Lemma rstrip_empty (s : string) :
  rstrip s = EmptyString -> all_space s = true.
Proof.
  induction s as [|c s IH]; simpl; [reflexivity|].
  destruct (rstrip s) eqn:E; [|discriminate].
  destruct (is_space c); [intros _; simpl; auto | discriminate].
Qed.

Lemma rstrip_lstrip_head (s : string) :
  rstrip (lstrip s) = EmptyString -> all_space s = true.
Proof.
  induction s as [|c s IH]; simpl; [reflexivity|].
  destruct (is_space c) eqn:Hc; simpl; [exact IH|].
  destruct (rstrip s); [rewrite Hc|]; discriminate.
Qed.

(** [not text.strip()] holds exactly of the empty and the all-blank texts. *)
Lemma strip_blank_iff (s : string) :
  truthy (strip s) = false <-> all_space s = true.
Proof.
  unfold strip. split.
  - intros H. apply rstrip_lstrip_head.
    destruct (rstrip (lstrip s)); [reflexivity | discriminate].
  - intros H. rewrite (lstrip_blank s H). reflexivity.
Qed.

Lemma any_true_iff {A} (p : A -> bool) (xs : list A) :
  any p xs = true <-> exists x, In x xs /\ p x = true.
Proof. unfold any. apply existsb_exists. Qed.

(** The [in] test of the code decides the substring relation. *)
Lemma str_in_iff (needle hay : string) :
  str_in needle hay = true <-> occurs_in needle hay.
Proof.
  split.
  - apply str_in_inv.
  - intros (before & after & ->). apply str_in_intro.
Qed.

Lemma contains_phrase_any (phrases : list string) (text : string) :
  contains_phrase phrases text <->
  any (fun word => str_in word text) phrases = true.
Proof.
  rewrite any_true_iff. unfold contains_phrase.
  split; intros (w & Hin & Hw); exists w; split; auto; apply str_in_iff; exact Hw.
Qed.

Ltac phrase_found := apply contains_phrase_any; vm_compute; reflexivity.

Example lower_sample : lower "Yes, GO Ahead!" = "yes, go ahead!".
Proof. reflexivity. Qed.

Example strip_sample : strip (" " +:+ nl +:+ "a b " +:+ nl) = "a b".
Proof. reflexivity. Qed.

Example join_sample : join (nl +:+ nl) ["a"; "b"] = "a" +:+ nl +:+ nl +:+ "b".
Proof. reflexivity. Qed.

Example intents_sample :
  CallAssistantIntents.handle_intents "yes but not now" = confirm /\
  CallAssistantIntents.handle_intents "stop" = reject /\
  CallAssistantIntents.handle_intents "tell me more" = unknown /\
  CallAssistantIntents.handle_intents EmptyString = unknown.
Proof. repeat split. Qed.

(** ** Intent classification *)

(** C6.  An utterance whose lower-cased text contains a confirm phrase and
    a reject phrase is classified [confirm], by [handle_intents] of
    [twilio_webhookx.py] and by [handle_intents] of [voice2.py]: the confirm
    table is tested first. *)
Theorem confirm_checked_before_reject (utterance : string) :
  (contains_phrase CallAssistantIntents.confirm_triggers (lower utterance) ->
   contains_phrase CallAssistantIntents.reject_triggers (lower utterance) ->
   CallAssistantIntents.handle_intents (lower utterance) = confirm) /\
  (contains_phrase VoiceAssistantIntents.confirm_triggers (lower utterance) ->
   contains_phrase VoiceAssistantIntents.reject_triggers (lower utterance) ->
   VoiceAssistantIntents.handle_intents (lower utterance) = confirm).
Proof.
  split; intros Hc _; apply contains_phrase_any in Hc.
  - unfold CallAssistantIntents.handle_intents. rewrite Hc. reflexivity.
  - unfold VoiceAssistantIntents.handle_intents. rewrite Hc. reflexivity.
Qed.

Lemma confirm_checked_before_reject_witness :
  CallAssistantIntents.handle_intents (lower "Yes, but NOT NOW please") = confirm /\
  VoiceAssistantIntents.handle_intents (lower "Yes, but NOT NOW please") = confirm.
Proof.
  destruct (confirm_checked_before_reject "Yes, but NOT NOW please") as [H1 H2].
  split.
  - apply H1; phrase_found.
  - apply H2; phrase_found.
Defined.

(** ** The Knowledge Engine *)

Section KnowledgeEngine.

Import PropertiesRAG.

Variable env : Env.

Ltac run := unfold bind, ret, raise, try_except, call, observe; cbn.

Lemma load_csvs_from_returns (filepaths : list string) :
  forall docs h, exists docs' h',
    _load_csvs_from env docs filepaths h = (Ok docs', h').
Proof.
  induction filepaths as [|path rest IH]; intros docs h; cbn.
  - eauto.
  - run. destruct (path_exists env h path).
    + destruct (csv_load env h path); apply IH.
    + apply IH.
Qed.

Lemma load_txts_from_returns (filepaths : list string) :
  forall docs h, exists docs' h',
    _load_txts_from env docs filepaths h = (Ok docs', h').
Proof.
  induction filepaths as [|path rest IH]; intros docs h; cbn.
  - eauto.
  - run. destruct (path_exists env h path).
    + destruct (text_load env h path); apply IH.
    + apply IH.
Qed.

(** Loading never raises: a missing or unreadable file is skipped. *)
Lemma load_all_documents_returns (h : list event) :
  exists docs h', _load_all_documents env h = (Ok docs, h').
Proof.
  unfold _load_all_documents, _load_csvs, _load_txts, bind at 1.
  destruct (load_csvs_from_returns DATA_FILES_csv [] h) as (cs & h1 & ->).
  unfold bind at 1.
  destruct (load_txts_from_returns DATA_FILES_txt [] h1) as (ts & h2 & ->).
  eauto.
Qed.

Variable rag : RealEstateRAG.

Lemma routed_to_company (query : string) (k : Z) :
  contains_phrase company_keywords (lower query) ->
  query_knowledge_base env rag query k = _generate_company_response env rag query.
Proof.
  intros H. apply contains_phrase_any in H.
  unfold query_knowledge_base. rewrite H. reflexivity.
Qed.

Lemma routed_to_market (query : string) (k : Z) :
  ~ contains_phrase company_keywords (lower query) ->
  query_knowledge_base env rag query k = market_answer env rag query k.
Proof.
  intros H. unfold query_knowledge_base.
  destruct (any _ company_keywords) eqn:E; [|reflexivity].
  exfalso. apply H, contains_phrase_any, E.
Qed.

(** The profile path never searches the index. *)
Lemma company_response_never_searches (query : string) (h : list event) :
  search_calls (snd (_generate_company_response env rag query h)) = search_calls h.
Proof.
  unfold _generate_company_response, generate_stripped.
  destruct (negb _); [reflexivity|]. run.
  assert (search_calls (h ++ [EvGenerate (company_prompt (company_profile rag) query)])
          = search_calls h) as Hs.
  { unfold search_calls. rewrite List.filter_app, length_app. cbn. lia. }
  destruct (generate_content env h _); exact Hs.
Qed.

End KnowledgeEngine.

(** C7.  [query_knowledge_base] routes on one test: when a company keyword
    occurs in the lower-cased query the answer is that of the profile path
    [_generate_company_response], otherwise it is that of the similarity
    search path.  A question about the founder of any brand goes to the
    profile path, the rental-yield question to the search path. *)
Theorem query_routing (env : Env) (rag : PropertiesRAG.RealEstateRAG)
    (query : string) (k : Z) :
  (contains_phrase PropertiesRAG.company_keywords (lower query) ->
   PropertiesRAG.query_knowledge_base env rag query k
   = PropertiesRAG._generate_company_response env rag query) /\
  (~ contains_phrase PropertiesRAG.company_keywords (lower query) ->
   PropertiesRAG.query_knowledge_base env rag query k
   = PropertiesRAG.market_answer env rag query k) /\
  (forall brand : string,
     PropertiesRAG.query_knowledge_base env rag
       ("Who is the founder of " +:+ brand +:+ "?") k
     = PropertiesRAG._generate_company_response env rag
       ("Who is the founder of " +:+ brand +:+ "?")) /\
  PropertiesRAG.query_knowledge_base env rag
    "What is the rental yield trend for villas?" k
  = PropertiesRAG.market_answer env rag
    "What is the rental yield trend for villas?" k.
Proof.
  split; [apply routed_to_company|].
  split; [apply routed_to_market|].
  split.
  - intros brand. apply routed_to_company.
    exists "founder". split; [simpl; tauto|].
    apply str_in_iff. rewrite lower_append. apply str_in_append_l.
    vm_compute. reflexivity.
  - apply routed_to_market.
    intros H. apply contains_phrase_any in H. vm_compute in H. discriminate H.
Qed.

Lemma query_routing_witness :
  PropertiesRAG.query_knowledge_base Sample.env_up Sample.rag
    "Who founded RealEstateCo and what services do you offer?" 2
  = PropertiesRAG._generate_company_response Sample.env_up Sample.rag
    "Who founded RealEstateCo and what services do you offer?" /\
  PropertiesRAG.query_knowledge_base Sample.env_up Sample.rag
    "What is the ROI trend for villas in Dubai?" 2
  = PropertiesRAG.market_answer Sample.env_up Sample.rag
    "What is the ROI trend for villas in Dubai?" 2.
Proof.
  destruct (query_routing Sample.env_up Sample.rag
              "Who founded RealEstateCo and what services do you offer?" 2)
    as (Hcompany & _).
  destruct (query_routing Sample.env_up Sample.rag
              "What is the ROI trend for villas in Dubai?" 2)
    as (_ & Hmarket & _).
  split.
  - apply Hcompany. phrase_found.
  - apply Hmarket.
    intros H. apply contains_phrase_any in H. vm_compute in H. discriminate H.
Defined.

(** C8.  On the similarity-search path, when the retrieved chunks joined by
    blank lines give an empty or all-blank context, [query_knowledge_base]
    returns the fixed no-relevant-data string; the search is the only
    outside call of the query and the Generation Client is not called. *)
Theorem empty_context_fallback (env : Env) (rag : PropertiesRAG.RealEstateRAG)
    (query : string) (k : Z) (h : list event) (chunks : list Document) :
  ~ contains_phrase PropertiesRAG.company_keywords (lower query) ->
  similarity_search env h (PropertiesRAG.vectorstore rag) query k = Ok chunks ->
  all_space (join (nl +:+ nl) (map page_content chunks)) = true ->
  PropertiesRAG.query_knowledge_base env rag query k h
  = (Ok PropertiesRAG.no_data_fallback,
     (h ++ [EvSimilaritySearch (PropertiesRAG.vectorstore rag) query k])%list) /\
  generation_calls (snd (PropertiesRAG.query_knowledge_base env rag query k h))
  = generation_calls h.
Proof.
  intros Hroute Hsearch Hblank.
  rewrite routed_to_market by exact Hroute.
  apply strip_blank_iff in Hblank.
  assert (PropertiesRAG.market_answer env rag query k h
          = (Ok PropertiesRAG.no_data_fallback,
             (h ++ [EvSimilaritySearch (PropertiesRAG.vectorstore rag) query k])%list))
    as Hrun.
  { unfold PropertiesRAG.market_answer, bind, call. rewrite Hsearch.
    rewrite Hblank. reflexivity. }
  split; [exact Hrun|].
  rewrite Hrun. cbn [snd]. unfold generation_calls.
  rewrite List.filter_app, length_app. cbn. lia.
Qed.

Lemma empty_context_fallback_witness :
  PropertiesRAG.query_knowledge_base Sample.env_blank_hits Sample.rag
    "what is the roi trend for villas in dubai?" 2 []
  = (Ok PropertiesRAG.no_data_fallback,
     [EvSimilaritySearch (LoadedFrom "faiss_index")
        "what is the roi trend for villas in dubai?" 2]) /\
  generation_calls
    (snd (PropertiesRAG.query_knowledge_base Sample.env_blank_hits Sample.rag
            "what is the roi trend for villas in dubai?" 2 []))
  = 0.
Proof.
  refine (empty_context_fallback Sample.env_blank_hits Sample.rag
            "what is the roi trend for villas in dubai?" 2 []
            [mkDocument "  " []; mkDocument nl [("row", "9")]] _ _ _).
  - intros H. apply contains_phrase_any in H. vm_compute in H. discriminate H.
  - reflexivity.
  - vm_compute. reflexivity.
Defined.

(** C2, as the code has it.  Neither answer path catches a Generation
    Client error.  On the profile path with a non-blank profile, and on the
    search path with a non-blank context, an exception raised by the
    generation call is the outcome of [query_knowledge_base]. *)
Theorem generation_error_propagates (env : Env)
    (rag : PropertiesRAG.RealEstateRAG) (query : string) (k : Z)
    (h : list event) (e : exn) :
  (contains_phrase PropertiesRAG.company_keywords (lower query) ->
   all_space (PropertiesRAG.company_profile rag) = false ->
   generate_content env h
     (PropertiesRAG.company_prompt (PropertiesRAG.company_profile rag) query)
   = Raise e ->
   PropertiesRAG.query_knowledge_base env rag query k h
   = (Raise e,
      (h ++ [EvGenerate (PropertiesRAG.company_prompt
                           (PropertiesRAG.company_profile rag) query)])%list)) /\
  (forall chunks : list Document,
   ~ contains_phrase PropertiesRAG.company_keywords (lower query) ->
   similarity_search env h (PropertiesRAG.vectorstore rag) query k = Ok chunks ->
   all_space (join (nl +:+ nl) (map page_content chunks)) = false ->
   generate_content env
     (h ++ [EvSimilaritySearch (PropertiesRAG.vectorstore rag) query k])%list
     (PropertiesRAG.market_prompt
        (join (nl +:+ nl) (map page_content chunks)) query)
   = Raise e ->
   PropertiesRAG.query_knowledge_base env rag query k h
   = (Raise e,
      ((h ++ [EvSimilaritySearch (PropertiesRAG.vectorstore rag) query k])
         ++ [EvGenerate (PropertiesRAG.market_prompt
                           (join (nl +:+ nl) (map page_content chunks)) query)])%list)).
Proof.
  split.
  - intros Hroute Hprofile Hgen.
    rewrite routed_to_company by exact Hroute.
    unfold PropertiesRAG._generate_company_response.
    destruct (truthy (strip (PropertiesRAG.company_profile rag))) eqn:E.
    + unfold PropertiesRAG.generate_stripped, bind, call. cbn [negb].
      rewrite Hgen. reflexivity.
    + apply strip_blank_iff in E. congruence.
  - intros chunks Hroute Hsearch Hcontext Hgen.
    rewrite routed_to_market by exact Hroute.
    unfold PropertiesRAG.market_answer, bind at 1. unfold call at 1.
    rewrite Hsearch.
    destruct (truthy (strip (join (nl +:+ nl) (map page_content chunks)))) eqn:E.
    + unfold PropertiesRAG.generate_stripped, bind, call. cbn [negb].
      rewrite Hgen. reflexivity.
    + apply strip_blank_iff in E. congruence.
Qed.

Lemma generation_error_propagates_witness :
  fst (PropertiesRAG.query_knowledge_base Sample.env_down Sample.rag
         "Who is the CEO?" 2 [])
  = Raise (Exception "503 Service Unavailable") /\
  fst (PropertiesRAG.query_knowledge_base Sample.env_down Sample.rag
         "How are villa rents doing?" 2 [])
  = Raise (Exception "503 Service Unavailable").
Proof.
  destruct (generation_error_propagates Sample.env_down Sample.rag
              "Who is the CEO?" 2 [] (Exception "503 Service Unavailable"))
    as (Hprofile & _).
  destruct (generation_error_propagates Sample.env_down Sample.rag
              "How are villa rents doing?" 2 []
              (Exception "503 Service Unavailable"))
    as (_ & Hmarket).
  split.
  - rewrite Hprofile; [reflexivity | | vm_compute; reflexivity | reflexivity].
    phrase_found.
  - rewrite (Hmarket [Sample.rents_doc]);
      [reflexivity | | reflexivity | vm_compute; reflexivity | reflexivity].
    intros H. apply contains_phrase_any in H. vm_compute in H. discriminate H.
Defined.

(** C2 as stated fails: with the provider down, a profile question and a
    market question both end in the provider's exception, not in a
    fallback string. *)
Lemma fail_soft_counterexample :
  (fst (PropertiesRAG.query_knowledge_base Sample.env_down Sample.rag
          "Who is the founder of RealEstateCo?" 2 [])
   = Raise (Exception "503 Service Unavailable") /\
   fst (PropertiesRAG.query_knowledge_base Sample.env_down Sample.rag
          "What is the rental yield trend for villas?" 2 [])
   = Raise (Exception "503 Service Unavailable")) /\
  ~ (exists text,
       fst (PropertiesRAG.query_knowledge_base Sample.env_down Sample.rag
              "Who is the founder of RealEstateCo?" 2 []) = Ok text) /\
  ~ (exists text,
       fst (PropertiesRAG.query_knowledge_base Sample.env_down Sample.rag
              "What is the rental yield trend for villas?" 2 []) = Ok text).
Proof.
  assert (fst (PropertiesRAG.query_knowledge_base Sample.env_down Sample.rag
                 "Who is the founder of RealEstateCo?" 2 [])
          = Raise (Exception "503 Service Unavailable")) as H1
    by (vm_compute; reflexivity).
  assert (fst (PropertiesRAG.query_knowledge_base Sample.env_down Sample.rag
                 "What is the rental yield trend for villas?" 2 [])
          = Raise (Exception "503 Service Unavailable")) as H2
    by (vm_compute; reflexivity).
  split; [split; assumption|].
  split; intros [text Htext]; congruence.
Qed.

(** ** Index initialisation *)

(** C4, as the code has it.  When the index directory exists the index is
    loaded and nothing is built: the load is the only outside call.  When
    that load raises, the initialisation raises the same error and builds
    nothing.  When the directory does not exist, the documents are loaded
    and split, the index is built from the chunks and saved. *)
Theorem initialize_vectorstore_policy (env : Env) (index_dir : string)
    (h : list event) :
  (path_exists env h index_dir = true ->
   load_local env h index_dir = Ok tt ->
   PropertiesRAG._initialize_vectorstore env index_dir h
   = (Ok (LoadedFrom index_dir), (h ++ [EvLoadLocal index_dir])%list)) /\
  (forall e : exn,
   path_exists env h index_dir = true ->
   load_local env h index_dir = Raise e ->
   PropertiesRAG._initialize_vectorstore env index_dir h
   = (Raise e, (h ++ [EvLoadLocal index_dir])%list)) /\
  (path_exists env h index_dir = false ->
   exists (docs : list Document) (h1 : list event),
     PropertiesRAG._load_all_documents env h = (Ok docs, h1) /\
     let chunks := split_documents env 1000 200 docs in
     let texts := map page_content chunks in
     let metadatas := map metadata chunks in
     let store := BuiltFrom texts metadatas in
     (from_texts env h1 texts metadatas = Ok tt ->
      save_local env (h1 ++ [EvFromTexts texts metadatas])%list store index_dir
      = Ok tt ->
      PropertiesRAG._initialize_vectorstore env index_dir h
      = (Ok store,
         ((h1 ++ [EvFromTexts texts metadatas])
            ++ [EvSaveLocal store index_dir])%list))).
Proof.
  split; [|split].
  - intros Hex Hload.
    unfold PropertiesRAG._initialize_vectorstore, bind, observe, call, ret.
    rewrite Hex, Hload. reflexivity.
  - intros e Hex Hload.
    unfold PropertiesRAG._initialize_vectorstore, bind, observe, call, ret.
    rewrite Hex, Hload. reflexivity.
  - intros Hex.
    destruct (load_all_documents_returns env h) as (docs & h1 & Hdocs).
    exists docs, h1. split; [exact Hdocs|].
    intros chunks texts metadatas store Hbuild Hsave.
    unfold PropertiesRAG._initialize_vectorstore, bind at 1.
    unfold observe. rewrite Hex.
    unfold bind at 1. rewrite Hdocs.
    fold chunks. fold texts. fold metadatas. fold store.
    unfold bind, call, ret. rewrite Hbuild, Hsave. reflexivity.
Qed.

Lemma initialize_vectorstore_policy_witness :
  fst (PropertiesRAG._initialize_vectorstore Sample.env_index_ok "faiss_index" [])
  = Ok (LoadedFrom "faiss_index") /\
  fst (PropertiesRAG._initialize_vectorstore Sample.env_corrupt_index
         "faiss_index" [])
  = Raise (Exception "could not open faiss_index/index.faiss") /\
  exists texts metadatas,
    fst (PropertiesRAG._initialize_vectorstore Sample.env_up "faiss_index" [])
    = Ok (BuiltFrom texts metadatas).
Proof.
  destruct (initialize_vectorstore_policy Sample.env_index_ok "faiss_index" [])
    as (Hload & _).
  destruct (initialize_vectorstore_policy Sample.env_corrupt_index
              "faiss_index" [])
    as (_ & Hraise & _).
  destruct (initialize_vectorstore_policy Sample.env_up "faiss_index" [])
    as (_ & _ & Hbuild).
  split; [|split].
  - rewrite Hload; reflexivity.
  - rewrite (Hraise (Exception "could not open faiss_index/index.faiss"));
      reflexivity.
  - destruct (Hbuild eq_refl) as (docs & h1 & _ & Hrun).
    eexists _, _. rewrite Hrun; reflexivity.
Defined.

(** C4 as stated fails: with an index directory on disk whose contents do
    not load, initialisation ends in the load error; no document is read,
    no index is built or saved. *)
Lemma load_error_counterexample :
  path_exists Sample.env_corrupt_index [] "faiss_index" = true /\
  PropertiesRAG._initialize_vectorstore Sample.env_corrupt_index "faiss_index" []
  = (Raise (Exception "could not open faiss_index/index.faiss"),
     [EvLoadLocal "faiss_index"]) /\
  List.filter is_build
    (snd (PropertiesRAG._initialize_vectorstore Sample.env_corrupt_index
            "faiss_index" []))
  = [].
Proof. vm_compute. repeat split. Qed.

(** ** The call handler *)

Section CallHandler.

Import Webhookx CallAssistantIntents.

Variable env : Env.
Variable rag : PropertiesRAG.RealEstateRAG.

Lemma classified_text_not_empty (text : string) :
  handle_intents text <> unknown -> truthy text = true.
Proof. destruct text; [intros H; exfalso; apply H|]; reflexivity. Qed.

(** [generate_response] always returns: the stripped text of the provider,
    or the advisor message when the provider call raises. *)
Lemma generate_response_returns (self : CallAssistant) (user_input : string)
    (h : list event) :
  let prompt := response_prompt (client_data self) user_input in
  exists text,
    generate_response env self user_input h
    = (Ok text, (h ++ [EvGenerate prompt])%list) /\
    match generate_content env h prompt with
    | Ok raw => text = strip raw
    | Raise _ => text = advisor_fallback
    end.
Proof.
  intros prompt.
  unfold generate_response, PropertiesRAG.generate_stripped,
    try_except, bind, call, ret.
  fold prompt. destruct (generate_content env h prompt); eauto.
Qed.

Lemma combined_reply_returns (self : CallAssistant) (user_input : string)
    (h : list event) :
  exists reply h', combined_reply env rag self user_input h = (Ok reply, h').
Proof.
  unfold combined_reply, submit, bind at 1.
  destruct (PropertiesRAG.query_knowledge_base env rag user_input 2 h)
    as [rag_outcome h1].
  unfold bind at 1.
  destruct (generate_response_returns self user_input h1) as (chat & -> & _).
  unfold try_except, future_result, bind, ret.
  destruct (finished_within env _ RagTask 3), rag_outcome;
    try destruct (finished_within env _ AiTask 4);
    try (destruct (generate_response_returns self user_input
                     (h1 ++ [EvGenerate (response_prompt (client_data self)
                                                         user_input)])%list)
           as (again & -> & _));
    eauto.
Qed.

(** A turn for a call id that is not tracked. *)
Lemma process_untracked (st : App) (cid speech : option string) :
  sessions st !! cid = None ->
  process env rag (mkRequest cid speech) st
  = (Ok [Say session_expired; Hangup], st).
Proof.
  intros H. unfold process, bind, get_sessions. cbn. rewrite H. reflexivity.
Qed.

(** A turn with no text for a tracked call id. *)
Lemma process_no_text (st : App) (cid speech : option string)
    (entry : SessionEntry) :
  sessions st !! cid = Some entry ->
  default EmptyString speech = EmptyString ->
  process env rag (mkRequest cid speech) st = (Ok [Say repeat_request], st).
Proof.
  intros H E. unfold process, bind, get_sessions. cbn. rewrite H, E.
  reflexivity.
Qed.

(** A confirm turn for a tracked call id. *)
Lemma process_confirm (st : App) (cid speech : option string)
    (entry : SessionEntry) :
  sessions st !! cid = Some entry ->
  handle_intents (lower (default EmptyString speech)) = confirm ->
  let counted :=
    with_bot entry
      (with_confirm_count (bot entry) (confirm_count (bot entry) + 1)) in
  process env rag (mkRequest cid speech) st
  = if (2 <=? confirm_count (bot entry) + 1)%Z
    then (Ok [Say confirm_closing; Hangup],
          mkApp (delete cid (<[cid := counted]> (sessions st))) (history st))
    else (Ok (keep_alive confirm_interim),
          mkApp (<[cid := counted]> (sessions st)) (history st)).
Proof.
  intros H Hi counted.
  assert (truthy (lower (default EmptyString speech)) = true) as Ht
    by (apply classified_text_not_empty; congruence).
  unfold process, bind, get_sessions, put_sessions, ret. cbn.
  rewrite H, Ht, Hi. cbn.
  destruct (2 <=? confirm_count (bot entry) + 1)%Z; reflexivity.
Qed.

(** A reject turn for a tracked call id. *)
Lemma process_reject (st : App) (cid speech : option string)
    (entry : SessionEntry) :
  sessions st !! cid = Some entry ->
  handle_intents (lower (default EmptyString speech)) = reject ->
  let counted :=
    with_bot entry
      (with_reject_count (bot entry) (reject_count (bot entry) + 1)) in
  process env rag (mkRequest cid speech) st
  = if (2 <=? reject_count (bot entry) + 1)%Z
    then (Ok [Say reject_closing; Hangup],
          mkApp (delete cid (<[cid := counted]> (sessions st))) (history st))
    else (Ok (keep_alive reject_interim),
          mkApp (<[cid := counted]> (sessions st)) (history st)).
Proof.
  intros H Hi counted.
  assert (truthy (lower (default EmptyString speech)) = true) as Ht
    by (apply classified_text_not_empty; congruence).
  unfold process, bind, get_sessions, put_sessions, ret. cbn.
  rewrite H, Ht, Hi. cbn.
  destruct (2 <=? reject_count (bot entry) + 1)%Z; reflexivity.
Qed.

(** A turn with text that is neither a confirmation nor a rejection. *)
Lemma process_unknown (st : App) (cid speech : option string)
    (entry : SessionEntry) :
  sessions st !! cid = Some entry ->
  truthy (lower (default EmptyString speech)) = true ->
  handle_intents (lower (default EmptyString speech)) = unknown ->
  process env rag (mkRequest cid speech) st
  = match combined_reply env rag (bot entry)
            (lower (default EmptyString speech)) (history st) with
    | (Ok reply, h') => (Ok (keep_alive reply), mkApp (sessions st) h')
    | (Raise e, h') => (Raise e, mkApp (sessions st) h')
    end.
Proof.
  intros H Ht Hi.
  unfold process, bind, get_sessions, lift, ret. cbn.
  rewrite H, Ht, Hi. cbn.
  destruct (combined_reply env rag (bot entry) _ (history st)) as [[reply|e] h'];
    reflexivity.
Qed.

(** No request makes [/process] raise. *)
Lemma process_returns (request : Request) (st : App) :
  exists resp st', process env rag request st = (Ok resp, st').
Proof.
  destruct request as [cid speech].
  destruct (sessions st !! cid) as [entry|] eqn:H.
  - destruct (truthy (lower (default EmptyString speech))) eqn:Ht.
    + destruct (handle_intents (lower (default EmptyString speech))) eqn:Hi.
      * rewrite (process_confirm st cid speech entry H Hi).
        destruct (2 <=? _)%Z; eauto.
      * rewrite (process_reject st cid speech entry H Hi).
        destruct (2 <=? _)%Z; eauto.
      * rewrite (process_unknown st cid speech entry H Ht Hi).
        destruct (combined_reply_returns (bot entry)
                    (lower (default EmptyString speech)) (history st))
          as (reply & h' & ->).
        eauto.
    + unfold process, bind, get_sessions. cbn. rewrite H, Ht. eauto.
  - rewrite (process_untracked st cid speech H). eauto.
Qed.

(** Turns for an untracked call id are all answered the same way and leave
    the state as it was. *)
Lemma process_all_untracked (st : App) (cid : option string)
    (later : list (option string)) :
  sessions st !! cid = None ->
  process_all env rag (map (mkRequest cid) later) st
  = (Ok (map (fun _ => [Say session_expired; Hangup]) later), st).
Proof.
  intros H. induction later as [|speech later IH]; [reflexivity|].
  cbn [map process_all]. unfold bind at 1.
  rewrite (process_untracked st cid speech H).
  unfold bind at 1. rewrite IH. reflexivity.
Qed.

(** A turn touches no entry but the one of its own call id. *)
Lemma process_other_untouched (request : Request) (st : App)
    (other : option string) :
  other <> CallSid request ->
  sessions (snd (process env rag request st)) !! other = sessions st !! other.
Proof.
  destruct request as [cid speech]. cbn [CallSid]. intros Hne.
  destruct (sessions st !! cid) as [entry|] eqn:H.
  - destruct (truthy (lower (default EmptyString speech))) eqn:Ht.
    + destruct (handle_intents (lower (default EmptyString speech))) eqn:Hi.
      * rewrite (process_confirm st cid speech entry H Hi).
        destruct (2 <=? _)%Z; cbn [snd sessions].
        -- rewrite lookup_delete_ne, lookup_insert_ne by congruence. reflexivity.
        -- rewrite lookup_insert_ne by congruence. reflexivity.
      * rewrite (process_reject st cid speech entry H Hi).
        destruct (2 <=? _)%Z; cbn [snd sessions].
        -- rewrite lookup_delete_ne, lookup_insert_ne by congruence. reflexivity.
        -- rewrite lookup_insert_ne by congruence. reflexivity.
      * rewrite (process_unknown st cid speech entry H Ht Hi).
        destruct (combined_reply env rag (bot entry) _ (history st))
          as [[reply|e] h']; reflexivity.
    + unfold process, bind, get_sessions. cbn. rewrite H, Ht. reflexivity.
  - rewrite (process_untracked st cid speech H). reflexivity.
Qed.

(** While a call id is untracked, every turn for it gets the session-expired
    answer, whatever turns of other calls come in between, and it stays
    untracked. *)
Lemma untracked_stays_expired (cid : option string) (later : list Request) :
  forall st : App,
    sessions st !! cid = None ->
    exists (resps : list VoiceResponse) (st' : App),
      process_all env rag later st = (Ok resps, st') /\
      sessions st' !! cid = None /\
      forall (i : nat) (r : Request),
        later !! i = Some r -> CallSid r = cid ->
        resps !! i = Some [Say session_expired; Hangup].
Proof.
  induction later as [|r later IH]; intros st Hnone.
  - exists [], st. repeat split; [exact Hnone|]. intros i r Hi. discriminate Hi.
  - destruct (process_returns r st) as (resp & st1 & Hturn).
    assert (sessions st1 !! cid = None
            /\ (CallSid r = cid -> resp = [Say session_expired; Hangup]))
      as [Hnone1 Hresp].
    { destruct (decide (CallSid r = cid)) as [Heq|Hne].
      - destruct r as [c speech]. cbn [CallSid] in Heq. subst c.
        rewrite (process_untracked st cid speech Hnone) in Hturn.
        injection Hturn as <- <-. auto.
      - split; [|congruence].
        pose proof (process_other_untouched r st cid (not_eq_sym Hne)) as Hframe.
        rewrite Hturn in Hframe. cbn [snd] in Hframe. congruence. }
    destruct (IH st1 Hnone1) as (resps & st' & Hrest & Hnone' & Hall).
    exists (resp :: resps), st'.
    split; [|split; [exact Hnone'|]].
    + cbn [process_all]. unfold bind. rewrite Hturn, Hrest. reflexivity.
    + intros [|i] r' Hi Hcid.
      * cbn in Hi. injection Hi as <-. cbn. f_equal. auto.
      * cbn in Hi |- *. eauto.
Qed.

End CallHandler.

(** C10.  A turn on a tracked call id whose utterance is the empty string
    (or is missing from the form) is answered with the repeat request and
    nothing else happens: the whole state is returned as it was, so the
    counters, the [finalized] attribute, the set of tracked sessions and
    the history of outside calls (no search, no generation) are unchanged. *)
Theorem empty_utterance_changes_nothing (env : Env)
    (rag : PropertiesRAG.RealEstateRAG) (st : Webhookx.App)
    (cid speech : option string) (entry : Webhookx.SessionEntry) :
  Webhookx.sessions st !! cid = Some entry ->
  default EmptyString speech = EmptyString ->
  Webhookx.process env rag (Webhookx.mkRequest cid speech) st
  = (Ok [Webhookx.Say Webhookx.repeat_request], st) /\
  Webhookx.sessions (snd (Webhookx.process env rag (Webhookx.mkRequest cid speech) st))
    !! cid = Some entry /\
  Webhookx.history (snd (Webhookx.process env rag (Webhookx.mkRequest cid speech) st))
  = Webhookx.history st.
Proof.
  intros H E. rewrite (process_no_text env rag st cid speech entry H E).
  cbn [snd]. auto.
Qed.

Lemma empty_utterance_changes_nothing_witness :
  Webhookx.process Sample.env_up Sample.rag
    (Webhookx.mkRequest (Some "CA1") (Some EmptyString)) Sample.app_mid_call
  = (Ok [Webhookx.Say "Could you repeat that?"], Sample.app_mid_call).
Proof.
  apply (empty_utterance_changes_nothing Sample.env_up Sample.rag
           Sample.app_mid_call (Some "CA1") (Some EmptyString)
           (Webhookx.mkSessionEntry Sample.bot_mid_call 1699999990%Z)).
  - apply lookup_singleton_eq.
  - reflexivity.
Defined.

(** C5.  From a tracked session whose two counters are 0, two confirm
    utterances in a row finalize the call: the second reply is the closing
    message followed by a hang-up and the session is removed.  A confirm
    utterance followed by a reject utterance does not: both replies keep the
    call open and the session stays tracked with [confirm_count = 1] and
    [reject_count = 1]. *)
Theorem dialogue_counters (env : Env) (rag : PropertiesRAG.RealEstateRAG)
    (st : Webhookx.App) (cid : option string) (entry : Webhookx.SessionEntry)
    (first second : string) :
  Webhookx.sessions st !! cid = Some entry ->
  Webhookx.confirm_count (Webhookx.bot entry) = 0%Z ->
  Webhookx.reject_count (Webhookx.bot entry) = 0%Z ->
  CallAssistantIntents.handle_intents (lower first) = confirm ->
  (CallAssistantIntents.handle_intents (lower second) = confirm ->
   Webhookx.process_all env rag
     [Webhookx.mkRequest cid (Some first); Webhookx.mkRequest cid (Some second)] st
   = (Ok [Webhookx.keep_alive Webhookx.confirm_interim;
          [Webhookx.Say Webhookx.confirm_closing; Webhookx.Hangup]],
      Webhookx.mkApp (delete cid (Webhookx.sessions st)) (Webhookx.history st))) /\
  (CallAssistantIntents.handle_intents (lower second) = reject ->
   Webhookx.process_all env rag
     [Webhookx.mkRequest cid (Some first); Webhookx.mkRequest cid (Some second)] st
   = (Ok [Webhookx.keep_alive Webhookx.confirm_interim;
          Webhookx.keep_alive Webhookx.reject_interim],
      Webhookx.mkApp
        (<[cid := Webhookx.with_bot entry
                    (Webhookx.with_reject_count
                       (Webhookx.with_confirm_count (Webhookx.bot entry) 1) 1)]>
           (Webhookx.sessions st))
        (Webhookx.history st))).
Proof.
  intros Htracked Hc0 Hr0 Hfirst.
  pose proof (process_confirm env rag st cid (Some first) entry Htracked Hfirst)
    as Hturn1.
  cbv zeta in Hturn1. rewrite Hc0 in Hturn1.
  change (2 <=? 0 + 1)%Z with false in Hturn1.
  change (0 + 1)%Z with 1%Z in Hturn1. cbv iota in Hturn1.
  set (entry1 := Webhookx.with_bot entry
                   (Webhookx.with_confirm_count (Webhookx.bot entry) 1)) in *.
  set (st1 := Webhookx.mkApp (<[cid := entry1]> (Webhookx.sessions st))
                             (Webhookx.history st)) in *.
  assert (Webhookx.sessions st1 !! cid = Some entry1) as Htracked1
    by apply lookup_insert_eq.
  cbn [Webhookx.process_all]. unfold bind. rewrite Hturn1. cbv beta iota.
  split; intros Hsecond.
  - pose proof (process_confirm env rag st1 cid (Some second) entry1
                  Htracked1 Hsecond) as Hturn2.
    cbv zeta in Hturn2.
    change (Webhookx.confirm_count (Webhookx.bot entry1)) with 1%Z in Hturn2.
    change (2 <=? 1 + 1)%Z with true in Hturn2. cbv iota in Hturn2.
    change (Webhookx.sessions st1)
      with (<[cid := entry1]> (Webhookx.sessions st)) in Hturn2.
    change (Webhookx.history st1) with (Webhookx.history st) in Hturn2.
    rewrite insert_insert_eq, delete_insert_eq in Hturn2.
    rewrite Hturn2. reflexivity.
  - pose proof (process_reject env rag st1 cid (Some second) entry1
                  Htracked1 Hsecond) as Hturn2.
    cbv zeta in Hturn2.
    change (Webhookx.reject_count (Webhookx.bot entry1))
      with (Webhookx.reject_count (Webhookx.bot entry)) in Hturn2.
    rewrite Hr0 in Hturn2.
    change (2 <=? 0 + 1)%Z with false in Hturn2.
    change (0 + 1)%Z with 1%Z in Hturn2. cbv iota in Hturn2.
    change (Webhookx.sessions st1)
      with (<[cid := entry1]> (Webhookx.sessions st)) in Hturn2.
    change (Webhookx.history st1) with (Webhookx.history st) in Hturn2.
    rewrite insert_insert_eq in Hturn2.
    rewrite Hturn2. reflexivity.
Qed.

Lemma dialogue_counters_witness :
  fst (Webhookx.process_all Sample.env_up Sample.rag
         [Webhookx.mkRequest (Some "CA1") (Some "Yes");
          Webhookx.mkRequest (Some "CA1") (Some "Sure, go ahead")]
         Sample.app_fresh_call)
  = Ok [Webhookx.keep_alive Webhookx.confirm_interim;
        [Webhookx.Say Webhookx.confirm_closing; Webhookx.Hangup]] /\
  fst (Webhookx.process_all Sample.env_up Sample.rag
         [Webhookx.mkRequest (Some "CA1") (Some "Yes");
          Webhookx.mkRequest (Some "CA1") (Some "No thanks")]
         Sample.app_fresh_call)
  = Ok [Webhookx.keep_alive Webhookx.confirm_interim;
        Webhookx.keep_alive Webhookx.reject_interim].
Proof.
  assert (Webhookx.sessions Sample.app_fresh_call !! Some "CA1"
          = Some (Webhookx.mkSessionEntry
                    (Webhookx.new_CallAssistant (Some "CA1")) 1699999990%Z))
    as Htracked by apply lookup_singleton_eq.
  assert (CallAssistantIntents.handle_intents (lower "Yes") = confirm) as Hyes
    by (vm_compute; reflexivity).
  destruct (dialogue_counters Sample.env_up Sample.rag Sample.app_fresh_call
              (Some "CA1") _ "Yes" "Sure, go ahead"
              Htracked eq_refl eq_refl Hyes) as (Htwice & _).
  destruct (dialogue_counters Sample.env_up Sample.rag Sample.app_fresh_call
              (Some "CA1") _ "Yes" "No thanks"
              Htracked eq_refl eq_refl Hyes) as (_ & Hmixed).
  split.
  - rewrite Htwice; [reflexivity | vm_compute; reflexivity].
  - rewrite Hmixed; [reflexivity | vm_compute; reflexivity].
Defined.

(** C9.  The turn that finalizes a call (second confirmation or second
    rejection) answers with a closing message and a hang-up and removes the
    session from [sessions].  From then on, whatever requests [/process]
    receives, for this or for other call ids, none of them raises, the call
    id stays untracked (no session is made for it), and each turn for this
    call id is answered with the session-expired message and a hang-up. *)
Theorem finalized_session_expires (env : Env)
    (rag : PropertiesRAG.RealEstateRAG) (st : Webhookx.App)
    (cid speech : option string) (entry : Webhookx.SessionEntry)
    (later : list Webhookx.Request) :
  Webhookx.sessions st !! cid = Some entry ->
  (CallAssistantIntents.handle_intents (lower (default EmptyString speech))
   = confirm /\
   (2 <= Webhookx.confirm_count (Webhookx.bot entry) + 1)%Z) \/
  (CallAssistantIntents.handle_intents (lower (default EmptyString speech))
   = reject /\
   (2 <= Webhookx.reject_count (Webhookx.bot entry) + 1)%Z) ->
  exists (closing : string) (st' : Webhookx.App)
         (resps : list Webhookx.VoiceResponse) (st'' : Webhookx.App),
    Webhookx.process env rag (Webhookx.mkRequest cid speech) st
    = (Ok [Webhookx.Say closing; Webhookx.Hangup], st') /\
    Webhookx.sessions st' = delete cid (Webhookx.sessions st) /\
    Webhookx.sessions st' !! cid = None /\
    Webhookx.process_all env rag later st' = (Ok resps, st'') /\
    Webhookx.sessions st'' !! cid = None /\
    (forall (i : nat) (r : Webhookx.Request),
       later !! i = Some r -> Webhookx.CallSid r = cid ->
       resps !! i
       = Some [Webhookx.Say Webhookx.session_expired; Webhookx.Hangup]).
Proof.
  intros Htracked Hfinal.
  assert (exists closing,
            Webhookx.process env rag (Webhookx.mkRequest cid speech) st
            = (Ok [Webhookx.Say closing; Webhookx.Hangup],
               Webhookx.mkApp (delete cid (Webhookx.sessions st))
                              (Webhookx.history st))) as [closing Hturn].
  { destruct Hfinal as [[Hi Hcount]|[Hi Hcount]]; apply Z.leb_le in Hcount.
    - pose proof (process_confirm env rag st cid speech entry Htracked Hi) as H.
      cbv zeta in H. rewrite Hcount, delete_insert_eq in H. eauto.
    - pose proof (process_reject env rag st cid speech entry Htracked Hi) as H.
      cbv zeta in H. rewrite Hcount, delete_insert_eq in H. eauto. }
  set (st' := Webhookx.mkApp (delete cid (Webhookx.sessions st))
                             (Webhookx.history st)) in *.
  assert (Webhookx.sessions st' !! cid = None) as Hgone
    by apply lookup_delete_eq.
  destruct (untracked_stays_expired env rag cid later st' Hgone)
    as (resps & st'' & Hrest & Hnone & Hall).
  exists closing, st', resps, st''. auto 10.
Qed.

Lemma finalized_session_expires_witness :
  exists (closing : string) (st' : Webhookx.App)
         (resps : list Webhookx.VoiceResponse) (st'' : Webhookx.App),
    Webhookx.process Sample.env_up Sample.rag
      (Webhookx.mkRequest (Some "CA1") (Some "OK, I am interested"))
      Sample.app_mid_call
    = (Ok [Webhookx.Say closing; Webhookx.Hangup], st') /\
    Webhookx.sessions st'
    = delete (Some "CA1") (Webhookx.sessions Sample.app_mid_call) /\
    Webhookx.sessions st' !! Some "CA1" = None /\
    Webhookx.process_all Sample.env_up Sample.rag
      [Webhookx.mkRequest (Some "CA1") (Some "hello?");
       Webhookx.mkRequest (Some "CA2") (Some "yes");
       Webhookx.mkRequest (Some "CA1") None] st'
    = (Ok resps, st'') /\
    Webhookx.sessions st'' !! Some "CA1" = None /\
    (forall (i : nat) (r : Webhookx.Request),
       [Webhookx.mkRequest (Some "CA1") (Some "hello?");
        Webhookx.mkRequest (Some "CA2") (Some "yes");
        Webhookx.mkRequest (Some "CA1") None] !! i = Some r ->
       Webhookx.CallSid r = Some "CA1" ->
       resps !! i
       = Some [Webhookx.Say Webhookx.session_expired; Webhookx.Hangup]).
Proof.
  apply (finalized_session_expires Sample.env_up Sample.rag Sample.app_mid_call
           (Some "CA1") (Some "OK, I am interested")
           (Webhookx.mkSessionEntry Sample.bot_mid_call 1699999990%Z)).
  - apply lookup_singleton_eq.
  - left. split; [vm_compute; reflexivity | vm_compute; discriminate].
Defined.

(** C1, as the code has it.  [/voice] makes a new session for its call id
    every time: whatever was tracked under that id before, the entry
    afterwards holds a new [CallAssistant] with both counters 0,
    [finalized] false and the built-in client data, stamped with the
    current clock reading.  Entries of other call ids are untouched and
    nothing in the request besides the call id is read. *)
Theorem voice_starts_new_session (env : Env) (request : Webhookx.Request)
    (st : Webhookx.App) :
  let cid := Webhookx.CallSid request in
  let st' := snd (Webhookx.voice env request st) in
  is_ok (fst (Webhookx.voice env request st)) = true /\
  Webhookx.sessions st' !! cid
  = Some (Webhookx.mkSessionEntry
            (Webhookx.mkCallAssistant cid Webhookx.demo_client 0 0 false)
            (time_time env (Webhookx.history st))) /\
  (forall other : option string,
     other <> cid -> Webhookx.sessions st' !! other = Webhookx.sessions st !! other) /\
  Webhookx.history st' = Webhookx.history st /\
  (forall speech : option string,
     Webhookx.voice env (Webhookx.mkRequest cid speech) st
     = Webhookx.voice env request st).
Proof.
  intros cid st'. subst st'.
  unfold Webhookx.voice, Webhookx.lift, Webhookx.get_sessions,
    Webhookx.put_sessions, bind, observe, ret.
  cbn. fold cid.
  split; [reflexivity|].
  split; [apply lookup_insert_eq|].
  split; [intros other Hne; apply lookup_insert_ne; congruence|].
  split; reflexivity.
Qed.

Lemma voice_starts_new_session_witness :
  Webhookx.sessions
    (snd (Webhookx.voice Sample.env_up
            (Webhookx.mkRequest (Some "CA1") None) Sample.app_mid_call))
    !! Some "CA2"
  = Webhookx.sessions Sample.app_mid_call !! Some "CA2".
Proof.
  apply (voice_starts_new_session Sample.env_up
           (Webhookx.mkRequest (Some "CA1") None) Sample.app_mid_call).
  discriminate.
Defined.

(** C1 as stated fails: a call start for a tracked call id whose session
    has counted one confirmation leaves a session whose count is 0 again. *)
Lemma call_start_counterexample :
  (exists entry,
     Webhookx.sessions Sample.app_mid_call !! Some "CA1" = Some entry /\
     Webhookx.confirm_count (Webhookx.bot entry) = 1%Z) /\
  (exists entry',
     Webhookx.sessions
       (snd (Webhookx.voice Sample.env_up
               (Webhookx.mkRequest (Some "CA1") None) Sample.app_mid_call))
       !! Some "CA1" = Some entry' /\
     Webhookx.confirm_count (Webhookx.bot entry') = 0%Z) /\
  Webhookx.sessions
    (snd (Webhookx.voice Sample.env_up
            (Webhookx.mkRequest (Some "CA1") None) Sample.app_mid_call))
    !! Some "CA1"
  <> Webhookx.sessions Sample.app_mid_call !! Some "CA1".
Proof.
  assert (Webhookx.sessions Sample.app_mid_call !! Some "CA1"
          = Some (Webhookx.mkSessionEntry Sample.bot_mid_call 1699999990%Z))
    as Hbefore by apply lookup_singleton_eq.
  assert (Webhookx.sessions
            (snd (Webhookx.voice Sample.env_up
                    (Webhookx.mkRequest (Some "CA1") None) Sample.app_mid_call))
            !! Some "CA1"
          = Some (Webhookx.mkSessionEntry
                    (Webhookx.new_CallAssistant (Some "CA1")) 1700000000%Z))
    as Hafter by apply lookup_insert_eq.
  split; [eexists; split; [exact Hbefore | reflexivity]|].
  split; [eexists; split; [exact Hafter | reflexivity]|].
  rewrite Hbefore, Hafter. discriminate.
Qed.

(** C3, as the code has it.  For an unknown-intent turn the knowledge query
    and [generate_response] are both run.
    - When the knowledge query returned a text and both futures are done
      within their waits, the reply is the conversational text, one space,
      the knowledge text.
    - In every other case (the knowledge query raised or was late, or the
      conversational future was late) the reply is the outcome of one more
      [generate_response] call and the knowledge text is not used.
    - [generate_response] never raises: it gives the provider's stripped
      text, or the advisor message when the provider call raises.
    - The composed reply is always a text, and [/process] never raises. *)
Theorem unknown_intent_reply (env : Env) (rag : PropertiesRAG.RealEstateRAG)
    (self : Webhookx.CallAssistant) (user_input : string) (h : list event) :
  let rag_run := PropertiesRAG.query_knowledge_base env rag user_input 2 h in
  let ai_run := Webhookx.generate_response env self user_input (snd rag_run) in
  let h2 := snd ai_run in
  let prompt := Webhookx.response_prompt (Webhookx.client_data self) user_input in
  (forall knowledge chat : string,
     fst rag_run = Ok knowledge ->
     fst ai_run = Ok chat ->
     finished_within env h2 RagTask 3 = true ->
     finished_within env h2 AiTask 4 = true ->
     Webhookx.combined_reply env rag self user_input h
     = (Ok (chat +:+ " " +:+ knowledge), h2)) /\
  (is_ok (fst rag_run) && finished_within env h2 RagTask 3
     && finished_within env h2 AiTask 4 = false ->
   Webhookx.combined_reply env rag self user_input h
   = Webhookx.generate_response env self user_input h2) /\
  (forall h' : list event,
     exists text : string,
       Webhookx.generate_response env self user_input h'
       = (Ok text, (h' ++ [EvGenerate prompt])%list) /\
       match generate_content env h' prompt with
       | Ok raw => text = strip raw
       | Raise _ => text = Webhookx.advisor_fallback
       end) /\
  (exists reply : string,
     fst (Webhookx.combined_reply env rag self user_input h) = Ok reply) /\
  (forall (request : Webhookx.Request) (st : Webhookx.App),
     is_ok (fst (Webhookx.process env rag request st)) = true).
Proof.
  intros rag_run ai_run h2 prompt.
  assert (Webhookx.combined_reply env rag self user_input h
          = if finished_within env h2 RagTask 3
            then match fst rag_run with
                 | Ok knowledge =>
                     if finished_within env h2 AiTask 4
                     then match fst ai_run with
                          | Ok chat => (Ok (chat +:+ " " +:+ knowledge), h2)
                          | Raise _ =>
                              Webhookx.generate_response env self user_input h2
                          end
                     else Webhookx.generate_response env self user_input h2
                 | Raise _ => Webhookx.generate_response env self user_input h2
                 end
            else Webhookx.generate_response env self user_input h2) as Hrun.
  { subst h2 ai_run rag_run.
    unfold Webhookx.combined_reply, Webhookx.submit, bind at 1.
    destruct (PropertiesRAG.query_knowledge_base env rag user_input 2 h)
      as [rag_outcome h1].
    unfold bind at 1. cbn [fst snd].
    destruct (Webhookx.generate_response env self user_input h1)
      as [ai_outcome h2].
    cbn [fst snd].
    unfold try_except, Webhookx.future_result, bind, ret.
    destruct (finished_within env h2 RagTask 3); [|reflexivity].
    destruct rag_outcome as [knowledge|e]; [|reflexivity].
    destruct (finished_within env h2 AiTask 4); [|reflexivity].
    destruct ai_outcome; reflexivity. }
  split; [|split; [|split; [|split]]].
  - intros knowledge chat Hk Hc Hr Ha.
    rewrite Hrun, Hr, Hk, Ha, Hc. reflexivity.
  - intros Hlate. rewrite Hrun.
    destruct (finished_within env h2 RagTask 3); [|reflexivity].
    destruct (fst rag_run); [|reflexivity].
    destruct (finished_within env h2 AiTask 4); [discriminate Hlate|reflexivity].
  - intros h'. apply generate_response_returns.
  - destruct (combined_reply_returns env rag self user_input h)
      as (reply & h' & ->).
    exists reply. reflexivity.
  - intros request st.
    destruct (process_returns env rag request st) as (resp & st' & ->).
    reflexivity.
Qed.

Lemma unknown_intent_reply_witness :
  Webhookx.combined_reply Sample.env_up Sample.rag Sample.bot_mid_call
    "how are villa rents doing?" []
  = (Ok (Sample.chat_text +:+ " " +:+ Sample.market_text),
     snd (Webhookx.generate_response Sample.env_up Sample.bot_mid_call
            "how are villa rents doing?"
            (snd (PropertiesRAG.query_knowledge_base Sample.env_up Sample.rag
                    "how are villa rents doing?" 2 [])))) /\
  Webhookx.combined_reply Sample.env_ai_slow Sample.rag Sample.bot_mid_call
    "how are villa rents doing?" []
  = Webhookx.generate_response Sample.env_ai_slow Sample.bot_mid_call
      "how are villa rents doing?"
      (snd (Webhookx.generate_response Sample.env_ai_slow Sample.bot_mid_call
              "how are villa rents doing?"
              (snd (PropertiesRAG.query_knowledge_base Sample.env_ai_slow
                      Sample.rag "how are villa rents doing?" 2 [])))).
Proof.
  destruct (unknown_intent_reply Sample.env_up Sample.rag Sample.bot_mid_call
              "how are villa rents doing?" []) as (Hboth & _).
  destruct (unknown_intent_reply Sample.env_ai_slow Sample.rag
              Sample.bot_mid_call "how are villa rents doing?" [])
    as (_ & Hlate & _).
  split.
  - apply Hboth; [vm_compute; reflexivity | vm_compute; reflexivity
                  | reflexivity | reflexivity].
  - apply Hlate. vm_compute. reflexivity.
Defined.

(** C3 as stated fails.  First world: the knowledge query answers in time
    and the conversational future is late; the reply is the text of a
    second conversational call, not the knowledge text.  Second world: both
    futures are late; the reply is again the text of a second
    conversational call, not the advisor message. *)
Lemma degraded_reply_counterexample :
  (fst (PropertiesRAG.query_knowledge_base Sample.env_ai_slow Sample.rag
          "how are villa rents doing?" 2 [])
   = Ok Sample.market_text /\
   (forall h : list event,
      finished_within Sample.env_ai_slow h RagTask 3 = true /\
      finished_within Sample.env_ai_slow h AiTask 4 = false) /\
   fst (Webhookx.combined_reply Sample.env_ai_slow Sample.rag
          Sample.bot_mid_call "how are villa rents doing?" [])
   = Ok Sample.chat_text /\
   Sample.chat_text <> Sample.market_text) /\
  ((forall h : list event,
      finished_within Sample.env_all_slow h RagTask 3 = false /\
      finished_within Sample.env_all_slow h AiTask 4 = false) /\
   fst (Webhookx.combined_reply Sample.env_all_slow Sample.rag
          Sample.bot_mid_call "how are villa rents doing?" [])
   = Ok Sample.chat_text /\
   Sample.chat_text <> Webhookx.advisor_fallback).
Proof.
  split.
  - split; [vm_compute; reflexivity|].
    split; [intros h; split; reflexivity|].
    split; [vm_compute; reflexivity | discriminate].
  - split; [intros h; split; reflexivity|].
    split; [vm_compute; reflexivity | discriminate].
Qed.

(** * Further properties of the code *)

(** ** [twilio_webhookx.py]: the routes and the session table *)

Section ProcessOutcomes.

Import Webhookx CallAssistantIntents WebhookxServer.

Variable env : Env.
Variable rag : PropertiesRAG.RealEstateRAG.

(** The five ways a [/process] request ends: session expired, no text,
    interim reply after a counted turn, closing reply, composed answer. *)
Lemma process_outcome (request : Request) (st : App) :
  (sessions st !! CallSid request = None /\
   process env rag request st = (Ok [Say session_expired; Hangup], st)) \/
  (is_Some (sessions st !! CallSid request) /\
   utterance request = EmptyString /\
   process env rag request st = (Ok [Say repeat_request], st)) \/
  (exists entry entry' reply,
     sessions st !! CallSid request = Some entry /\
     handle_intents (utterance request) <> unknown /\
     counted_once entry entry' /\
     process env rag request st
     = (Ok (keep_alive reply),
        mkApp (<[CallSid request := entry']> (sessions st)) (history st))) \/
  (exists closing,
     is_Some (sessions st !! CallSid request) /\
     handle_intents (utterance request) <> unknown /\
     process env rag request st
     = (Ok [Say closing; Hangup],
        mkApp (delete (CallSid request) (sessions st)) (history st))) \/
  (exists entry reply h',
     sessions st !! CallSid request = Some entry /\
     truthy (utterance request) = true /\
     handle_intents (utterance request) = unknown /\
     combined_reply env rag (bot entry) (utterance request) (history st)
     = (Ok reply, h') /\
     process env rag request st
     = (Ok (keep_alive reply), mkApp (sessions st) h')).
Proof.
  destruct request as [cid speech]. unfold utterance. cbn [CallSid SpeechResult].
  set (text := lower (default EmptyString speech)).
  destruct (sessions st !! cid) as [entry|] eqn:H.
  - destruct (truthy text) eqn:Ht.
    + destruct (handle_intents text) eqn:Hi.
      * rewrite (process_confirm env rag st cid speech entry H Hi). cbv zeta.
        destruct (2 <=? confirm_count (bot entry) + 1)%Z eqn:Hc.
        -- do 3 right. left. exists confirm_closing.
           rewrite delete_insert_eq. repeat split; eauto; discriminate.
        -- do 2 right. left. eexists entry, _, _.
           apply Z.leb_gt in Hc.
           split; [reflexivity|]. split; [discriminate|].
           split; [|reflexivity].
           unfold counted_once. cbn. repeat split; auto.
      * rewrite (process_reject env rag st cid speech entry H Hi). cbv zeta.
        destruct (2 <=? reject_count (bot entry) + 1)%Z eqn:Hc.
        -- do 3 right. left. exists reject_closing.
           rewrite delete_insert_eq. repeat split; eauto; discriminate.
        -- do 2 right. left. eexists entry, _, _.
           apply Z.leb_gt in Hc.
           split; [reflexivity|]. split; [discriminate|].
           split; [|reflexivity].
           unfold counted_once. cbn. repeat split; auto.
      * do 4 right.
        rewrite (process_unknown env rag st cid speech entry H Ht Hi).
        destruct (combined_reply_returns env rag (bot entry) text (history st))
          as (reply & h' & Hreply).
        fold text. rewrite Hreply. exists entry, reply, h'. auto 10.
    + right. left. split; [eauto|].
      assert (text = EmptyString) as Hempty
        by (destruct text; [reflexivity | discriminate Ht]).
      split; [exact Hempty|].
      apply (process_no_text env rag st cid speech entry H).
      unfold text in Hempty.
      destruct (default EmptyString speech); [reflexivity | discriminate Hempty].
  - left. split; [reflexivity|]. apply process_untracked. exact H.
Qed.

Lemma generation_calls_app (h evs : list event) :
  generation_calls (h ++ evs) = generation_calls h + generation_calls evs.
Proof. unfold generation_calls. rewrite List.filter_app, length_app. reflexivity. Qed.

Lemma search_calls_app (h evs : list event) :
  search_calls (h ++ evs) = search_calls h + search_calls evs.
Proof. unfold search_calls. rewrite List.filter_app, length_app. reflexivity. Qed.

(** What one knowledge query adds to the history. *)
Lemma query_history (query : string) (k : Z) (h : list event) :
  exists evs : list event,
    snd (PropertiesRAG.query_knowledge_base env rag query k h) = (h ++ evs)%list /\
    generation_calls evs <= 1 /\
    search_calls evs <= 1 /\
    forallb (fun ev => is_generate ev || is_search ev) evs = true /\
    (contains_phrase PropertiesRAG.company_keywords (lower query) ->
     search_calls evs = 0).
Proof.
  unfold PropertiesRAG.query_knowledge_base.
  destruct (any _ PropertiesRAG.company_keywords) eqn:Hroute.
  - unfold PropertiesRAG._generate_company_response.
    destruct (negb _).
    + exists []. rewrite app_nil_r. cbn. auto.
    + unfold PropertiesRAG.generate_stripped, bind, call, ret.
      eexists [_]. destruct (generate_content env h _); cbn; auto.
  - unfold PropertiesRAG.market_answer, bind at 1. unfold call at 1.
    assert (~ contains_phrase PropertiesRAG.company_keywords (lower query))
      as Hno by (rewrite contains_phrase_any; congruence).
    destruct (similarity_search env h _ query k) as [results|e].
    + destruct (negb _).
      * eexists [_]. cbn. split; [reflexivity|]. repeat split; auto.
        intros Hyes. contradiction.
      * unfold PropertiesRAG.generate_stripped, bind, call, ret.
        eexists [_; _].
        destruct (generate_content env _ _); cbn; rewrite <- app_assoc;
          (split; [reflexivity|]); repeat split; auto; intros Hyes; contradiction.
    + eexists [_]. cbn. split; [reflexivity|]. repeat split; auto.
      intros Hyes. contradiction.
Qed.

(** What one [generate_response] call adds to the history. *)
Lemma generate_response_history (self : CallAssistant) (user_input : string)
    (h : list event) :
  snd (generate_response env self user_input h)
  = (h ++ [EvGenerate (response_prompt (client_data self) user_input)])%list.
Proof.
  destruct (generate_response_returns env self user_input h) as (text & -> & _).
  reflexivity.
Qed.

(** What the composed answer adds to the history. *)
Lemma combined_reply_history (self : CallAssistant) (user_input : string)
    (h : list event) :
  exists evs : list event,
    snd (combined_reply env rag self user_input h) = (h ++ evs)%list /\
    1 <= generation_calls evs <= 3 /\
    search_calls evs <= 1 /\
    forallb (fun ev => is_generate ev || is_search ev) evs = true.
Proof.
  destruct (query_history user_input 2 h) as (evs & Hq & Hg & Hs & Hkinds & _).
  unfold combined_reply, submit, bind at 1.
  destruct (PropertiesRAG.query_knowledge_base env rag user_input 2 h)
    as [rag_outcome h1].
  cbn [snd] in Hq. subst h1.
  unfold bind at 1.
  destruct (generate_response_returns env self user_input (h ++ evs))
    as (chat & -> & _).
  set (g := EvGenerate (response_prompt (client_data self) user_input)).
  assert (exists more,
            snd (try_except
                   (rag_context <- future_result env RagTask 3 rag_outcome ;;
                    ai_response <- future_result env AiTask 4 (Ok chat) ;;
                    ret (ai_response +:+ " " +:+ rag_context))
                   (fun _ => generate_response env self user_input)
                   ((h ++ evs) ++ [g])%list)
            = (((h ++ evs) ++ [g]) ++ more)%list
            /\ (more = [] \/ more = [g])) as (more & Hsnd & Hmore).
  { unfold try_except, future_result, bind, ret.
    destruct (finished_within env _ RagTask 3), rag_outcome;
      try destruct (finished_within env _ AiTask 4);
      try (rewrite generate_response_history; exists [g]; auto);
      exists []; rewrite app_nil_r; auto. }
  exists (evs ++ [g] ++ more)%list.
  split; [rewrite Hsnd, <- !app_assoc; reflexivity|].
  rewrite !generation_calls_app, !search_calls_app, !forallb_app, Hkinds.
  destruct Hmore as [-> | ->]; cbn; repeat split; lia.
Qed.

End ProcessOutcomes.

(** X1.  The reply of [/process] ends the call exactly when the call id is
    left untracked: a reply with a hang-up means no session under that id
    afterwards, a reply without one means the session is still there. *)
Theorem hangup_iff_session_gone (env : Env) (rag : PropertiesRAG.RealEstateRAG)
    (request : Webhookx.Request) (st st' : Webhookx.App)
    (resp : Webhookx.VoiceResponse) :
  Webhookx.process env rag request st = (Ok resp, st') ->
  WebhookxServer.hangs_up resp = true
  <-> Webhookx.sessions st' !! Webhookx.CallSid request = None.
Proof.
  intros Hrun.
  destruct (process_outcome env rag request st)
    as [(Hnone & Hp) | [(Hsome & _ & Hp) | [(entry & entry' & reply & _ & _ & _ & Hp)
       | [(closing & _ & _ & Hp) | (entry & reply & h' & Hsome & _ & _ & _ & Hp)]]]];
    rewrite Hp in Hrun; injection Hrun as <- <-; cbn.
  - tauto.
  - destruct Hsome as [e He]. rewrite He. split; discriminate.
  - rewrite lookup_insert_eq. split; discriminate.
  - rewrite lookup_delete_eq. tauto.
  - rewrite Hsome. split; discriminate.
Qed.

Lemma hangup_iff_session_gone_witness :
  WebhookxServer.hangs_up
    [Webhookx.Say Webhookx.confirm_closing; Webhookx.Hangup] = true
  <-> Webhookx.sessions (Webhookx.mkApp (delete (Some "CA1") (Webhookx.sessions Sample.app_mid_call)) [])
        !! Some "CA1" = None.
Proof.
  apply (hangup_iff_session_gone Sample.env_up Sample.rag
           (Webhookx.mkRequest (Some "CA1") (Some "yes")) Sample.app_mid_call).
  pose proof (process_confirm Sample.env_up Sample.rag Sample.app_mid_call
                (Some "CA1") (Some "yes")
                (Webhookx.mkSessionEntry Sample.bot_mid_call 1699999990%Z)
                (lookup_singleton_eq _ _)) as H.
  rewrite H by (vm_compute; reflexivity).
  cbn. rewrite delete_insert_eq. reflexivity.
Defined.

(** X2.  [/health] counts the tracked sessions, and the routes move that
    count by at most one: [/voice] adds one when the call id was untracked
    and none when it was tracked; [/process] takes one away when it closes
    a tracked call and leaves the count alone otherwise. *)
Theorem health_accounting (env : Env) (rag : PropertiesRAG.RealEstateRAG)
    (request : Webhookx.Request) (st : Webhookx.App) :
  fst (Webhookx.health st) = Ok (size (Webhookx.sessions st)) /\
  fst (Webhookx.health (snd (Webhookx.voice env request st)))
  = Ok (match Webhookx.sessions st !! Webhookx.CallSid request with
        | Some _ => size (Webhookx.sessions st)
        | None => S (size (Webhookx.sessions st))
        end) /\
  fst (Webhookx.health (snd (Webhookx.process env rag request st)))
  = Ok (match Webhookx.sessions st !! Webhookx.CallSid request,
              fst (Webhookx.process env rag request st) with
        | Some _, Ok resp =>
            if WebhookxServer.hangs_up resp
            then pred (size (Webhookx.sessions st))
            else size (Webhookx.sessions st)
        | _, _ => size (Webhookx.sessions st)
        end).
Proof.
  split; [reflexivity|]. split.
  - unfold Webhookx.voice, Webhookx.lift, Webhookx.get_sessions,
      Webhookx.put_sessions, Webhookx.health, bind, observe, ret.
    cbn. rewrite map_size_insert.
    destruct (Webhookx.sessions st !! Webhookx.CallSid request); reflexivity.
  - unfold Webhookx.health, Webhookx.get_sessions, bind, ret. cbn [fst].
    destruct (process_outcome env rag request st)
      as [(Hnone & Hp) | [([e He] & _ & Hp) | [(entry & entry' & reply & He & _ & _ & Hp)
         | [(closing & [e He] & _ & Hp) | (entry & reply & h' & He & _ & _ & _ & Hp)]]]];
      rewrite Hp; cbn [fst snd Webhookx.sessions]; try rewrite He;
      try rewrite Hnone; cbn; try reflexivity.
    + rewrite map_size_insert, He. reflexivity.
    + rewrite map_size_delete, He. reflexivity.
Qed.

Lemma session_ok_preserved (env : Env) (rag : PropertiesRAG.RealEstateRAG)
    (q : WebhookxServer.http_request) (st : Webhookx.App) :
  map_Forall WebhookxServer.session_ok (Webhookx.sessions st) ->
  map_Forall WebhookxServer.session_ok
    (Webhookx.sessions (snd (WebhookxServer.handle env rag q st))).
Proof.
  intros Hok. destruct q as [request|request]; cbn [WebhookxServer.handle].
  - unfold Webhookx.voice, Webhookx.lift, Webhookx.get_sessions,
      Webhookx.put_sessions, bind, observe, ret.
    cbn. apply map_Forall_insert_2; [|exact Hok].
    unfold WebhookxServer.session_ok. cbn. repeat split; lia.
  - destruct (process_outcome env rag request st)
      as [(Hnone & Hp) | [(_ & _ & Hp) | [(entry & entry' & reply & He & _ & Hc & Hp)
         | [(closing & _ & _ & Hp) | (entry & reply & h' & _ & _ & _ & _ & Hp)]]]];
      rewrite Hp; cbn [snd Webhookx.sessions]; try exact Hok.
    + apply map_Forall_insert_2; [|exact Hok].
      pose proof (map_Forall_lookup_1 _ _ _ _ Hok He) as (Hid & Hcd & Hfin & Hcc & Hrc).
      destruct Hc as (_ & Hid' & Hcd' & Hfin' & Hcount).
      unfold WebhookxServer.session_ok.
      rewrite Hid', Hcd', Hfin'. repeat split; auto; lia.
    + apply map_Forall_delete. exact Hok.
Qed.

(** X3.  Whatever requests the two routes have served since start-up,
    every tracked session is well formed: it is stored under its own call
    id, holds the built-in client data, has [finalized] false, and each of
    its counters is 0 or 1. *)
Theorem tracked_sessions_well_formed (env : Env)
    (rag : PropertiesRAG.RealEstateRAG)
    (requests : list WebhookxServer.http_request) :
  map_Forall WebhookxServer.session_ok
    (Webhookx.sessions
       (WebhookxServer.serve env rag requests WebhookxServer.initial_app)).
Proof.
  assert (forall st,
            map_Forall WebhookxServer.session_ok (Webhookx.sessions st) ->
            map_Forall WebhookxServer.session_ok
              (Webhookx.sessions (WebhookxServer.serve env rag requests st)))
    as Hinv.
  { induction requests as [|q rest IH]; intros st Hok; [exact Hok|].
    cbn [WebhookxServer.serve]. apply IH, session_ok_preserved, Hok. }
  apply Hinv. apply map_Forall_empty.
Qed.

(** X4.  The turn that follows a call start never ends the call: after
    [/voice] for a call id, a [/process] request for that id, whatever its
    text, returns a reply without hang-up and the session stays tracked. *)
Theorem first_turn_never_hangs_up (env : Env)
    (rag : PropertiesRAG.RealEstateRAG) (request : Webhookx.Request)
    (speech : option string) (st : Webhookx.App) :
  exists (resp : Webhookx.VoiceResponse) (st' : Webhookx.App),
    Webhookx.process env rag
      (Webhookx.mkRequest (Webhookx.CallSid request) speech)
      (snd (Webhookx.voice env request st))
    = (Ok resp, st') /\
    WebhookxServer.hangs_up resp = false /\
    is_Some (Webhookx.sessions st' !! Webhookx.CallSid request).
Proof.
  set (cid := Webhookx.CallSid request).
  set (st1 := snd (Webhookx.voice env request st)).
  assert (Webhookx.sessions st1 !! cid
          = Some (Webhookx.mkSessionEntry (Webhookx.new_CallAssistant cid)
                    (time_time env (Webhookx.history st)))) as Hfresh.
  { subst st1. unfold Webhookx.voice, Webhookx.lift, Webhookx.get_sessions,
      Webhookx.put_sessions, bind, observe, ret.
    cbn. apply lookup_insert_eq. }
  destruct (process_outcome env rag (Webhookx.mkRequest cid speech) st1)
    as [(Hnone & Hp) | [(_ & _ & Hp) | [(entry & entry' & reply & _ & _ & _ & Hp)
       | [(closing & _ & Hi & Hp) | (entry & reply & h' & _ & _ & _ & _ & Hp)]]]];
    cbn [Webhookx.CallSid] in *.
  - congruence.
  - eexists _, _. split; [exact Hp|]. split; [reflexivity|].
    rewrite Hfresh. eauto.
  - eexists _, _. split; [exact Hp|]. split; [reflexivity|].
    cbn [Webhookx.sessions]. rewrite lookup_insert_eq. eauto.
  - exfalso.
    destruct (CallAssistantIntents.handle_intents
                (WebhookxServer.utterance (Webhookx.mkRequest cid speech)))
      eqn:Hintent; [| |congruence].
    + pose proof (process_confirm env rag st1 cid speech _ Hfresh Hintent) as H.
      cbv zeta in H.
      change (2 <=? Webhookx.confirm_count _ + 1)%Z with false in H.
      cbv iota in H. rewrite Hp in H. discriminate H.
    + pose proof (process_reject env rag st1 cid speech _ Hfresh Hintent) as H.
      cbv zeta in H.
      change (2 <=? Webhookx.reject_count _ + 1)%Z with false in H.
      cbv iota in H. rewrite Hp in H. discriminate H.
  - eexists _, _. split; [exact Hp|]. split; [reflexivity|].
    change (is_Some (Webhookx.sessions st1 !! cid)). rewrite Hfresh. eauto.
Qed.

(** X5.  A [/process] turn either counts or talks to the outside, never
    both: when the text is classified confirm or reject, is empty, or the
    call id is untracked, no outside call is made; when the text is
    classified unknown, the session table is left as it was. *)
Theorem turns_count_or_call_out (env : Env) (rag : PropertiesRAG.RealEstateRAG)
    (request : Webhookx.Request) (st : Webhookx.App) :
  (CallAssistantIntents.handle_intents (WebhookxServer.utterance request)
   <> unknown \/
   WebhookxServer.utterance request = EmptyString \/
   Webhookx.sessions st !! Webhookx.CallSid request = None ->
   Webhookx.history (snd (Webhookx.process env rag request st))
   = Webhookx.history st) /\
  (CallAssistantIntents.handle_intents (WebhookxServer.utterance request)
   = unknown ->
   Webhookx.sessions (snd (Webhookx.process env rag request st))
   = Webhookx.sessions st).
Proof.
  destruct (process_outcome env rag request st)
    as [(Hnone & Hp) | [(_ & _ & Hp) | [(entry & entry' & reply & _ & Hi & _ & Hp)
       | [(closing & _ & Hi & Hp) | (entry & reply & h' & He & Ht & Hi & _ & Hp)]]]];
    rewrite Hp; cbn [snd Webhookx.sessions Webhookx.history];
    (split; [intros Hquiet | intros Hunknown]);
    try reflexivity; try congruence.
  destruct Hquiet as [Hq | [Hq | Hq]]; [congruence | | congruence].
  rewrite Hq in Ht. discriminate Ht.
Qed.

Lemma turns_count_or_call_out_witness :
  Webhookx.history
    (snd (Webhookx.process Sample.env_up Sample.rag
            (Webhookx.mkRequest (Some "CA1") (Some "Yes please"))
            Sample.app_mid_call))
  = Webhookx.history Sample.app_mid_call /\
  Webhookx.sessions
    (snd (Webhookx.process Sample.env_up Sample.rag
            (Webhookx.mkRequest (Some "CA1") (Some "How are villa rents?"))
            Sample.app_mid_call))
  = Webhookx.sessions Sample.app_mid_call.
Proof.
  split.
  - apply (turns_count_or_call_out Sample.env_up Sample.rag
             (Webhookx.mkRequest (Some "CA1") (Some "Yes please"))
             Sample.app_mid_call).
    left. vm_compute. discriminate.
  - apply (turns_count_or_call_out Sample.env_up Sample.rag
             (Webhookx.mkRequest (Some "CA1") (Some "How are villa rents?"))
             Sample.app_mid_call).
    vm_compute. reflexivity.
Defined.

(** X6.  An unknown-intent turn on a tracked call costs between one and
    three Generation Client calls and at most one index search, and these
    are all the outside calls it makes. *)
Theorem unknown_turn_call_budget (env : Env) (rag : PropertiesRAG.RealEstateRAG)
    (request : Webhookx.Request) (st : Webhookx.App) :
  is_Some (Webhookx.sessions st !! Webhookx.CallSid request) ->
  WebhookxServer.utterance request <> EmptyString ->
  CallAssistantIntents.handle_intents (WebhookxServer.utterance request)
  = unknown ->
  exists evs : list event,
    Webhookx.history (snd (Webhookx.process env rag request st))
    = (Webhookx.history st ++ evs)%list /\
    forallb (fun ev => is_generate ev || is_search ev) evs = true /\
    1 <= generation_calls evs <= 3 /\
    search_calls evs <= 1.
Proof.
  intros [e He] Htext Hunknown.
  destruct (process_outcome env rag request st)
    as [(Hnone & Hp) | [(_ & Hempty & Hp) | [(entry & entry' & reply & _ & Hi & _ & Hp)
       | [(closing & _ & Hi & Hp) | (entry & reply & h' & _ & _ & _ & Hreply & Hp)]]]];
    try congruence.
  rewrite Hp. cbn [snd Webhookx.history].
  destruct (combined_reply_history env rag (Webhookx.bot entry)
              (WebhookxServer.utterance request) (Webhookx.history st))
    as (evs & Hevs & Hg & Hs & Hkinds).
  rewrite Hreply in Hevs. cbn [snd] in Hevs.
  exists evs. auto.
Qed.

Lemma unknown_turn_call_budget_witness :
  exists evs : list event,
    Webhookx.history
      (snd (Webhookx.process Sample.env_up Sample.rag
              (Webhookx.mkRequest (Some "CA1") (Some "How are villa rents?"))
              Sample.app_mid_call))
    = (Webhookx.history Sample.app_mid_call ++ evs)%list /\
    forallb (fun ev => is_generate ev || is_search ev) evs = true /\
    1 <= generation_calls evs <= 3 /\
    search_calls evs <= 1.
Proof.
  apply (unknown_turn_call_budget Sample.env_up Sample.rag
           (Webhookx.mkRequest (Some "CA1") (Some "How are villa rents?"))
           Sample.app_mid_call).
  - eexists. apply lookup_singleton_eq.
  - vm_compute. discriminate.
  - vm_compute. reflexivity.
Defined.


Lemma space_is_not_upper (c : ascii) : is_space c = true -> lower_char c = c.
Proof.
  destruct c as [[] [] [] [] [] [] [] []]; intros H;
    first [discriminate H | reflexivity].
Qed.

Lemma lower_of_blank (text : string) : all_space text = true -> lower text = text.
Proof.
  induction text as [|c t IH]; [reflexivity|]. cbn.
  intros H. apply andb_true_iff in H as [Hc Ht].
  rewrite (space_is_not_upper c Hc), IH by exact Ht. reflexivity.
Qed.

Lemma all_space_append (a b : string) :
  all_space (a +:+ b) = all_space a && all_space b.
Proof.
  induction a as [|c a IH]; [reflexivity|].
  rewrite append_cons. cbn. rewrite IH. apply andb_assoc.
Qed.

Lemma blank_has_only_blank_parts (needle text : string) :
  all_space text = true -> occurs_in needle text -> all_space needle = true.
Proof.
  intros Hblank (before & after & ->).
  rewrite !all_space_append in Hblank.
  apply andb_true_iff in Hblank as [_ H]. apply andb_true_iff in H as [H _].
  exact H.
Qed.

Lemma occurs_in_trans (a b c : string) :
  occurs_in a b -> occurs_in b c -> occurs_in a c.
Proof.
  intros (u & v & ->) (x & y & ->).
  exists (x +:+ u), (v +:+ y). rewrite !append_assoc. reflexivity.
Qed.

Lemma blank_is_unknown (text : string) :
  all_space text = true ->
  CallAssistantIntents.handle_intents text = unknown.
Proof.
  intros Hblank. unfold CallAssistantIntents.handle_intents.
  assert (forall phrases,
            forallb (fun w => negb (all_space w)) phrases = true ->
            any (fun word => str_in word text) phrases = false) as Hnone.
  { intros phrases Hall.
    destruct (any _ phrases) eqn:E; [|reflexivity].
    apply any_true_iff in E as (w & Hin & Hw).
    apply str_in_iff in Hw.
    pose proof (blank_has_only_blank_parts w text Hblank Hw) as Hwb.
    rewrite forallb_forall in Hall. specialize (Hall w Hin).
    rewrite Hwb in Hall. discriminate Hall. }
  rewrite !Hnone by reflexivity. reflexivity.
Qed.

(** X7.  Only the empty text is taken as silence.  A text made of white
    space alone (one blank or more) on a tracked call is handled as an
    unknown-intent turn: the reply is a composed answer, the session is
    untouched, and the Generation Client is called. *)
Theorem blank_utterance_is_answered (env : Env)
    (rag : PropertiesRAG.RealEstateRAG) (st : Webhookx.App)
    (cid : option string) (entry : Webhookx.SessionEntry) (text : string) :
  Webhookx.sessions st !! cid = Some entry ->
  text <> EmptyString ->
  all_space text = true ->
  exists (reply : string) (h' : list event),
    Webhookx.process env rag (Webhookx.mkRequest cid (Some text)) st
    = (Ok (Webhookx.keep_alive reply), Webhookx.mkApp (Webhookx.sessions st) h') /\
    generation_calls (Webhookx.history st) < generation_calls h'.
Proof.
  intros Htracked Hne Hblank.
  assert (lower (default EmptyString (Some text)) = text) as Hlow
    by (apply lower_of_blank, Hblank).
  assert (truthy text = true) as Ht
    by (destruct text; [congruence | reflexivity]).
  pose proof (process_unknown env rag st cid (Some text) entry Htracked) as Hp.
  rewrite Hlow in Hp. specialize (Hp Ht (blank_is_unknown text Hblank)).
  destruct (combined_reply_returns env rag (Webhookx.bot entry) text
              (Webhookx.history st)) as (reply & h' & Hreply).
  destruct (combined_reply_history env rag (Webhookx.bot entry) text
              (Webhookx.history st)) as (evs & Hevs & Hg & _).
  rewrite Hreply in Hp, Hevs. cbn [snd] in Hevs.
  exists reply, h'. split; [exact Hp|].
  rewrite Hevs, generation_calls_app. lia.
Qed.

Lemma blank_utterance_is_answered_witness :
  exists (reply : string) (h' : list event),
    Webhookx.process Sample.env_up Sample.rag
      (Webhookx.mkRequest (Some "CA1") (Some "  ")) Sample.app_mid_call
    = (Ok (Webhookx.keep_alive reply),
       Webhookx.mkApp (Webhookx.sessions Sample.app_mid_call) h') /\
    generation_calls (Webhookx.history Sample.app_mid_call) < generation_calls h'.
Proof.
  apply (blank_utterance_is_answered Sample.env_up Sample.rag
           Sample.app_mid_call (Some "CA1")
           (Webhookx.mkSessionEntry Sample.bot_mid_call 1699999990%Z) "  ").
  - apply lookup_singleton_eq.
  - discriminate.
  - reflexivity.
Defined.

(** ** Intent tables *)

(** X8.  A text that contains [not interested] is classified [confirm] by
    both [handle_intents]: the confirm phrase [interested] is part of it
    and the confirm table is tested first. *)
Theorem not_interested_is_confirm (text : string) :
  occurs_in "not interested" text ->
  CallAssistantIntents.handle_intents text = confirm /\
  VoiceAssistantIntents.handle_intents text = confirm.
Proof.
  intros H.
  assert (occurs_in "interested" text) as Hi.
  { apply (occurs_in_trans _ "not interested"); [|exact H].
    exists "not ", EmptyString. reflexivity. }
  split.
  - unfold CallAssistantIntents.handle_intents.
    assert (contains_phrase CallAssistantIntents.confirm_triggers text) as Hc
      by (exists "interested"; split; [simpl; tauto | exact Hi]).
    apply contains_phrase_any in Hc. rewrite Hc. reflexivity.
  - unfold VoiceAssistantIntents.handle_intents.
    assert (contains_phrase VoiceAssistantIntents.confirm_triggers text) as Hc
      by (exists "interested"; split; [simpl; tauto | exact Hi]).
    apply contains_phrase_any in Hc. rewrite Hc. reflexivity.
Qed.

Lemma not_interested_is_confirm_witness :
  CallAssistantIntents.handle_intents "sorry, i am not interested at all" = confirm /\
  VoiceAssistantIntents.handle_intents "sorry, i am not interested at all" = confirm.
Proof.
  apply (not_interested_is_confirm "sorry, i am not interested at all").
  apply str_in_iff. vm_compute. reflexivity.
Defined.

(** X9.  [handle_intents] of [twilio_webhookx.py] by cases.  It returns
    [confirm] exactly when a confirm phrase occurs; [reject] exactly when
    no confirm phrase occurs and one of [no], [stop], [leave me] does (the
    entries [not now] and [not interested] never decide, each contains
    [no]); [unknown] in the remaining case. *)
Theorem handle_intents_by_cases (text : string) :
  let rejecting :=
    occurs_in "no" text \/ occurs_in "stop" text \/ occurs_in "leave me" text in
  (CallAssistantIntents.handle_intents text = confirm
   <-> contains_phrase CallAssistantIntents.confirm_triggers text) /\
  (CallAssistantIntents.handle_intents text = reject
   <-> ~ contains_phrase CallAssistantIntents.confirm_triggers text /\ rejecting) /\
  (CallAssistantIntents.handle_intents text = unknown
   <-> ~ contains_phrase CallAssistantIntents.confirm_triggers text /\ ~ rejecting).
Proof.
  intros rejecting.
  assert (contains_phrase CallAssistantIntents.reject_triggers text <-> rejecting)
    as Hrej.
  { subst rejecting. split.
    - intros (w & Hin & Hw). simpl in Hin.
      destruct Hin as [<-|[<-|[<-|[<-|[<-|[]]]]]]; auto.
      + left. apply (occurs_in_trans _ "not now"); [|exact Hw].
        exists EmptyString, "t now". reflexivity.
      + left. apply (occurs_in_trans _ "not interested"); [|exact Hw].
        exists EmptyString, "t interested". reflexivity.
    - intros [H|[H|H]]; [exists "no" | exists "stop" | exists "leave me"];
        (split; [simpl; tauto | exact H]). }
  rewrite <- Hrej, !contains_phrase_any.
  unfold CallAssistantIntents.handle_intents.
  destruct (any _ CallAssistantIntents.confirm_triggers);
    destruct (any _ CallAssistantIntents.reject_triggers);
    repeat split; try congruence; try tauto; intros []; congruence.
Qed.

(** ** [properties_rag.py]: loading, building, answering *)

Section Loading.

Import PropertiesRAG Trace.

Variable env : Env.

Lemma load_csvs_from_events (filepaths : list string) :
  forall docs h, exists evs,
    snd (_load_csvs_from env docs filepaths h) = (h ++ evs)%list /\
    forallb is_file_load evs = true.
Proof.
  induction filepaths as [|path rest IH]; intros docs h; cbn.
  - exists []. rewrite app_nil_r. auto.
  - unfold bind, observe, try_except, call, ret. cbn.
    destruct (path_exists env h path); [|apply IH].
    destruct (csv_load env h path) as [loaded|e].
    + destruct (IH (docs ++ loaded)%list (h ++ [EvCSVLoad path])%list)
        as (evs & -> & Hk).
      exists (EvCSVLoad path :: evs). rewrite <- app_assoc. auto.
    + destruct (IH docs (h ++ [EvCSVLoad path])%list) as (evs & -> & Hk).
      exists (EvCSVLoad path :: evs). rewrite <- app_assoc. auto.
Qed.

Lemma load_txts_from_events (filepaths : list string) :
  forall docs h, exists evs,
    snd (_load_txts_from env docs filepaths h) = (h ++ evs)%list /\
    forallb is_file_load evs = true.
Proof.
  induction filepaths as [|path rest IH]; intros docs h; cbn.
  - exists []. rewrite app_nil_r. auto.
  - unfold bind, observe, try_except, call, ret. cbn.
    destruct (path_exists env h path); [|apply IH].
    destruct (text_load env h path) as [loaded|e].
    + destruct (IH (docs ++ loaded)%list (h ++ [EvTextLoad path])%list)
        as (evs & -> & Hk).
      exists (EvTextLoad path :: evs). rewrite <- app_assoc. auto.
    + destruct (IH docs (h ++ [EvTextLoad path])%list) as (evs & -> & Hk).
      exists (EvTextLoad path :: evs). rewrite <- app_assoc. auto.
Qed.

Lemma load_all_documents_events (h : list event) :
  exists evs,
    snd (_load_all_documents env h) = (h ++ evs)%list /\
    forallb is_file_load evs = true.
Proof.
  unfold _load_all_documents, _load_csvs, _load_txts, bind at 1.
  destruct (load_csvs_from_events DATA_FILES_csv [] h) as (evs1 & H1 & K1).
  destruct (load_csvs_from_returns env DATA_FILES_csv [] h) as (cs & h1 & E1).
  rewrite E1 in H1 |- *. cbn [snd] in H1. subst h1.
  unfold bind at 1.
  destruct (load_txts_from_events DATA_FILES_txt [] (h ++ evs1)%list)
    as (evs2 & H2 & K2).
  destruct (load_txts_from_returns env DATA_FILES_txt [] (h ++ evs1)%list)
    as (ts & h2 & E2).
  rewrite E2 in H2 |- *. cbn [snd] in H2. subst h2.
  exists (evs1 ++ evs2)%list. cbn. rewrite <- app_assoc, forallb_app, K1, K2. auto.
Qed.

Lemma save_calls_app (h evs : list event) :
  save_calls (h ++ evs) = save_calls h + save_calls evs.
Proof. unfold save_calls. rewrite List.filter_app, length_app. reflexivity. Qed.

Lemma file_loads_save_nothing (evs : list event) :
  forallb is_file_load evs = true -> save_calls evs = 0.
Proof.
  induction evs as [|ev evs IH]; [reflexivity|]. cbn.
  intros H. apply andb_true_iff in H as [Hev Hrest].
  unfold save_calls in *. cbn. destruct ev; try discriminate Hev; cbn; auto.
Qed.

End Loading.

Lemma load_csvs_from_spec (env : Env) (on_disk : string -> bool)
    (load : string -> result (list Document)) (filepaths : list string) :
  (forall h p, path_exists env h p = on_disk p) ->
  (forall h p, csv_load env h p = load p) ->
  forall docs h,
    PropertiesRAG._load_csvs_from env docs filepaths h
    = (Ok (docs ++ flat_map (Trace.contribution on_disk load) filepaths)%list,
       (h ++ map EvCSVLoad (List.filter on_disk filepaths))%list).
Proof.
  intros Hdisk Hload.
  induction filepaths as [|path rest IH]; intros docs h; cbn.
  - rewrite !app_nil_r. reflexivity.
  - unfold bind at 1. unfold observe. rewrite Hdisk.
    unfold Trace.contribution at 1.
    destruct (on_disk path); [|apply IH].
    unfold bind, try_except, call, ret. rewrite Hload.
    destruct (load path) as [loaded|e]; rewrite IH; cbn;
      rewrite <- !app_assoc; reflexivity.
Qed.

Lemma load_txts_from_spec (env : Env) (on_disk : string -> bool)
    (load : string -> result (list Document)) (filepaths : list string) :
  (forall h p, path_exists env h p = on_disk p) ->
  (forall h p, text_load env h p = load p) ->
  forall docs h,
    PropertiesRAG._load_txts_from env docs filepaths h
    = (Ok (docs ++ flat_map (Trace.contribution on_disk load) filepaths)%list,
       (h ++ map EvTextLoad (List.filter on_disk filepaths))%list).
Proof.
  intros Hdisk Hload.
  induction filepaths as [|path rest IH]; intros docs h; cbn.
  - rewrite !app_nil_r. reflexivity.
  - unfold bind at 1. unfold observe. rewrite Hdisk.
    unfold Trace.contribution at 1.
    destruct (on_disk path); [|apply IH].
    unfold bind, try_except, call, ret. rewrite Hload.
    destruct (load path) as [loaded|e]; rewrite IH; cbn;
      rewrite <- !app_assoc; reflexivity.
Qed.

(** X10.  The loaders isolate bad files.  In a world whose files do not
    change while loading, [_load_csvs] and [_load_txts] return, in the
    order of the path list, the documents of every file that exists and
    loads; a missing file is not opened, a file whose load raises is
    skipped, and neither stops the rest.  [_load_all_documents] is the CSV
    documents followed by the text documents. *)
Theorem loaders_skip_bad_files (env : Env) (on_disk : string -> bool)
    (csv_of txt_of : string -> result (list Document))
    (filepaths : list string) (h : list event) :
  (forall h p, path_exists env h p = on_disk p) ->
  (forall h p, csv_load env h p = csv_of p) ->
  (forall h p, text_load env h p = txt_of p) ->
  PropertiesRAG._load_csvs env filepaths h
  = (Ok (flat_map (Trace.contribution on_disk csv_of) filepaths),
     (h ++ map EvCSVLoad (List.filter on_disk filepaths))%list) /\
  PropertiesRAG._load_txts env filepaths h
  = (Ok (flat_map (Trace.contribution on_disk txt_of) filepaths),
     (h ++ map EvTextLoad (List.filter on_disk filepaths))%list) /\
  fst (PropertiesRAG._load_all_documents env h)
  = Ok (flat_map (Trace.contribution on_disk csv_of) PropertiesRAG.DATA_FILES_csv
        ++ flat_map (Trace.contribution on_disk txt_of) PropertiesRAG.DATA_FILES_txt)%list.
Proof.
  intros Hdisk Hcsv Htxt.
  pose proof (load_csvs_from_spec env on_disk csv_of) as Hc.
  pose proof (load_txts_from_spec env on_disk txt_of) as Ht.
  split; [|split].
  - unfold PropertiesRAG._load_csvs. rewrite Hc by assumption. reflexivity.
  - unfold PropertiesRAG._load_txts. rewrite Ht by assumption. reflexivity.
  - unfold PropertiesRAG._load_all_documents, PropertiesRAG._load_csvs,
      PropertiesRAG._load_txts, bind.
    rewrite Hc by assumption. rewrite Ht by assumption. reflexivity.
Qed.

Lemma loaders_skip_bad_files_witness :
  PropertiesRAG._load_csvs SampleFiles.env PropertiesRAG.DATA_FILES_csv []
  = (Ok SampleFiles.rents_rows,
     [EvCSVLoad "data/rents_rag.csv"; EvCSVLoad "data/faq_questions.csv"]) /\
  PropertiesRAG._load_txts SampleFiles.env PropertiesRAG.DATA_FILES_txt []
  = (Ok [SampleFiles.profile_doc], [EvTextLoad "data/about_company.txt"]) /\
  fst (PropertiesRAG._load_all_documents SampleFiles.env [])
  = Ok (SampleFiles.rents_rows ++ [SampleFiles.profile_doc])%list.
Proof.
  destruct (loaders_skip_bad_files SampleFiles.env SampleFiles.on_disk
              SampleFiles.csv_of SampleFiles.txt_of
              PropertiesRAG.DATA_FILES_csv [])
    as (Hcsv & _ & Hall); try (intros; reflexivity).
  destruct (loaders_skip_bad_files SampleFiles.env SampleFiles.on_disk
              SampleFiles.csv_of SampleFiles.txt_of
              PropertiesRAG.DATA_FILES_txt [])
    as (_ & Htxt & _); try (intros; reflexivity).
  rewrite Hcsv, Htxt, Hall. vm_compute. auto.
Defined.


(** X11.  [_load_company_profile] never raises and reads at most one file.
    It returns the empty string when the profile file is missing (nothing
    is opened), when loading it raises, and when loading gives no document;
    otherwise it returns the text of the first document. *)
Theorem company_profile_loading (env : Env) (h : list event) :
  exists (profile : string) (h' : list event),
    PropertiesRAG._load_company_profile env h = (Ok profile, h') /\
    (path_exists env h PropertiesRAG.COMPANY_PROFILE_PATH = false ->
     profile = EmptyString /\ h' = h) /\
    (path_exists env h PropertiesRAG.COMPANY_PROFILE_PATH = true ->
     h' = (h ++ [EvTextLoad PropertiesRAG.COMPANY_PROFILE_PATH])%list /\
     profile = match text_load env h PropertiesRAG.COMPANY_PROFILE_PATH with
               | Ok (doc :: _) => page_content doc
               | _ => EmptyString
               end).
Proof.
  unfold PropertiesRAG._load_company_profile, bind, observe, try_except,
    call, ret, raise.
  destruct (path_exists env h PropertiesRAG.COMPANY_PROFILE_PATH).
  - destruct (text_load env h PropertiesRAG.COMPANY_PROFILE_PATH)
      as [[|doc rest]|e];
      eexists _, _; (split; [reflexivity|]); split; auto; discriminate.
  - eexists _, _. split; [reflexivity|]. split; auto. discriminate.
Qed.

(** X12.  A failed build leaves nothing on disk.  When there is no index
    directory and [FAISS.from_texts] raises, [_initialize_vectorstore]
    raises that error and [save_local] is never called. *)
Theorem failed_build_saves_nothing (env : Env) (index_dir : string)
    (h h1 : list event) (docs : list Document) (e : exn) :
  path_exists env h index_dir = false ->
  PropertiesRAG._load_all_documents env h = (Ok docs, h1) ->
  from_texts env h1
    (map page_content (split_documents env 1000 200 docs))
    (map metadata (split_documents env 1000 200 docs))
  = Raise e ->
  fst (PropertiesRAG._initialize_vectorstore env index_dir h) = Raise e /\
  Trace.save_calls (snd (PropertiesRAG._initialize_vectorstore env index_dir h))
  = Trace.save_calls h.
Proof.
  intros Hex Hdocs Hbuild.
  destruct (load_all_documents_events env h) as (evs & Hevs & Hkinds).
  rewrite Hdocs in Hevs. cbn [snd] in Hevs. subst h1.
  set (chunks := split_documents env 1000 200 docs) in *.
  assert (PropertiesRAG._initialize_vectorstore env index_dir h
          = (Raise e,
             ((h ++ evs)
                ++ [EvFromTexts (map page_content chunks) (map metadata chunks)])%list))
    as Hrun.
  { unfold PropertiesRAG._initialize_vectorstore, bind at 1.
    unfold observe. rewrite Hex.
    unfold bind at 1. rewrite Hdocs. cbv zeta. fold chunks.
    unfold bind, call, ret. rewrite Hbuild. reflexivity. }
  rewrite Hrun. cbn [fst snd]. split; [reflexivity|].
  rewrite !save_calls_app, (file_loads_save_nothing evs Hkinds). cbn. lia.
Qed.

Lemma failed_build_saves_nothing_witness :
  fst (PropertiesRAG._initialize_vectorstore SampleFiles.env "faiss_index" [])
  = Raise (Exception "429 quota exceeded") /\
  Trace.save_calls
    (snd (PropertiesRAG._initialize_vectorstore SampleFiles.env "faiss_index" []))
  = Trace.save_calls [].
Proof.
  apply (failed_build_saves_nothing SampleFiles.env "faiss_index" []
           [EvCSVLoad "data/rents_rag.csv"; EvCSVLoad "data/faq_questions.csv";
            EvTextLoad "data/about_company.txt"]
           (SampleFiles.rents_rows ++ [SampleFiles.profile_doc])%list
           (Exception "429 quota exceeded")).
  - reflexivity.
  - vm_compute. reflexivity.
  - reflexivity.
Defined.


(** ** Trimmed answers *)

Lemma rstrip_cons (c : ascii) (t : string) :
  rstrip (String c t)
  = match rstrip t with
    | EmptyString => if is_space c then EmptyString else String c EmptyString
    | String d r => String c (String d r)
    end.
Proof. reflexivity. Qed.

Lemma rstrip_idempotent (s : string) : rstrip (rstrip s) = rstrip s.
Proof.
  induction s as [|c t IH]; [reflexivity|]. rewrite rstrip_cons.
  destruct (rstrip t) as [|d r] eqn:E.
  - destruct (is_space c) eqn:Hc; [reflexivity|].
    rewrite rstrip_cons. cbn. rewrite Hc. reflexivity.
  - rewrite rstrip_cons, IH. reflexivity.
Qed.

Lemma lstrip_head (s : string) :
  lstrip s = EmptyString \/
  exists c t, lstrip s = String c t /\ is_space c = false.
Proof.
  induction s as [|c t IH]; [left; reflexivity|]. cbn.
  destruct (is_space c) eqn:Hc; [exact IH|]. right. eauto.
Qed.

Lemma rstrip_keeps_head (c : ascii) (t : string) :
  is_space c = false -> exists t', rstrip (String c t) = String c t'.
Proof.
  intros Hc. cbn. destruct (rstrip t); [rewrite Hc|]; eauto.
Qed.

Lemma strip_idempotent (s : string) : strip (strip s) = strip s.
Proof.
  unfold strip.
  destruct (lstrip_head s) as [-> | (c & t & -> & Hc)]; [reflexivity|].
  destruct (rstrip_keeps_head c t Hc) as (t' & Ht).
  rewrite Ht. cbn [lstrip]. rewrite Hc, <- Ht. apply rstrip_idempotent.
Qed.

(** X14.  Every answer is trimmed.  A text returned by
    [query_knowledge_base], on either path and for the fallback strings as
    well, has no white space at its start or end, and the same holds of
    the text returned by [CallAssistant.generate_response]. *)
Theorem answers_are_trimmed (env : Env) (rag : PropertiesRAG.RealEstateRAG)
    (self : Webhookx.CallAssistant) (text : string) (k : Z) (h : list event) :
  (forall answer : string,
     fst (PropertiesRAG.query_knowledge_base env rag text k h) = Ok answer ->
     strip answer = answer) /\
  (forall answer : string,
     fst (Webhookx.generate_response env self text h) = Ok answer ->
     strip answer = answer).
Proof.
  split; intros answer.
  - unfold PropertiesRAG.query_knowledge_base,
      PropertiesRAG._generate_company_response, PropertiesRAG.market_answer,
      PropertiesRAG.generate_stripped, bind, call, ret.
    destruct (any _ PropertiesRAG.company_keywords).
    + destruct (negb _).
      * cbn. intros [= <-]. vm_compute. reflexivity.
      * destruct (generate_content env h _); cbn; [|discriminate].
        intros [= <-]. apply strip_idempotent.
    + destruct (similarity_search env h _ text k); cbn; [|discriminate].
      destruct (negb _).
      * cbn. intros [= <-]. vm_compute. reflexivity.
      * destruct (generate_content env _ _); cbn; [|discriminate].
        intros [= <-]. apply strip_idempotent.
  - destruct (generate_response_returns env self text h) as (t & -> & Ht).
    cbn. intros [= <-].
    destruct (generate_content env h _); subst t;
      [apply strip_idempotent | vm_compute; reflexivity].
Qed.

Lemma answers_are_trimmed_witness :
  strip Sample.market_text = Sample.market_text.
Proof.
  destruct (answers_are_trimmed Sample.env_up Sample.rag Sample.bot_mid_call
              "how are villa rents doing?" 2 []) as (Hquery & _).
  apply Hquery. vm_compute. reflexivity.
Defined.

(** X15.  One knowledge query makes at most one index search and at most
    one Generation Client call and no other outside call; on the profile
    path it makes no search at all. *)
Theorem query_call_budget (env : Env) (rag : PropertiesRAG.RealEstateRAG)
    (query : string) (k : Z) (h : list event) :
  exists evs : list event,
    snd (PropertiesRAG.query_knowledge_base env rag query k h) = (h ++ evs)%list /\
    forallb (fun ev => is_generate ev || is_search ev) evs = true /\
    generation_calls evs <= 1 /\
    search_calls evs <= 1 /\
    (contains_phrase PropertiesRAG.company_keywords (lower query) ->
     search_calls evs = 0).
Proof.
  destruct (query_history env rag query k h) as (evs & H1 & H2 & H3 & H4 & H5).
  exists evs. auto.
Qed.

(** ** [voice2.py]: the desk program *)

Section DeskProgram.

Import Voice2 VoiceAssistantIntents.

Variable desk : Desk.

Lemma listen_keeps_assistant (st : Studio) :
  assistant (snd (listen desk st)) = assistant st.
Proof.
  unfold listen, speak, outside, try_except, bind, ret. cbn.
  destruct (open_microphone desk (sounds st)); [|reflexivity]. cbn.
  destruct (recognize desk _); [reflexivity|]. cbn.
  destruct (play desk _ _); reflexivity.
Qed.

Lemma run_loop_closes (fuel : nat) :
  forall (st st' : Studio),
    still_open (assistant st) ->
    run_loop desk fuel st = (Ok true, st') ->
    closed_by_second_answer (assistant st) st'.
Proof.
  induction fuel as [|fuel IH]; intros st st' Hopen Hrun; [discriminate Hrun|].
  destruct Hopen as (Hfin & Hcc & Hrc).
  cbn [run_loop] in Hrun. unfold bind at 1 in Hrun. unfold get_self at 1 in Hrun.
  rewrite Hfin in Hrun. unfold bind at 1 in Hrun.
  pose proof (listen_keeps_assistant st) as Hkeep.
  destruct (listen desk st) as [[user_input|e] [self1 heard1]];
    [|discriminate Hrun].
  cbn [snd assistant] in Hkeep. subst self1.
  set (st1 := mkStudio (assistant st) heard1) in *.
  assert (still_open (assistant st1)) as Hopen1
    by (repeat split; tauto).
  destruct (negb (truthy user_input)).
  { apply (IH st1 st' Hopen1 Hrun). }
  destruct (handle_intents user_input).
  - unfold bind, get_self, put_self, speak, outside, ret in Hrun.
    subst st1. simpl in Hrun.
    destruct (2 <=? _)%Z eqn:Hc in Hrun; cbn [sounds assistant] in Hrun.
    + destruct (play desk heard1 confirm_closing); [|discriminate Hrun].
      injection Hrun as <-. apply Z.leb_le in Hc. cbn in Hc.
      unfold closed_by_second_answer. cbn.
      split; [reflexivity|]. split; [reflexivity|].
      left. split; [lia|]. split; [lia|]. eauto.
    + destruct (play desk heard1 confirm_interim); [|discriminate Hrun].
      apply Z.leb_gt in Hc. cbn in Hc.
      apply IH in Hrun; [|repeat split; cbn; try tauto; lia].
      exact Hrun.
  - unfold bind, get_self, put_self, speak, outside, ret in Hrun.
    subst st1. simpl in Hrun.
    destruct (2 <=? _)%Z eqn:Hc in Hrun; cbn [sounds assistant] in Hrun.
    + destruct (play desk heard1 reject_closing); [|discriminate Hrun].
      injection Hrun as <-. apply Z.leb_le in Hc. cbn in Hc.
      unfold closed_by_second_answer. cbn.
      split; [reflexivity|]. split; [reflexivity|].
      right. split; [lia|]. split; [lia|]. eauto.
    + destruct (play desk heard1 reject_interim); [|discriminate Hrun].
      apply Z.leb_gt in Hc. cbn in Hc.
      apply IH in Hrun; [|repeat split; cbn; try tauto; lia].
      exact Hrun.
  - unfold generate_response, gemini, bind, get_self, speak, outside, ret in Hrun.
    subst st1. simpl in Hrun.
    destruct (gemini_text desk heard1 _); [|discriminate Hrun].
    destruct (play desk _ _); [|discriminate Hrun].
    apply IH in Hrun; [exact Hrun | exact Hopen1].
Qed.

End DeskProgram.

(** X16.  When [run] of [voice2.py] returns, the conversation was closed by
    a second confirmation or a second rejection: started with both counters
    at 0 or 1 and [finalized] false, the assistant ends with [finalized]
    true, one counter equal to 2 and the other at most 1, the client data
    untouched, and the last thing spoken is the matching closing message. *)
Theorem run_ends_by_second_answer (desk : Voice2.Desk) (fuel : nat)
    (st st' : Voice2.Studio) :
  Voice2.still_open (Voice2.assistant st) ->
  Voice2.run desk fuel st = (Ok true, st') ->
  Voice2.closed_by_second_answer (Voice2.assistant st) st'.
Proof.
  intros Hopen Hrun.
  unfold Voice2.run, Voice2.generate_response, Voice2.gemini, Voice2.speak,
    Voice2.outside, Voice2.get_self, bind, ret in Hrun.
  cbn [Voice2.assistant Voice2.sounds] in Hrun.
  destruct (Voice2.gemini_text desk (Voice2.sounds st) _); [|discriminate Hrun].
  cbn [Voice2.assistant Voice2.sounds] in Hrun.
  destruct (Voice2.play desk _ _); [|discriminate Hrun].
  apply (run_loop_closes desk fuel _ st') in Hrun; [|exact Hopen].
  exact Hrun.
Qed.

Lemma run_ends_by_second_answer_witness :
  Voice2.closed_by_second_answer Voice2.new_VoiceAssistant
    (snd (Voice2.run SampleDesk.desk 4 Voice2.initial_studio)).
Proof.
  apply (run_ends_by_second_answer SampleDesk.desk 4 Voice2.initial_studio).
  - unfold Voice2.still_open. cbn. repeat split; lia.
  - vm_compute. reflexivity.
Defined.

(** X17.  [run] of [voice2.py] does not survive a Generation Client
    failure at start-up: when the warm-up call raises, [run] raises the
    same error, whatever the fuel; the greeting is not spoken and the
    microphone is not opened. *)
Theorem warm_up_failure_aborts_run (desk : Voice2.Desk) (fuel : nat)
    (st : Voice2.Studio) (e : exn) :
  Voice2.gemini_text desk (Voice2.sounds st)
    (Voice2.response_prompt (Voice2.client_data (Voice2.assistant st))
                            Voice2.warm_up)
  = Raise e ->
  Voice2.run desk fuel st
  = (Raise e,
     Voice2.mkStudio (Voice2.assistant st)
       (Voice2.sounds st
          ++ [Voice2.Generated
                (Voice2.response_prompt
                   (Voice2.client_data (Voice2.assistant st)) Voice2.warm_up)])%list).
Proof.
  intros Hdown.
  unfold Voice2.run, Voice2.generate_response, Voice2.gemini, Voice2.speak,
    Voice2.outside, Voice2.get_self, bind, ret.
  cbn [Voice2.assistant Voice2.sounds]. rewrite Hdown. reflexivity.
Qed.

Lemma warm_up_failure_aborts_run_witness :
  fst (Voice2.run SampleDesk.desk_offline 4 Voice2.initial_studio)
  = Raise (Exception "503 Service Unavailable").
Proof.
  rewrite (warm_up_failure_aborts_run SampleDesk.desk_offline 4
             Voice2.initial_studio (Exception "503 Service Unavailable"));
    reflexivity.
Defined.

(** ** [twilio_webhook.py]: one assistant shared by all calls *)

Section SharedAssistant.

Import TwilioWebhook VoiceAssistantIntents.

Variable env : Env.
Variable rag : PropertiesRAG.RealEstateRAG.

(** What one [/process] request can do to the assistant. *)
Lemma process_bot_shape (request : Webhookx.Request) (st : App) :
  let b := bot st in
  let b' := bot (snd (process env rag request st)) in
  b' = b \/
  b' = Voice2.with_confirm_count b (Voice2.confirm_count b + 1) \/
  b' = Voice2.with_finalized
         (Voice2.with_confirm_count b (Voice2.confirm_count b + 1)) true \/
  b' = Voice2.with_reject_count b (Voice2.reject_count b + 1) \/
  b' = Voice2.with_finalized
         (Voice2.with_reject_count b (Voice2.reject_count b + 1)) true.
Proof.
  intros b b'. subst b'. unfold process.
  destruct (negb (truthy (strip _))); [left; reflexivity|].
  destruct (handle_intents _).
  - unfold bind, get_bot, put_bot, ret. cbn.
    destruct (2 <=? _)%Z; cbn; auto.
  - unfold bind, get_bot, put_bot, ret. cbn.
    destruct (2 <=? _)%Z; cbn; auto 6.
  - left. unfold bind at 1. unfold lift at 1.
    destruct (PropertyRAG.query_knowledge_base env rag _ 2 (history st))
      as [[answer|e] h1]; [|reflexivity].
    unfold Voice2.generate_response, gemini, lift, call, bind, get_bot, ret.
    cbn. destruct (generate_content env h1 _); reflexivity.
Qed.

(** One request leaves the counters no lower, the client data the same,
    and [finalized] not taken back. *)
Lemma process_bot_step (request : Webhookx.Request) (st : App) :
  let b := bot st in
  let b' := bot (snd (process env rag request st)) in
  Voice2.client_data b' = Voice2.client_data b /\
  (Voice2.confirm_count b <= Voice2.confirm_count b')%Z /\
  (Voice2.reject_count b <= Voice2.reject_count b')%Z /\
  (Voice2.finalized b = true -> Voice2.finalized b' = true).
Proof.
  intros b b'.
  destruct (process_bot_shape request st) as [H|[H|[H|[H|H]]]];
    fold b b' in H; rewrite H; cbn; repeat split; auto; lia.
Qed.

Lemma serve_bot_steps (requests : list (bool * Webhookx.Request)) :
  forall st : App,
    let b := bot st in
    let b' := bot (serve env rag requests st) in
    Voice2.client_data b' = Voice2.client_data b /\
    (Voice2.confirm_count b <= Voice2.confirm_count b')%Z /\
    (Voice2.reject_count b <= Voice2.reject_count b')%Z /\
    (Voice2.finalized b = true -> Voice2.finalized b' = true).
Proof.
  induction requests as [|[to_voice request] rest IH]; intros st.
  - cbn. repeat split; auto; lia.
  - cbn [serve].
    destruct (IH (snd ((if to_voice then voice request
                        else process env rag request) st)))
      as (Hcd & Hcc & Hrc & Hfin).
    assert (let b := bot st in
            let b' := bot (snd ((if to_voice then voice request
                                 else process env rag request) st)) in
            Voice2.client_data b' = Voice2.client_data b /\
            (Voice2.confirm_count b <= Voice2.confirm_count b')%Z /\
            (Voice2.reject_count b <= Voice2.reject_count b')%Z /\
            (Voice2.finalized b = true -> Voice2.finalized b' = true))
      as (Hcd1 & Hcc1 & Hrc1 & Hfin1).
    { destruct to_voice; [cbn; repeat split; auto; lia|].
      apply process_bot_step. }
    cbv zeta. repeat split; [congruence | lia | lia | auto].
Qed.

(** A confirm turn with text, seen from the counter. *)
Lemma process_confirm_shared (request : Webhookx.Request) (st : App) :
  truthy (strip (lower (default EmptyString (Webhookx.SpeechResult request))))
  = true ->
  handle_intents (lower (default EmptyString (Webhookx.SpeechResult request)))
  = confirm ->
  process env rag request st
  = if (2 <=? Voice2.confirm_count (bot st) + 1)%Z
    then (Ok [Webhookx.Say confirm_closing; Webhookx.Hangup],
          mkApp (Voice2.with_finalized
                   (Voice2.with_confirm_count (bot st)
                      (Voice2.confirm_count (bot st) + 1)) true)
                (history st))
    else (Ok [Webhookx.Say confirm_interim],
          mkApp (Voice2.with_confirm_count (bot st)
                   (Voice2.confirm_count (bot st) + 1))
                (history st)).
Proof.
  intros Ht Hi. unfold process. rewrite Ht, Hi.
  unfold bind, get_bot, put_bot, ret. cbn.
  destruct (2 <=? _)%Z; reflexivity.
Qed.

End SharedAssistant.

(** X18.  In [twilio_webhook.py] the one assistant is never reset.  Over
    any sequence of [/voice] and [/process] requests its counters do not
    go down, its client data stay the same, and once [finalized] is true
    it stays true: a new call starts from what earlier calls left. *)
Theorem shared_bot_never_resets (env : Env) (rag : PropertiesRAG.RealEstateRAG)
    (requests : list (bool * Webhookx.Request)) (st : TwilioWebhook.App) :
  let b := TwilioWebhook.bot st in
  let b' := TwilioWebhook.bot (TwilioWebhook.serve env rag requests st) in
  Voice2.client_data b' = Voice2.client_data b /\
  (Voice2.confirm_count b <= Voice2.confirm_count b')%Z /\
  (Voice2.reject_count b <= Voice2.reject_count b')%Z /\
  (Voice2.finalized b = true -> Voice2.finalized b' = true).
Proof. apply serve_bot_steps. Qed.

(** X19.  In [twilio_webhook.py] one confirmation counted at any earlier
    time, by any caller, is enough: whatever requests came in between,
    the next confirmation is answered with the closing message and a
    hang-up, and the assistant is marked finalized. *)
Theorem earlier_confirmation_closes_next_call (env : Env)
    (rag : PropertiesRAG.RealEstateRAG)
    (requests : list (bool * Webhookx.Request)) (st : TwilioWebhook.App)
    (request : Webhookx.Request) :
  (1 <= Voice2.confirm_count (TwilioWebhook.bot st))%Z ->
  truthy (strip (lower (default EmptyString (Webhookx.SpeechResult request))))
  = true ->
  VoiceAssistantIntents.handle_intents
    (lower (default EmptyString (Webhookx.SpeechResult request)))
  = confirm ->
  let st1 := TwilioWebhook.serve env rag requests st in
  fst (TwilioWebhook.process env rag request st1)
  = Ok [Webhookx.Say TwilioWebhook.confirm_closing; Webhookx.Hangup] /\
  Voice2.finalized (TwilioWebhook.bot (snd (TwilioWebhook.process env rag request st1)))
  = true.
Proof.
  intros Hone Ht Hi st1.
  destruct (serve_bot_steps env rag requests st) as (_ & Hcc & _).
  fold st1 in Hcc.
  rewrite (process_confirm_shared env rag request st1 Ht Hi).
  assert ((2 <=? Voice2.confirm_count (TwilioWebhook.bot st1) + 1)%Z = true)
    as -> by (apply Z.leb_le; lia).
  split; reflexivity.
Qed.

Lemma earlier_confirmation_closes_next_call_witness :
  fst (TwilioWebhook.process Sample.env_up Sample.rag
         (Webhookx.mkRequest (Some "CA9") (Some "Yes"))
         (TwilioWebhook.serve Sample.env_up Sample.rag
            [(true, Webhookx.mkRequest (Some "CA9") None)]
            SampleDesk.app_one_confirm))
  = Ok [Webhookx.Say TwilioWebhook.confirm_closing; Webhookx.Hangup] /\
  Voice2.finalized
    (TwilioWebhook.bot
       (snd (TwilioWebhook.process Sample.env_up Sample.rag
               (Webhookx.mkRequest (Some "CA9") (Some "Yes"))
               (TwilioWebhook.serve Sample.env_up Sample.rag
                  [(true, Webhookx.mkRequest (Some "CA9") None)]
                  SampleDesk.app_one_confirm))))
  = true.
Proof.
  apply (earlier_confirmation_closes_next_call Sample.env_up Sample.rag
           [(true, Webhookx.mkRequest (Some "CA9") None)]
           SampleDesk.app_one_confirm
           (Webhookx.mkRequest (Some "CA9") (Some "Yes"))).
  - vm_compute. discriminate.
  - vm_compute. reflexivity.
  - vm_compute. reflexivity.
Defined.

(** X20.  [/process] of [twilio_webhook.py] catches nothing.  On an
    unknown-intent turn, an exception of the knowledge query is the
    outcome of the request and the conversational call is not made; when
    the knowledge query returns and the conversational Gemini call raises,
    that exception is the outcome.  The assistant is unchanged either way. *)
Theorem shared_process_errors_propagate (env : Env)
    (rag : PropertiesRAG.RealEstateRAG) (request : Webhookx.Request)
    (st : TwilioWebhook.App) (e : exn) :
  let user_input :=
    lower (default EmptyString (Webhookx.SpeechResult request)) in
  truthy (strip user_input) = true ->
  VoiceAssistantIntents.handle_intents user_input = unknown ->
  (forall h1,
     PropertyRAG.query_knowledge_base env rag user_input 2
       (TwilioWebhook.history st) = (Raise e, h1) ->
     TwilioWebhook.process env rag request st
     = (Raise e, TwilioWebhook.mkApp (TwilioWebhook.bot st) h1)) /\
  (forall answer h1,
     PropertyRAG.query_knowledge_base env rag user_input 2
       (TwilioWebhook.history st) = (Ok answer, h1) ->
     generate_content env h1
       (Voice2.response_prompt
          (Voice2.client_data (TwilioWebhook.bot st)) user_input)
     = Raise e ->
     TwilioWebhook.process env rag request st
     = (Raise e,
        TwilioWebhook.mkApp (TwilioWebhook.bot st)
          (h1 ++ [EvGenerate
                    (Voice2.response_prompt
                       (Voice2.client_data (TwilioWebhook.bot st)) user_input)])%list)).
Proof.
  intros user_input Ht Hi. subst user_input.
  split.
  - intros h1 Hq. unfold TwilioWebhook.process. rewrite Ht, Hi.
    cbn [negb]. cbv iota. unfold bind at 1. unfold TwilioWebhook.lift at 1. rewrite Hq. reflexivity.
  - intros answer h1 Hq Hgen. unfold TwilioWebhook.process. rewrite Ht, Hi.
    cbn [negb]. cbv iota. unfold bind at 1. unfold TwilioWebhook.lift at 1. rewrite Hq.
    unfold Voice2.generate_response, TwilioWebhook.gemini, TwilioWebhook.lift,
      TwilioWebhook.get_bot, call, bind, ret.
    cbn [TwilioWebhook.bot TwilioWebhook.history]. rewrite Hgen. reflexivity.
Qed.

Lemma shared_process_errors_propagate_witness :
  fst (TwilioWebhook.process Sample.env_down Sample.rag
         (Webhookx.mkRequest (Some "CA9") (Some "How are villa rents doing?"))
         TwilioWebhook.initial_app)
  = Raise (Exception "503 Service Unavailable").
Proof.
  destruct (shared_process_errors_propagate Sample.env_down Sample.rag
              (Webhookx.mkRequest (Some "CA9") (Some "How are villa rents doing?"))
              TwilioWebhook.initial_app (Exception "503 Service Unavailable"))
    as (Hquery & _).
  - vm_compute. reflexivity.
  - vm_compute. reflexivity.
  - erewrite Hquery; [reflexivity|]. vm_compute. reflexivity.
Defined.

(** X21.  In [twilio_webhook.py] white space counts as silence: a request
    whose speech is missing, empty or made of white space only is answered
    with the apology alone and changes nothing. *)
Theorem blank_speech_is_silence (env : Env) (rag : PropertiesRAG.RealEstateRAG)
    (request : Webhookx.Request) (st : TwilioWebhook.App) :
  all_space (default EmptyString (Webhookx.SpeechResult request)) = true ->
  TwilioWebhook.process env rag request st
  = (Ok [Webhookx.Say TwilioWebhook.apology], st).
Proof.
  intros Hblank. unfold TwilioWebhook.process.
  rewrite (lower_of_blank _ Hblank).
  apply strip_blank_iff in Hblank. rewrite Hblank. reflexivity.
Qed.

Lemma blank_speech_is_silence_witness :
  TwilioWebhook.process Sample.env_up Sample.rag
    (Webhookx.mkRequest (Some "CA9") (Some "   ")) TwilioWebhook.initial_app
  = (Ok [Webhookx.Say "Sorry, could you repeat that?"], TwilioWebhook.initial_app).
Proof.
  apply (blank_speech_is_silence Sample.env_up Sample.rag
           (Webhookx.mkRequest (Some "CA9") (Some "   "))
           TwilioWebhook.initial_app).
  reflexivity.
Defined.

(** ** [chat.py]: text cleaning and the conversation loop *)

Example replace_sample :
  Chat.replace "AI" "A I" "AI RAIN AAI" = "A I RA IN AA I" /\
  Chat.replace "aa" "b" "aaaaa" = "bba" /\
  Chat.replace EmptyString "-" "abc" = "-a-b-c-".
Proof. repeat split. Qed.

Example split_sample :
  Chat.split ("  a  b" +:+ nl +:+ "c ") = ["a"; "b"; "c"] /\
  Chat.split "   " = [] /\
  Chat.split "word" = ["word"].
Proof. repeat split. Qed.

Example clean_sample :
  Chat.clean_text_for_tts (" The  ROI in AED" +:+ nl +:+ " is AI ")
  = "The return on investment in Dirhams is A I".
Proof. reflexivity. Qed.

Lemma append_empty_r (a : string) : a +:+ EmptyString = a.
Proof.
  induction a as [|c a IH]; [reflexivity|]. rewrite append_cons, IH. reflexivity.
Qed.

Lemma split_gives_words (s : string) : forallb Chat.is_word (Chat.split s) = true.
Proof.
  induction s as [|c t IH]; [reflexivity|]. cbn [Chat.split].
  destruct (is_space c) eqn:Hc; [exact IH|].
  destruct t as [|d r]; [cbn; rewrite Hc; reflexivity|].
  destruct (is_space d) eqn:Hd.
  - cbn [forallb]. rewrite IH. cbn. rewrite Hc. reflexivity.
  - destruct (Chat.split (String d r)) as [|w ws].
    + cbn. rewrite Hc. reflexivity.
    + cbn [forallb] in IH |- *. apply andb_true_iff in IH as [Hw Hws].
      rewrite Hws. unfold Chat.is_word in *. cbn. rewrite Hc.
      apply andb_true_iff in Hw as [_ Hw]. rewrite Hw. reflexivity.
Qed.

Lemma blanks_single_after_word (w s : string) :
  Chat.no_space w = true ->
  Chat.blanks_single (w +:+ s) = Chat.blanks_single s.
Proof.
  induction w as [|c w IH]; [reflexivity|]. cbn [Chat.no_space].
  intros H. apply andb_true_iff in H as [Hc Hw].
  rewrite append_cons. cbn [Chat.blanks_single].
  apply negb_true_iff in Hc. rewrite Hc. cbn. auto.
Qed.

Lemma word_head (w s : string) :
  Chat.is_word w = true ->
  exists c t, w +:+ s = String c t /\ is_space c = false.
Proof.
  unfold Chat.is_word. destruct w as [|c w]; [discriminate|]. cbn.
  intros H. apply andb_true_iff in H as [Hc _]. apply negb_true_iff in Hc.
  exists c, (w +:+ s). rewrite append_cons. auto.
Qed.

Lemma join_of_words (ws : list string) :
  forallb Chat.is_word ws = true ->
  Chat.blanks_single (join " " ws) = true /\
  (ws <> [] -> exists c t, join " " ws = String c t /\ is_space c = false).
Proof.
  induction ws as [|w ws IH]; [cbn; split; [reflexivity | congruence]|].
  cbn [forallb]. intros H. apply andb_true_iff in H as [Hw Hws].
  specialize (IH Hws) as [Hb Hhead].
  assert (Chat.no_space w = true) as Hns
    by (unfold Chat.is_word in Hw; apply andb_true_iff in Hw; tauto).
  destruct ws as [|w' rest].
  - cbn [join]. split.
    + rewrite <- (append_empty_r w).
      rewrite blanks_single_after_word by exact Hns. reflexivity.
    + intros _. destruct (word_head w EmptyString Hw) as (c & t & E & Hc).
      rewrite append_empty_r in E. eauto.
  - change (join " " (w :: w' :: rest))
      with (w +:+ " " +:+ join " " (w' :: rest)).
    destruct (Hhead ltac:(discriminate)) as (d & r & E & Hd).
    split.
    + rewrite blanks_single_after_word by exact Hns.
      rewrite E in Hb |- *.
      change (" " +:+ String d r) with (String " " (String d r)).
      cbn [Chat.blanks_single] in Hb |- *. rewrite Hd in Hb |- *.
      exact Hb.
    + intros _. apply word_head. exact Hw.
Qed.

Lemma well_spaced_join_split (s : string) :
  Chat.well_spaced (join " " (Chat.split s)) = true.
Proof.
  destruct (join_of_words (Chat.split s) (split_gives_words s)) as [Hb Hhead].
  destruct (Chat.split s) as [|w ws] eqn:E; [reflexivity|].
  destruct (Hhead ltac:(discriminate)) as (c & t & Ej & Hc).
  rewrite Ej in Hb |- *. unfold Chat.well_spaced. rewrite Hc, Hb. reflexivity.
Qed.

Lemma startswith_cons (a b : ascii) (p s : string) :
  startswith (String a p) (String b s)
  = if ascii_dec a b then startswith p s else false.
Proof. reflexivity. Qed.

Lemma blanks_single_rstrip (s : string) :
  Chat.blanks_single s = true -> rstrip s = s.
Proof.
  induction s as [|c t IH]; [reflexivity|]. cbn [Chat.blanks_single].
  intros H. apply andb_true_iff in H as [Hc Ht].
  rewrite rstrip_cons, (IH Ht).
  destruct t as [|d r]; [|reflexivity].
  destruct (is_space c); [|reflexivity].
  rewrite andb_false_r in Hc. discriminate Hc.
Qed.

Lemma blanks_single_no_double (s : string) :
  Chat.blanks_single s = true -> str_in "  " s = false.
Proof.
  induction s as [|c t IH]; [reflexivity|]. cbn [Chat.blanks_single].
  intros H. apply andb_true_iff in H as [Hc Ht].
  cbn [str_in]. rewrite (IH Ht), orb_false_r.
  rewrite startswith_cons. destruct (ascii_dec " " c) as [<-|]; [|reflexivity].
  destruct t as [|d r]; [reflexivity|].
  rewrite startswith_cons. destruct (ascii_dec " " d) as [<-|]; [|reflexivity].
  vm_compute in Hc. discriminate Hc.
Qed.

Lemma blanks_single_only_blanks (s : string) (c : ascii) :
  Chat.blanks_single s = true ->
  is_space c = true -> c <> " "%char ->
  str_in (String c EmptyString) s = false.
Proof.
  intros Hb Hc Hne.
  induction s as [|d t IH]; [reflexivity|]. cbn [Chat.blanks_single] in Hb.
  apply andb_true_iff in Hb as [Hd Ht].
  cbn [str_in]. rewrite (IH Ht), orb_false_r.
  rewrite startswith_cons. destruct (ascii_dec c d) as [<-|]; [|reflexivity].
  rewrite Hc in Hd. apply andb_true_iff in Hd as [Hd _].
  apply Ascii.eqb_eq in Hd. contradiction.
Qed.

(** X22.  [clean_text_for_tts] returns evenly spaced text: the result has
    no white space at either end, no two blanks in a row, and no
    white-space character other than the blank (no tab, no line break). *)
Theorem cleaned_text_is_evenly_spaced (text : string) :
  let out := Chat.clean_text_for_tts text in
  strip out = out /\
  ~ occurs_in "  " out /\
  (forall c : ascii,
     is_space c = true -> c <> " "%char ->
     ~ occurs_in (String c EmptyString) out).
Proof.
  intros out.
  assert (Chat.well_spaced out = true) as Hws
    by (apply well_spaced_join_split).
  assert (Chat.blanks_single out = true /\ lstrip out = out) as [Hb Hl].
  { destruct out as [|c t]; [split; reflexivity|].
    unfold Chat.well_spaced in Hws. apply andb_true_iff in Hws as [Hc Hb].
    split; [exact Hb|]. cbn. apply negb_true_iff in Hc. rewrite Hc. reflexivity. }
  split; [|split].
  - unfold strip. rewrite Hl. apply blanks_single_rstrip, Hb.
  - intros H. apply str_in_iff in H.
    rewrite (blanks_single_no_double out Hb) in H. discriminate H.
  - intros c Hc Hne H. apply str_in_iff in H.
    rewrite (blanks_single_only_blanks out c Hb Hc Hne) in H. discriminate H.
Qed.

Lemma replace_absent (old new s : string) :
  str_in old s = false -> Chat.replace old new s = s.
Proof.
  destruct old as [|a old].
  - destruct s; discriminate.
  - unfold Chat.replace. induction s as [|c t IH]; [reflexivity|].
    cbn [str_in Chat.replace_from]. intros H.
    apply orb_false_iff in H as [Hhere Hlater].
    rewrite Hhere, (IH Hlater). reflexivity.
Qed.

(** X23.  [clean_text_for_tts] touches nothing but the spacing of a text
    in which none of [AED], [ROI], [AI] occurs: the result is the words of
    the text, in order, joined by single blanks. *)
Theorem clean_keeps_plain_words (text : string) :
  ~ occurs_in "AED" text -> ~ occurs_in "ROI" text -> ~ occurs_in "AI" text ->
  Chat.clean_text_for_tts text = join " " (Chat.split text).
Proof.
  intros Haed Hroi Hai.
  assert (forall old, ~ occurs_in old text -> str_in old text = false) as Hoff.
  { intros old H. destruct (str_in old text) eqn:E; [|reflexivity].
    exfalso. apply H, str_in_iff, E. }
  unfold Chat.clean_text_for_tts.
  rewrite (replace_absent "AED" _ text) by auto.
  rewrite (replace_absent "ROI" _ text) by auto.
  rewrite (replace_absent "AI" _ text) by auto.
  reflexivity.
Qed.

Lemma clean_keeps_plain_words_witness :
  Chat.clean_text_for_tts ("  Good  day," +:+ nl +:+ "Demo Client. ")
  = "Good day, Demo Client.".
Proof.
  rewrite clean_keeps_plain_words; [reflexivity | | | ];
    intros H; apply str_in_iff in H; vm_compute in H; discriminate H.
Defined.

Section ChatProgram.

Import Chat.

Variable desk : Voice2.Desk.
Variable clock : list Voice2.sound -> Z.

Lemma generated_app (h more : list Voice2.sound) :
  generated (h ++ more) = generated h + generated more.
Proof. unfold generated. rewrite List.filter_app, length_app. reflexivity. Qed.

(** [speak] always returns; it adds one playback attempt and nothing else. *)
Lemma speak_returns (text : string) (st : Studio) :
  exists said,
    speak desk text st
    = (Ok tt, mkStudio (assistant st) (sounds st ++ [Voice2.Spoken said])%list).
Proof.
  unfold speak, outside, try_except, ret. cbv zeta.
  eexists. destruct (Voice2.play desk (sounds st) _) as [[]|e]; reflexivity.
Qed.

(** [generate_response] always returns; it adds one Gemini call. *)
Lemma chat_generate_response_returns (user_input : string) (st : Studio) :
  exists response prompt,
    generate_response desk user_input st
    = (Ok response,
       mkStudio (assistant st) (sounds st ++ [Voice2.Generated prompt])%list).
Proof.
  unfold generate_response, outside, try_except, bind, get_self, ret.
  cbv zeta. cbn [assistant sounds].
  destruct (Voice2.gemini_text desk (sounds st) _); eexists _, _; reflexivity.
Qed.

(** With a microphone that opens, [listen] returns and leaves the
    assistant alone; it makes no Gemini call. *)
Lemma listen_returns (st : Studio) :
  (forall h, Voice2.open_microphone desk h = Ok tt) ->
  exists user_input more,
    listen desk st = (Ok user_input, mkStudio (assistant st) (sounds st ++ more)%list) /\
    generated more = 0.
Proof.
  intros Hmic. unfold listen, outside, try_except, bind, ret.
  rewrite Hmic. cbn [assistant sounds].
  destruct (Voice2.recognize desk _);
    eexists _, [_; _]; rewrite <- app_assoc; split; reflexivity.
Qed.

Lemma chat_run_loop_returns (fuel : nat) :
  (forall h, Voice2.open_microphone desk h = Ok tt) ->
  forall st : Studio,
    exists (ended : bool) (st' : Studio),
      run_loop desk clock fuel st = (Ok ended, st') /\
      length (conversation_history (assistant st')) + generated (sounds st)
      = length (conversation_history (assistant st)) + generated (sounds st') /\
      (ended = true -> conversation_ended (assistant st') = true).
Proof.
  intros Hmic. induction fuel as [|fuel IH]; intros st.
  - exists false, st. split; [reflexivity|]. split; [lia | discriminate].
  - cbn [run_loop]. unfold bind at 1. unfold get_self at 1.
    destruct (conversation_ended (assistant st)) eqn:Hended.
    { exists true, st. split; [reflexivity|]. split; [lia | auto]. }
    unfold bind at 1.
    destruct (listen_returns st Hmic) as (user_input & more & -> & Hmore).
    destruct (negb (truthy user_input)).
    { unfold bind at 1.
      destruct (speak_returns apology
                  (mkStudio (assistant st) (sounds st ++ more)%list))
        as (said & ->).
      cbn [assistant sounds].
      destruct (IH (mkStudio (assistant st)
                      ((sounds st ++ more) ++ [Voice2.Spoken said])%list))
        as (ended & st' & -> & Hbook & Hend).
      exists ended, st'. split; [reflexivity|]. split; [|exact Hend].
      cbn [assistant sounds] in Hbook. rewrite !generated_app in Hbook.
      change (generated [Voice2.Spoken said]) with 0 in Hbook. lia. }
    destruct (check_conversation_end user_input).
    { unfold bind at 1.
      destruct (speak_returns farewell
                  (mkStudio (assistant st) (sounds st ++ more)%list))
        as (said & ->).
      unfold bind, get_self, put_self, ret. cbn [assistant sounds].
      eexists _, _. split; [reflexivity|].
      cbn [assistant sounds conversation_history with_ended conversation_ended].
      rewrite !generated_app.
      change (generated [Voice2.Spoken said]) with 0.
      split; [lia | auto]. }
    unfold bind at 1.
    destruct (chat_generate_response_returns user_input
                (mkStudio (assistant st) (sounds st ++ more)%list))
      as (response & prompt & ->).
    cbn [assistant sounds].
    unfold bind at 1.
    destruct (speak_returns response
                (mkStudio (assistant st)
                   ((sounds st ++ more) ++ [Voice2.Generated prompt])%list))
      as (said & ->).
    unfold bind at 1. unfold now at 1.
    unfold bind at 1. unfold get_self at 1.
    unfold bind at 1. unfold put_self at 1.
    cbn [assistant sounds].
    match goal with
    | |- exists _ _, run_loop _ _ _ ?s = _ /\ _ =>
        destruct (IH s) as (ended & st' & -> & Hbook & Hend)
    end.
    exists ended, st'. split; [reflexivity|]. split; [|exact Hend].
    cbn [assistant sounds conversation_history with_history] in Hbook.
    rewrite length_app, !generated_app in Hbook.
    change (generated [Voice2.Spoken said]) with 0 in Hbook.
    change (generated [Voice2.Generated prompt]) with 1 in Hbook.
    cbn [length] in Hbook. lia.
Qed.

End ChatProgram.

(** X24.  [run] of [chat.py] fails only through the microphone.  When the
    microphone opens every time, [run] never raises, whatever Gemini, the
    speech recognition and the playback do; every Gemini call made during
    the conversation is matched by one record appended to
    [conversation_history]; and when the loop has ended,
    [conversation_ended] is true. *)
Theorem chat_run_fails_only_through_microphone (desk : Voice2.Desk)
    (clock : list Voice2.sound -> Z) (fuel : nat) (st : Chat.Studio) :
  (forall h, Voice2.open_microphone desk h = Ok tt) ->
  exists (ended : bool) (st' : Chat.Studio),
    Chat.run desk clock fuel st = (Ok ended, st') /\
    length (Chat.conversation_history (Chat.assistant st'))
      + Chat.generated (Chat.sounds st)
    = length (Chat.conversation_history (Chat.assistant st))
      + Chat.generated (Chat.sounds st') /\
    (ended = true -> Chat.conversation_ended (Chat.assistant st') = true).
Proof.
  intros Hmic. unfold Chat.run, bind at 1. unfold Chat.get_self at 1.
  unfold bind at 1.
  destruct (speak_returns desk (Chat.greeting (Chat.client_data (Chat.assistant st))) st)
    as (said & ->).
  destruct (chat_run_loop_returns desk clock fuel Hmic
              (Chat.mkStudio (Chat.assistant st)
                 (Chat.sounds st ++ [Voice2.Spoken said])%list))
    as (ended & st' & -> & Hbook & Hend).
  exists ended, st'. split; [reflexivity|]. split; [|exact Hend].
  cbn [Chat.assistant Chat.sounds] in Hbook.
  rewrite generated_app in Hbook. cbn in Hbook. lia.
Qed.

Lemma chat_run_fails_only_through_microphone_witness :
  exists (ended : bool) (st' : Chat.Studio),
    Chat.run SampleDesk.desk (fun _ => 1700000000%Z) 3
      (Chat.mkStudio (Chat.new_VoiceAssistant "local_1700000000") [])
    = (Ok ended, st') /\
    length (Chat.conversation_history (Chat.assistant st')) + Chat.generated []
    = 0 + Chat.generated (Chat.sounds st') /\
    (ended = true -> Chat.conversation_ended (Chat.assistant st') = true).
Proof.
  apply (chat_run_fails_only_through_microphone SampleDesk.desk
           (fun _ => 1700000000%Z) 3
           (Chat.mkStudio (Chat.new_VoiceAssistant "local_1700000000") [])).
  intros h. reflexivity.
Defined.

Section DeskProgress.

Import Voice2 VoiceAssistantIntents.

Variable desk : Desk.
Hypothesis playback_works : forall h t, play desk h t = Ok tt.
Hypothesis microphone_opens : forall h, open_microphone desk h = Ok tt.
Hypothesis client_agrees :
  forall h, exists text,
    recognize desk h = Ok text /\ handle_intents (lower text) = confirm.

Lemma confirm_text_not_empty (text : string) :
  handle_intents text = confirm -> truthy text = true.
Proof. destruct text; [discriminate | reflexivity]. Qed.

(** One pass of the loop with a client who agrees. *)
Lemma agreeing_pass (fuel : nat) (st : Studio) :
  finalized (assistant st) = false ->
  let self := with_confirm_count (assistant st)
                (confirm_count (assistant st) + 1) in
  let heard := (sounds st ++ [MicOpened; Listened])%list in
  run_loop desk (S fuel) st
  = if (2 <=? confirm_count (assistant st) + 1)%Z
    then (Ok true,
          mkStudio (with_finalized self true)
                   (heard ++ [Spoken confirm_closing])%list)
    else run_loop desk fuel
           (mkStudio self (heard ++ [Spoken confirm_interim])%list).
Proof.
  intros Hopen self heard.
  cbn [run_loop]. unfold bind at 1. unfold get_self at 1. rewrite Hopen.
  unfold bind at 1.
  assert (exists text,
            listen desk st = (Ok (lower text), mkStudio (assistant st) heard)
            /\ handle_intents (lower text) = confirm) as (text & -> & Hi).
  { destruct (client_agrees (sounds st ++ [MicOpened])%list)
      as (text & Hrec & Hi).
    exists text. split; [|exact Hi].
    unfold listen, outside, try_except, bind, ret.
    rewrite microphone_opens. cbn [assistant sounds]. rewrite Hrec.
    unfold heard. rewrite <- app_assoc. reflexivity. }
  rewrite (confirm_text_not_empty _ Hi), Hi. cbn [negb].
  unfold bind at 1. unfold get_self at 1. cbn [assistant].
  unfold bind at 1. unfold put_self at 1. cbn [sounds].
  change (confirm_count (with_confirm_count (assistant st)
                           (confirm_count (assistant st) + 1)))
    with (confirm_count (assistant st) + 1)%Z.
  fold self.
  destruct (2 <=? confirm_count (assistant st) + 1)%Z.
  - unfold bind, speak, outside, put_self, ret. cbn [assistant sounds].
    rewrite playback_works. reflexivity.
  - unfold bind at 1. unfold speak, outside. cbn [assistant sounds].
    rewrite playback_works. reflexivity.
Qed.

End DeskProgress.

(** X25.  [run] of [voice2.py] ends after two passes with a client who
    agrees.  When the warm-up call, the playback and the microphone work
    and every transcript is classified [confirm], [run] returns as soon as
    it is given two passes: the assistant is finalized with
    [confirm_count = 2], and what was done is, in order, the warm-up call,
    the greeting, one pass answered with the interim message and one pass
    answered with the closing message. *)
Theorem two_confirmations_end_run (desk : Voice2.Desk) (extra_fuel : nat)
    (warm : string) :
  Voice2.gemini_text desk []
    (Voice2.response_prompt Voice2.john_smith Voice2.warm_up) = Ok warm ->
  (forall h t, Voice2.play desk h t = Ok tt) ->
  (forall h, Voice2.open_microphone desk h = Ok tt) ->
  (forall h, exists text,
     Voice2.recognize desk h = Ok text /\
     VoiceAssistantIntents.handle_intents (lower text) = confirm) ->
  Voice2.run desk (2 + extra_fuel) Voice2.initial_studio
  = (Ok true,
     Voice2.mkStudio
       (Voice2.with_finalized
          (Voice2.with_confirm_count Voice2.new_VoiceAssistant 2) true)
       [Voice2.Generated (Voice2.response_prompt Voice2.john_smith Voice2.warm_up);
        Voice2.Spoken (Voice2.greeting Voice2.john_smith);
        Voice2.MicOpened; Voice2.Listened;
        Voice2.Spoken Voice2.confirm_interim;
        Voice2.MicOpened; Voice2.Listened;
        Voice2.Spoken Voice2.confirm_closing]).
Proof.
  intros Hwarm Hplay Hmic Hyes.
  unfold Voice2.run, Voice2.generate_response, Voice2.gemini, Voice2.speak,
    Voice2.outside, Voice2.get_self, bind, ret.
  cbn [Voice2.assistant Voice2.sounds Voice2.initial_studio
       Voice2.client_data Voice2.new_VoiceAssistant app].
  rewrite Hwarm, Hplay.
  change (2 + extra_fuel) with (S (S extra_fuel)).
  rewrite (agreeing_pass desk Hplay Hmic Hyes) by reflexivity.
  cbv zeta. cbn [Voice2.assistant Voice2.sounds Voice2.confirm_count].
  change (2 <=? 0 + 1)%Z with false. cbv iota.
  rewrite (agreeing_pass desk Hplay Hmic Hyes) by reflexivity.
  reflexivity.
Qed.

Lemma two_confirmations_end_run_witness :
  fst (Voice2.run
         (Voice2.mkDesk (fun _ _ => Ok "Hi!") (fun _ _ => Ok tt)
                        (fun _ => Ok tt) (fun _ => Ok "Yes"))
         (2 + 0) Voice2.initial_studio)
  = Ok true.
Proof.
  rewrite (two_confirmations_end_run
             (Voice2.mkDesk (fun _ _ => Ok "Hi!") (fun _ _ => Ok tt)
                            (fun _ => Ok tt) (fun _ => Ok "Yes"))
             0 "Hi!"); try reflexivity.
  intros h. exists "Yes". split; reflexivity.
Defined.

(** X26.  In [twilio_webhook.py] only an unknown-intent turn keeps the call
    going: the reply to [/process] asks the caller to speak again exactly
    when the text is not blank and is classified [unknown].  The replies to
    a confirmation, to a rejection and to silence carry no [Gather]. *)
Theorem only_unknown_turn_asks_for_more (env : Env)
    (rag : PropertiesRAG.RealEstateRAG) (request : Webhookx.Request)
    (st st' : TwilioWebhook.App) (resp : Webhookx.VoiceResponse) :
  TwilioWebhook.process env rag request st = (Ok resp, st') ->
  TwilioWebhook.asks_for_more resp = true
  <-> truthy (strip (lower (default EmptyString (Webhookx.SpeechResult request))))
      = true /\
      VoiceAssistantIntents.handle_intents
        (lower (default EmptyString (Webhookx.SpeechResult request)))
      = unknown.
Proof.
  unfold TwilioWebhook.process.
  destruct (truthy (strip _)) eqn:Ht; cbn [negb].
  - destruct (VoiceAssistantIntents.handle_intents _) eqn:Hi.
    + unfold bind, TwilioWebhook.get_bot, TwilioWebhook.put_bot, ret.
      cbn [TwilioWebhook.bot TwilioWebhook.history].
      destruct (2 <=? _)%Z; intros [= <- <-]; cbn;
        split; [discriminate | intros [_ H]; discriminate H
               | discriminate | intros [_ H]; discriminate H].
    + unfold bind, TwilioWebhook.get_bot, TwilioWebhook.put_bot, ret.
      cbn [TwilioWebhook.bot TwilioWebhook.history].
      destruct (2 <=? _)%Z; intros [= <- <-]; cbn;
        split; [discriminate | intros [_ H]; discriminate H
               | discriminate | intros [_ H]; discriminate H].
    + unfold bind at 1. unfold TwilioWebhook.lift at 1.
      destruct (PropertyRAG.query_knowledge_base env rag _ 2 _)
        as [[answer|e] h1]; [|discriminate].
      unfold Voice2.generate_response, TwilioWebhook.gemini, TwilioWebhook.lift,
        TwilioWebhook.get_bot, call, bind, ret.
      cbn [TwilioWebhook.bot TwilioWebhook.history].
      destruct (generate_content env h1 _); [|discriminate].
      intros [= <- <-]. cbn. tauto.
  - intros [= <- <-]. cbn. split; [discriminate | intros [H _]; discriminate H].
Qed.

Lemma only_unknown_turn_asks_for_more_witness :
  TwilioWebhook.asks_for_more [Webhookx.Say TwilioWebhook.confirm_interim] = true
  <-> truthy (strip (lower "Yes")) = true /\
      VoiceAssistantIntents.handle_intents (lower "Yes") = unknown.
Proof.
  apply (only_unknown_turn_asks_for_more Sample.env_up Sample.rag
           (Webhookx.mkRequest (Some "CA9") (Some "Yes"))
           TwilioWebhook.initial_app
           (TwilioWebhook.mkApp
              (Voice2.with_confirm_count Voice2.new_VoiceAssistant 1) [])).
  vm_compute. reflexivity.
Defined.

(** X27.  [run] of [chat.py] ends on an end signal.  When the microphone
    opens and the transcript heard first contains an end signal, [run]
    given at least one pass returns with [conversation_ended] true, the
    farewell is the last playback attempted, no Gemini call is made and
    [conversation_history] is as it was. *)
Theorem end_signal_ends_chat (desk : Voice2.Desk)
    (clock : list Voice2.sound -> Z) (extra_fuel : nat) (st : Chat.Studio)
    (text : string) :
  Chat.conversation_ended (Chat.assistant st) = false ->
  (forall h, Voice2.open_microphone desk h = Ok tt) ->
  (forall h, Voice2.recognize desk h = Ok text) ->
  Chat.check_conversation_end (lower text) = true ->
  exists (greeted : string) (st' : Chat.Studio),
    Chat.run desk clock (1 + extra_fuel) st = (Ok true, st') /\
    Chat.assistant st' = Chat.with_ended (Chat.assistant st) true /\
    Chat.sounds st'
    = (Chat.sounds st
         ++ [Voice2.Spoken greeted; Voice2.MicOpened; Voice2.Listened;
             Voice2.Spoken (Chat.clean_text_for_tts Chat.farewell)])%list.
Proof.
  intros Hopen Hmic Hrec Hend.
  assert (truthy (lower text) = true) as Ht
    by (destruct (lower text); [discriminate Hend | reflexivity]).
  unfold Chat.run, bind at 1. unfold Chat.get_self at 1.
  unfold bind at 1.
  destruct (speak_returns desk
              (Chat.greeting (Chat.client_data (Chat.assistant st))) st)
    as (greeted & ->).
  exists greeted.
  change (1 + extra_fuel) with (S extra_fuel). cbn [Chat.run_loop].
  unfold bind at 1. unfold Chat.get_self at 1. cbn [Chat.assistant].
  rewrite Hopen. unfold bind at 1.
  unfold Chat.listen, Chat.outside, try_except, bind at 1.
  rewrite Hmic. cbn [Chat.assistant Chat.sounds].
  unfold bind at 1. rewrite Hrec. unfold ret at 1.
  rewrite Ht, Hend. cbn [negb].
  unfold bind at 1. cbn [Chat.assistant Chat.sounds].
  assert (Chat.speak desk Chat.farewell
            (Chat.mkStudio (Chat.assistant st)
               (((Chat.sounds st ++ [Voice2.Spoken greeted])
                   ++ [Voice2.MicOpened]) ++ [Voice2.Listened])%list)
          = (Ok tt,
             Chat.mkStudio (Chat.assistant st)
               ((((Chat.sounds st ++ [Voice2.Spoken greeted])
                    ++ [Voice2.MicOpened]) ++ [Voice2.Listened])
                  ++ [Voice2.Spoken (Chat.clean_text_for_tts Chat.farewell)])%list))
    as ->.
  { unfold Chat.speak, Chat.outside, try_except, ret.
    change (negb (truthy Chat.farewell)
            || (String.length (strip Chat.farewell) <? 5)%nat) with false.
    cbv iota zeta. cbn [Chat.assistant Chat.sounds].
    destruct (Voice2.play desk _ _) as [[]|e]; reflexivity. }
  unfold bind, Chat.get_self, Chat.put_self, ret.
  cbn [Chat.assistant Chat.sounds].
  eexists. split; [reflexivity|]. split; [reflexivity|].
  cbn [Chat.sounds]. rewrite <- !app_assoc. reflexivity.
Qed.

Lemma end_signal_ends_chat_witness :
  exists (greeted : string) (st' : Chat.Studio),
    Chat.run (Voice2.mkDesk (fun _ _ => Ok "Hi!") (fun _ _ => Ok tt)
                            (fun _ => Ok tt) (fun _ => Ok "No, thank you"))
             (fun _ => 1700000000%Z) (1 + 0)
             (Chat.mkStudio (Chat.new_VoiceAssistant "local_1700000000") [])
    = (Ok true, st') /\
    Chat.assistant st'
    = Chat.with_ended (Chat.new_VoiceAssistant "local_1700000000") true /\
    Chat.sounds st'
    = ([] ++ [Voice2.Spoken greeted; Voice2.MicOpened; Voice2.Listened;
              Voice2.Spoken (Chat.clean_text_for_tts Chat.farewell)])%list.
Proof.
  apply (end_signal_ends_chat
           (Voice2.mkDesk (fun _ _ => Ok "Hi!") (fun _ _ => Ok tt)
                          (fun _ => Ok tt) (fun _ => Ok "No, thank you"))
           (fun _ => 1700000000%Z) 0
           (Chat.mkStudio (Chat.new_VoiceAssistant "local_1700000000") [])
           "No, thank you").
  - reflexivity.
  - intros h. reflexivity.
  - intros h. reflexivity.
  - vm_compute. reflexivity.
Defined.
